(** * The experiment execution and resource-estimation engine of lab-prototype

    A shallow embedding of
      - backend/quantum/manager.py            (QuantumModuleManager),
      - backend/quantum/modules/mock_adapter.py (MockQuantumAdapter),
      - backend/quantum/modules/antimatter.py   (AntimatterSimulator),
      - backend/quantum/modules/qiskit_adapter.py (QiskitAdapter),
      - backend/config.py, backend/schemas/experiments.py and the handlers
        of backend/api/routes,
    and the properties of these that the specification states or the code
    shows.

    Conventions of the embedding.
      - A Python [float] is an exact rational ([Q]); binary rounding error is
        outside the model, so a value that is a tie of [round] or of a
        format in exact arithmetic can fall on the other side in the code.
        [x ** 0.5] is kept symbolic ([VRoot]).
      - A Python [str] is its UTF-8 encoding, a [string] of bytes.
      - A Python [dict] is an association list in insertion order.
      - The random generators ([random], [numpy.random]) are an oracle: a
        stream of raw variates read through a cursor.
      - The wall clock advances only when the code sleeps; its rendering as
        ISO-8601 text is given by the environment.
      - A Python exception is the [Raise] outcome of a computation. *)

From Stdlib Require Import ZArith QArith Qround Qabs Qminmax Lia Lra Lqa.
From Stdlib Require Import String Ascii List Bool DecimalString Sorted.
Import ListNotations.

Local Open Scope string_scope.
Local Open Scope Z_scope.
Local Open Scope Q_scope.

(** ** Python values *)

Module Py.

#[warnings="-register-all"]
Inductive value : Type :=
| VNone
| VBool (b : bool)
| VInt (z : Z)
| VNum (q : Q)                       (* a float *)
| VRoot (q : Q)                      (* the float  q ** 0.5 *)
| VStr (s : string)
| VList (l : list value)
| VDict (d : list (string * value)).

Definition dict := list (string * value).

(** [d.get(k)] *)
Fixpoint get (k : string) (d : dict) : option value :=
  match d with
  | [] => None
  | (k', v) :: d' => if String.eqb k' k then Some v else get k d'
  end.

(** [k in d] *)
Definition contains (k : string) (d : dict) : bool :=
  match get k d with Some _ => true | None => false end.

(** [d[k] = v]: an existing key keeps its place, a new one goes last. *)
Fixpoint set (k : string) (v : value) (d : dict) : dict :=
  match d with
  | [] => [(k, v)]
  | (k', v') :: d' =>
      if String.eqb k' k then (k, v) :: d' else (k', v') :: set k v d'
  end.

(** [d.get(k, default)] *)
Definition get_default (k : string) (default : value) (d : dict) : value :=
  match get k d with Some v => v | None => default end.

Definition keys (d : dict) : list string := map fst d.

(** *** Strings *)

Definition lower_ascii (c : ascii) : ascii :=
  let n := nat_of_ascii c in
  if ((65 <=? n) && (n <=? 90))%nat then ascii_of_nat (n + 32) else c.

Definition upper_ascii (c : ascii) : ascii :=
  let n := nat_of_ascii c in
  if ((97 <=? n) && (n <=? 122))%nat then ascii_of_nat (n - 32) else c.

Fixpoint map_string (f : ascii -> ascii) (s : string) : string :=
  match s with
  | EmptyString => EmptyString
  | String c s' => String (f c) (map_string f s')
  end.

(** [s.lower()], on the ASCII letters.  The code only compares a lowered
    string with names made of the letters and digits of h2o, lih, h2, h, he,
    li, ch4, nh3 and co2, and no code point outside ASCII lowers to one of
    these. *)
Definition lower (s : string) : string := map_string lower_ascii s.

(** *** [str.upper()]

    A string is the UTF-8 encoding of the Python [str].  [s.upper()] maps
    every code point by its full uppercase mapping in the Unicode character
    database (version 14.0, the one of CPython 3.11): most code points that
    change map to one code point, at a constant distance within a run of
    code points; some map to two or three. *)

(** The code points whose uppercase form is more than one code point. *)
Definition uppercase_expansions : list (Z * list Z) :=
  [
    (223, [83; 83]); (329, [700; 78]); (496, [74; 780]);
    (912, [921; 776; 769]); (944, [933; 776; 769]); (1415, [1333; 1362]);
    (7830, [72; 817]); (7831, [84; 776]); (7832, [87; 778]);
    (7833, [89; 778]); (7834, [65; 702]); (8016, [933; 787]);
    (8018, [933; 787; 768]); (8020, [933; 787; 769]); (8022, [933; 787; 834]);
    (8064, [7944; 921]); (8065, [7945; 921]); (8066, [7946; 921]);
    (8067, [7947; 921]); (8068, [7948; 921]); (8069, [7949; 921]);
    (8070, [7950; 921]); (8071, [7951; 921]); (8072, [7944; 921]);
    (8073, [7945; 921]); (8074, [7946; 921]); (8075, [7947; 921]);
    (8076, [7948; 921]); (8077, [7949; 921]); (8078, [7950; 921]);
    (8079, [7951; 921]); (8080, [7976; 921]); (8081, [7977; 921]);
    (8082, [7978; 921]); (8083, [7979; 921]); (8084, [7980; 921]);
    (8085, [7981; 921]); (8086, [7982; 921]); (8087, [7983; 921]);
    (8088, [7976; 921]); (8089, [7977; 921]); (8090, [7978; 921]);
    (8091, [7979; 921]); (8092, [7980; 921]); (8093, [7981; 921]);
    (8094, [7982; 921]); (8095, [7983; 921]); (8096, [8040; 921]);
    (8097, [8041; 921]); (8098, [8042; 921]); (8099, [8043; 921]);
    (8100, [8044; 921]); (8101, [8045; 921]); (8102, [8046; 921]);
    (8103, [8047; 921]); (8104, [8040; 921]); (8105, [8041; 921]);
    (8106, [8042; 921]); (8107, [8043; 921]); (8108, [8044; 921]);
    (8109, [8045; 921]); (8110, [8046; 921]); (8111, [8047; 921]);
    (8114, [8122; 921]); (8115, [913; 921]); (8116, [902; 921]);
    (8118, [913; 834]); (8119, [913; 834; 921]); (8124, [913; 921]);
    (8130, [8138; 921]); (8131, [919; 921]); (8132, [905; 921]);
    (8134, [919; 834]); (8135, [919; 834; 921]); (8140, [919; 921]);
    (8146, [921; 776; 768]); (8147, [921; 776; 769]); (8150, [921; 834]);
    (8151, [921; 776; 834]); (8162, [933; 776; 768]); (8163, [933; 776; 769]);
    (8164, [929; 787]); (8166, [933; 834]); (8167, [933; 776; 834]);
    (8178, [8186; 921]); (8179, [937; 921]); (8180, [911; 921]);
    (8182, [937; 834]); (8183, [937; 834; 921]); (8188, [937; 921]);
    (64256, [70; 70]); (64257, [70; 73]); (64258, [70; 76]);
    (64259, [70; 70; 73]); (64260, [70; 70; 76]); (64261, [83; 84]);
    (64262, [83; 84]); (64275, [1348; 1350]); (64276, [1348; 1333]);
    (64277, [1348; 1339]); (64278, [1358; 1350]); (64279, [1348; 1341])
  ]%Z.

(** Runs [(first, last, stride, distance)]: every [stride]-th code point
    from [first] to [last] maps to the code point [distance] further. *)
Definition uppercase_runs : list (Z * Z * Z * Z) :=
  [
    (181, 181, 1, 743); (224, 246, 1, (-32)); (248, 254, 1, (-32));
    (255, 255, 1, 121); (257, 303, 2, (-1)); (305, 305, 1, (-232));
    (307, 311, 2, (-1)); (314, 328, 2, (-1)); (331, 375, 2, (-1));
    (378, 382, 2, (-1)); (383, 383, 1, (-300)); (384, 384, 1, 195);
    (387, 389, 2, (-1)); (392, 392, 1, (-1)); (396, 396, 1, (-1));
    (402, 402, 1, (-1)); (405, 405, 1, 97); (409, 409, 1, (-1));
    (410, 410, 1, 163); (414, 414, 1, 130); (417, 421, 2, (-1));
    (424, 424, 1, (-1)); (429, 429, 1, (-1)); (432, 432, 1, (-1));
    (436, 438, 2, (-1)); (441, 441, 1, (-1)); (445, 445, 1, (-1));
    (447, 447, 1, 56); (453, 453, 1, (-1)); (454, 454, 1, (-2));
    (456, 456, 1, (-1)); (457, 457, 1, (-2)); (459, 459, 1, (-1));
    (460, 460, 1, (-2)); (462, 476, 2, (-1)); (477, 477, 1, (-79));
    (479, 495, 2, (-1)); (498, 498, 1, (-1)); (499, 499, 1, (-2));
    (501, 501, 1, (-1)); (505, 543, 2, (-1)); (547, 563, 2, (-1));
    (572, 572, 1, (-1)); (575, 576, 1, 10815); (578, 578, 1, (-1));
    (583, 591, 2, (-1)); (592, 592, 1, 10783); (593, 593, 1, 10780);
    (594, 594, 1, 10782); (595, 595, 1, (-210)); (596, 596, 1, (-206));
    (598, 599, 1, (-205)); (601, 601, 1, (-202)); (603, 603, 1, (-203));
    (604, 604, 1, 42319); (608, 608, 1, (-205)); (609, 609, 1, 42315);
    (611, 611, 1, (-207)); (613, 613, 1, 42280); (614, 614, 1, 42308);
    (616, 616, 1, (-209)); (617, 617, 1, (-211)); (618, 618, 1, 42308);
    (619, 619, 1, 10743); (620, 620, 1, 42305); (623, 623, 1, (-211));
    (625, 625, 1, 10749); (626, 626, 1, (-213)); (629, 629, 1, (-214));
    (637, 637, 1, 10727); (640, 640, 1, (-218)); (642, 642, 1, 42307);
    (643, 643, 1, (-218)); (647, 647, 1, 42282); (648, 648, 1, (-218));
    (649, 649, 1, (-69)); (650, 651, 1, (-217)); (652, 652, 1, (-71));
    (658, 658, 1, (-219)); (669, 669, 1, 42261); (670, 670, 1, 42258);
    (837, 837, 1, 84); (881, 883, 2, (-1)); (887, 887, 1, (-1));
    (891, 893, 1, 130); (940, 940, 1, (-38)); (941, 943, 1, (-37));
    (945, 961, 1, (-32)); (962, 962, 1, (-31)); (963, 971, 1, (-32));
    (972, 972, 1, (-64)); (973, 974, 1, (-63)); (976, 976, 1, (-62));
    (977, 977, 1, (-57)); (981, 981, 1, (-47)); (982, 982, 1, (-54));
    (983, 983, 1, (-8)); (985, 1007, 2, (-1)); (1008, 1008, 1, (-86));
    (1009, 1009, 1, (-80)); (1010, 1010, 1, 7); (1011, 1011, 1, (-116));
    (1013, 1013, 1, (-96)); (1016, 1016, 1, (-1)); (1019, 1019, 1, (-1));
    (1072, 1103, 1, (-32)); (1104, 1119, 1, (-80)); (1121, 1153, 2, (-1));
    (1163, 1215, 2, (-1)); (1218, 1230, 2, (-1)); (1231, 1231, 1, (-15));
    (1233, 1327, 2, (-1)); (1377, 1414, 1, (-48)); (4304, 4346, 1, 3008);
    (4349, 4351, 1, 3008); (5112, 5117, 1, (-8)); (7296, 7296, 1, (-6254));
    (7297, 7297, 1, (-6253)); (7298, 7298, 1, (-6244));
    (7299, 7300, 1, (-6242)); (7301, 7301, 1, (-6243));
    (7302, 7302, 1, (-6236)); (7303, 7303, 1, (-6181));
    (7304, 7304, 1, 35266); (7545, 7545, 1, 35332); (7549, 7549, 1, 3814);
    (7566, 7566, 1, 35384); (7681, 7829, 2, (-1)); (7835, 7835, 1, (-59));
    (7841, 7935, 2, (-1)); (7936, 7943, 1, 8); (7952, 7957, 1, 8);
    (7968, 7975, 1, 8); (7984, 7991, 1, 8); (8000, 8005, 1, 8);
    (8017, 8023, 2, 8); (8032, 8039, 1, 8); (8048, 8049, 1, 74);
    (8050, 8053, 1, 86); (8054, 8055, 1, 100); (8056, 8057, 1, 128);
    (8058, 8059, 1, 112); (8060, 8061, 1, 126); (8112, 8113, 1, 8);
    (8126, 8126, 1, (-7205)); (8144, 8145, 1, 8); (8160, 8161, 1, 8);
    (8165, 8165, 1, 7); (8526, 8526, 1, (-28)); (8560, 8575, 1, (-16));
    (8580, 8580, 1, (-1)); (9424, 9449, 1, (-26)); (11312, 11359, 1, (-48));
    (11361, 11361, 1, (-1)); (11365, 11365, 1, (-10795));
    (11366, 11366, 1, (-10792)); (11368, 11372, 2, (-1));
    (11379, 11379, 1, (-1)); (11382, 11382, 1, (-1)); (11393, 11491, 2, (-1));
    (11500, 11502, 2, (-1)); (11507, 11507, 1, (-1));
    (11520, 11557, 1, (-7264)); (11559, 11559, 1, (-7264));
    (11565, 11565, 1, (-7264)); (42561, 42605, 2, (-1));
    (42625, 42651, 2, (-1)); (42787, 42799, 2, (-1)); (42803, 42863, 2, (-1));
    (42874, 42876, 2, (-1)); (42879, 42887, 2, (-1)); (42892, 42892, 1, (-1));
    (42897, 42899, 2, (-1)); (42900, 42900, 1, 48); (42903, 42921, 2, (-1));
    (42933, 42947, 2, (-1)); (42952, 42954, 2, (-1)); (42961, 42961, 1, (-1));
    (42967, 42969, 2, (-1)); (42998, 42998, 1, (-1));
    (43859, 43859, 1, (-928)); (43888, 43967, 1, (-38864));
    (65345, 65370, 1, (-32)); (66600, 66639, 1, (-40));
    (66776, 66811, 1, (-40)); (66967, 66977, 1, (-39));
    (66979, 66993, 1, (-39)); (66995, 67001, 1, (-39));
    (67003, 67004, 1, (-39)); (68800, 68850, 1, (-64));
    (71872, 71903, 1, (-32)); (93792, 93823, 1, (-32));
    (125218, 125251, 1, (-34))
  ]%Z.

(** The uppercase form of a code point. *)
Definition upper_code_point (cp : Z) : list Z :=
  if ((97 <=? cp) && (cp <=? 122))%Z then [(cp - 32)%Z]
  else if (cp <? 128)%Z then [cp]
  else
    match find (fun e => (fst e =? cp)%Z) uppercase_expansions with
    | Some e => snd e
    | None =>
        match find (fun r => let '(first, last, stride, _) := r in
                             ((first <=? cp) && (cp <=? last)
                              && ((cp - first) mod stride =? 0))%Z)
                   uppercase_runs with
        | Some (_, _, _, distance) => [(cp + distance)%Z]
        | None => [cp]
        end
    end.

Definition byte (n : Z) : ascii := ascii_of_N (Z.to_N n).

(** The UTF-8 encoding of a code point. *)
Definition utf8 (cp : Z) : string :=
  (if cp <? 128 then
     String (byte cp) ""
   else if cp <? 2048 then
     String (byte (192 + cp / 64)) (String (byte (128 + cp mod 64)) "")
   else if cp <? 65536 then
     String (byte (224 + cp / 4096))
       (String (byte (128 + cp / 64 mod 64))
          (String (byte (128 + cp mod 64)) ""))
   else
     String (byte (240 + cp / 262144))
       (String (byte (128 + cp / 4096 mod 64))
          (String (byte (128 + cp / 64 mod 64))
             (String (byte (128 + cp mod 64)) ""))))%Z.

(** The decoder between two characters, or within one: the bits read so
    far, the number of continuation bytes still to come, and the bytes
    read. *)
Inductive decoder : Type :=
| Between
| Within (bits : Z) (more : nat) (bytes : string).

Definition unread (st : decoder) : string :=
  match st with
  | Between => ""
  | Within _ _ bytes => bytes
  end.

(** Bytes that are no UTF-8 (no Python [str] has them) are kept. *)
Fixpoint upper_from (st : decoder) (s : string) : string :=
  match s with
  | EmptyString => unread st
  | String b rest =>
      let n := Z.of_N (N_of_ascii b) in
      if (n <? 128)%Z then
        unread st ++ String (upper_ascii b) (upper_from Between rest)
      else if (n <? 192)%Z then
        match st with
        | Within bits (S more) bytes =>
            let bits := (bits * 64 + (n - 128))%Z in
            match more with
            | O =>
                String.concat "" (map utf8 (upper_code_point bits))
                  ++ upper_from Between rest
            | S _ => upper_from (Within bits more (bytes ++ String b "")) rest
            end
        | _ => unread st ++ String b (upper_from Between rest)
        end
      else
        let start :=
          (if n <? 224 then Within (n - 192) 1 (String b "")
           else if n <? 240 then Within (n - 224) 2 (String b "")
           else Within (n - 240) 3 (String b ""))%Z in
        unread st ++ upper_from start rest
  end.

(** [s.upper()] *)
Definition upper (s : string) : string := upper_from Between s.

(** [s.startswith(p)] *)
Definition startswith (p s : string) : bool := String.prefix p s.

(** [s in l] for a list of strings *)
Definition str_in (s : string) (l : list string) : bool :=
  existsb (String.eqb s) l.

(** *** Numbers *)

(** [int(x)] on a float: truncation toward zero. *)
Definition trunc (q : Q) : Z :=
  if Qle_bool 0 q then Qfloor q else Qceiling q.

(** Rounding to the nearest integer, ties to even. *)
Definition round_half_even (q : Q) : Z :=
  let f := Qfloor q in
  let r := q - inject_Z f in
  match Qcompare r (1 # 2) with
  | Lt => f
  | Gt => (f + 1)%Z
  | Eq => if Z.even f then f else (f + 1)%Z
  end.

Definition pow10 (n : nat) : Z := Z.pow 10 (Z.of_nat n).

(** [round(x, n)], taken on the exact value of [x]: the nearest multiple of
    [10 ** -n], a tie going to the even one. *)
Definition round (q : Q) (n : nat) : Q :=
  inject_Z (round_half_even (q * inject_Z (pow10 n))) / inject_Z (pow10 n).

Definition string_of_Z (z : Z) : string :=
  NilZero.string_of_int (Z.to_int z).

Fixpoint zeros (n : nat) : string :=
  match n with O => "" | S n' => String "0" (zeros n') end.

(** The digits of [z], left-padded with zeros to [n] places. *)
Definition pad_left (n : nat) (z : Z) : string :=
  let s := NilEmpty.string_of_uint (N.to_uint (Z.to_N z)) in
  zeros (n - String.length s) ++ s.

(** [f"{x:.nf}"]: fixed-point notation with [n >= 1] decimals, taken on the
    exact value of [x] and rounded as [round] does. *)
Definition format_fixed (n : nat) (q : Q) : string :=
  let scaled := round_half_even (Qabs q * inject_Z (pow10 n)) in
  let whole := (scaled / pow10 n)%Z in
  let frac := (scaled mod pow10 n)%Z in
  (if Qlt_le_dec q 0 then "-" else "")
    ++ string_of_Z whole ++ "." ++ pad_left n frac.

End Py.

Import Py.

(** ** The world a call runs in: random oracle, clock, and what it did *)

(** What a call does to the thread that runs it.  [ThreadSleep] is
    [time.sleep]: the calling thread is blocked for the duration.  [Suspend]
    is an awaited sleep of a coroutine: a suspension point at which the
    scheduler may run other tasks. *)
Inductive effect : Type :=
| ThreadSleep (secs : Q)
| Suspend (secs : Q).

Record world : Type := World {
  draws : nat -> Q;        (* raw variates of the random generators *)
  pos : nat;               (* how many have been consumed *)
  now : Q;                 (* time.time() *)
  trace : list effect;     (* delays performed so far, oldest first *)
  isoformat : Q -> string  (* the ISO-8601 text of a clock reading *)
}.

Inductive exn : Type :=
| ValueError (msg : string)
| TypeError (msg : string)
| AttributeError (msg : string)
| KeyError (key : string).

(** [str(e)] *)
Definition str_of_exn (e : exn) : string :=
  match e with
  | ValueError m | TypeError m | AttributeError m => m
  | KeyError k => "'" ++ k ++ "'"
  end.

Inductive outcome (A : Type) : Type :=
| Ok (a : A)
| Raise (e : exn).
Arguments Ok {A} a.
Arguments Raise {A} e.

(** Computations that read and change the world and may raise. *)
Definition M (A : Type) : Type := world -> outcome A * world.

Definition ret {A} (a : A) : M A := fun w => (Ok a, w).

Definition bind {A B} (c : M A) (k : A -> M B) : M B :=
  fun w => match c w with
           | (Ok a, w') => k a w'
           | (Raise e, w') => (Raise e, w')
           end.

Definition raise {A} (e : exn) : M A := fun w => (Raise e, w).

Notation "x <- c ;; k" := (bind c (fun x => k))
  (at level 61, c at next level, right associativity).
Notation "c ;;; k" := (bind c (fun _ => k))
  (at level 61, right associativity).

(** [[f(x) for x in xs]], effects in list order. *)
Fixpoint mapM {A B} (f : A -> M B) (xs : list A) : M (list B) :=
  match xs with
  | [] => ret []
  | x :: xs' => y <- f x ;; ys <- mapM f xs' ;; ret (y :: ys)
  end.

(** A [for] loop that threads an accumulator and appends one item per turn. *)
Fixpoint foldM {A S B} (f : S -> A -> M (S * B)) (s : S) (xs : list A)
  : M (S * list B) :=
  match xs with
  | [] => ret (s, [])
  | x :: xs' =>
      r <- f s x ;;
      rs <- foldM f (fst r) xs' ;;
      ret (fst rs, snd r :: snd rs)
  end.

(** [range(n)] for an integer [n]: empty when [n <= 0]. *)
Definition range (n : Z) : list Z := map Z.of_nat (seq 0 (Z.to_nat n)).

(** [range(v)] for a Python value: only integers (and booleans) index. *)
Definition range_of (v : value) : M (list Z) :=
  match v with
  | VInt n => ret (range n)
  | VBool b => ret (range (if b then 1 else 0)%Z)
  | VNum _ | VRoot _ =>
      raise (TypeError "'float' object cannot be interpreted as an integer")
  | VStr _ =>
      raise (TypeError "'str' object cannot be interpreted as an integer")
  | VNone =>
      raise (TypeError "'NoneType' object cannot be interpreted as an integer")
  | VList _ =>
      raise (TypeError "'list' object cannot be interpreted as an integer")
  | VDict _ =>
      raise (TypeError "'dict' object cannot be interpreted as an integer")
  end.

(** [d[k]] where the code then uses the entry as a number. *)
Definition getnum (k : string) (d : dict) : M Q :=
  match get k d with
  | Some (VNum q) => ret q
  | Some (VInt z) => ret (inject_Z z)
  | Some _ => raise (TypeError "unsupported operand type(s)")
  | None => raise (KeyError k)
  end.

(** [d[k]] *)
Definition getitem (k : string) (d : dict) : M value :=
  match get k d with
  | Some v => ret v
  | None => raise (KeyError k)
  end.

(** *** The standard library calls the code makes *)

Definition next_draw : M Q :=
  fun w => (Ok (draws w (pos w)),
            World (draws w) (S (pos w)) (now w) (trace w) (isoformat w)).

(** [random.uniform(a, b)] is [a + (b - a) * random()]. *)
Definition random_uniform (a b : Q) : M Q :=
  u <- next_draw ;; ret (a + (b - a) * u).

(** [random.randint(a, b)]: an integer of [a..b], both ends included. *)
Definition random_randint (a b : Z) : M Z :=
  u <- next_draw ;; ret (a + Qfloor (u * inject_Z (b - a + 1)))%Z.

(** [random.choice(seq)] of a non-empty list of strings. *)
Definition random_choice (l : list string) : M string :=
  u <- next_draw ;;
  ret (nth (Z.to_nat (Qfloor (u * inject_Z (Z.of_nat (length l))))) l "").

(** [numpy.random.randint(low, high)]: [high] is excluded. *)
Definition np_random_randint (low high : Z) : M Z :=
  u <- next_draw ;; ret (low + Qfloor (u * inject_Z (high - low)))%Z.

(** [numpy.random.normal(loc, scale)]: the raw variate is the standard
    normal deviate. *)
Definition np_random_normal (loc scale : Q) : M Q :=
  z <- next_draw ;; ret (loc + scale * z).

(** [time.time()] *)
Definition time_time : M Q := fun w => (Ok (now w), w).

(** [time.sleep(secs)] blocks the calling thread for [secs] seconds. *)
Definition time_sleep (secs : Q) : M unit :=
  fun w =>
    if Qle_bool 0 secs
    then (Ok tt, World (draws w) (pos w) (now w + secs)
                       (trace w ++ [ThreadSleep secs]) (isoformat w))
    else (Raise (ValueError "sleep length must be non-negative"), w).

(** [datetime.now().isoformat()] *)
Definition datetime_now_isoformat : M value :=
  fun w => (Ok (VStr (isoformat w (now w))), w).

(** The variates a computation may read from cursor [pos w] on are unit
    variates: each lies in [0, 1). *)
Definition unit_draws (w : world) : Prop :=
  forall n, (pos w <= n)%nat -> 0 <= draws w n /\ draws w n < 1.

(** ** mock_adapter.py *)

Module MockQuantumAdapter.

Record Atom : Type := mkAtom {
  symbol : string; x : Q; y : Q; z : Q
}.

Record Molecule : Type := mkMolecule {
  id : string;
  name : string;
  description : string;
  atoms : list Atom;
  charge : Z;
  multiplicity : Z
}.

Definition h2o : Molecule :=
  mkMolecule "h2o" "Water" "Water molecule (H2O)"
    [ mkAtom "O" 0.0 0.0 0.0;
      mkAtom "H" 0.0 0.757 0.587;
      mkAtom "H" 0.0 (-0.757) 0.587 ] 0 1.

Definition ch4 : Molecule :=
  mkMolecule "ch4" "Methane" "Methane molecule (CH4)"
    [ mkAtom "C" 0.0 0.0 0.0;
      mkAtom "H" 0.626 0.626 0.626;
      mkAtom "H" (-0.626) (-0.626) 0.626;
      mkAtom "H" (-0.626) 0.626 (-0.626);
      mkAtom "H" 0.626 (-0.626) (-0.626) ] 0 1.

Definition nh3 : Molecule :=
  mkMolecule "nh3" "Ammonia" "Ammonia molecule (NH3)"
    [ mkAtom "N" 0.0 0.0 0.0;
      mkAtom "H" 0.0 (-0.934) (-0.374);
      mkAtom "H" 0.809 0.467 (-0.374);
      mkAtom "H" (-0.809) 0.467 (-0.374) ] 0 1.

Definition co2 : Molecule :=
  mkMolecule "co2" "Carbon Dioxide" "Carbon dioxide molecule (CO2)"
    [ mkAtom "C" 0.0 0.0 0.0;
      mkAtom "O" 0.0 0.0 1.16;
      mkAtom "O" 0.0 0.0 (-1.16) ] 0 1.

Definition SYSTEMS : list Molecule := [h2o; ch4; nh3; co2].

(** [self.reference_energies], in hartree. *)
Definition reference_energies : list (string * list (string * Q)) :=
  [ ("h2o", [ ("sto-3g", -74.963); ("3-21g", -75.585); ("6-31g", -76.010);
              ("cc-pvdz", -76.241); ("cc-pvtz", -76.332) ]);
    ("ch4", [ ("sto-3g", -39.726); ("3-21g", -40.195); ("6-31g", -40.462);
              ("cc-pvdz", -40.513); ("cc-pvtz", -40.535) ]);
    ("nh3", [ ("sto-3g", -55.454); ("3-21g", -55.987); ("6-31g", -56.215);
              ("cc-pvdz", -56.298); ("cc-pvtz", -56.395) ]);
    ("co2", [ ("sto-3g", -185.253); ("3-21g", -186.565); ("6-31g", -187.675);
              ("cc-pvdz", -187.723); ("cc-pvtz", -187.968) ]) ].

(** [table.get(k)] on a table with string keys. *)
Fixpoint lookup {A} (k : string) (t : list (string * A)) : option A :=
  match t with
  | [] => None
  | (k', a) :: t' => if String.eqb k' k then Some a else lookup k t'
  end.

(** [table.get(k, default)] *)
Definition lookup_default {A} (k : string) (default : A)
  (t : list (string * A)) : A :=
  match lookup k t with Some a => a | None => default end.

(** [self.reference_energies.get(system_id, {}).get(basis_set)] *)
Definition reference_energy_of (system_id basis_set : string) : option Q :=
  lookup basis_set (lookup_default system_id [] reference_energies).

Definition num_atoms (m : Molecule) : Q :=
  inject_Z (Z.of_nat (length (atoms m))).

Definition _simulate_calculation_time
  (molecule_data : Molecule) (basis_set : string) (factor : Q) : M unit :=
  let basis_factors :=
    [ ("sto-3g", 0.1); ("3-21g", 0.2); ("6-31g", 0.3);
      ("cc-pvdz", 0.5); ("cc-pvtz", 1.0) ] in
  let basis_factor := lookup_default basis_set 0.1 basis_factors in
  let sim_time := num_atoms molecule_data * basis_factor * factor * 0.05 in
  time_sleep sim_time.

Definition _calculate_runtime
  (molecule_data : Molecule) (basis_set : string) (factor : Q) : M Q :=
  let basis_factors :=
    [ ("sto-3g", 1.0); ("3-21g", 2.0); ("6-31g", 3.0);
      ("cc-pvdz", 5.0); ("cc-pvtz", 10.0) ] in
  let basis_factor := lookup_default basis_set 1.0 basis_factors in
  let base_time :=
    num_atoms molecule_data * num_atoms molecule_data * basis_factor * factor in
  r <- random_uniform 0 0.4 ;;
  ret (base_time * (0.8 + r)).

Definition _get_num_electrons (element : string) : Z :=
  let element_electrons :=
    [ ("H", 1); ("He", 2); ("Li", 3); ("Be", 4); ("B", 5); ("C", 6);
      ("N", 7); ("O", 8); ("F", 9); ("Ne", 10); ("Na", 11); ("Mg", 12);
      ("Al", 13); ("Si", 14); ("P", 15); ("S", 16); ("Cl", 17);
      ("Ar", 18) ]%Z in
  lookup_default element 6%Z element_electrons.

Definition _format_time (seconds : Q) : string :=
  if Qlt_le_dec seconds 60 then
    format_fixed 1 seconds ++ " seconds"
  else if Qlt_le_dec seconds 3600 then
    let minutes := seconds / 60 in
    format_fixed 1 minutes ++ " minutes"
  else if Qlt_le_dec seconds 86400 then
    let hours := seconds / 3600 in
    format_fixed 1 hours ++ " hours"
  else
    let days := seconds / 86400 in
    format_fixed 1 days ++ " days".

(** The reference energy of a run: the table's entry, or a synthesized one. *)
Definition reference_or_synthesized
  (molecule_data : Molecule) (basis_set : string) : M Q :=
  match reference_energy_of (id molecule_data) basis_set with
  | Some e => ret e
  | None =>
      r <- random_uniform (-0.5) 0.5 ;;
      ret (-50.0 - num_atoms molecule_data * 10.0 + r)
  end.

Definition orbital (num_orbitals : Z) (i : Z) : M value :=
  e <- random_uniform (-0.01) 0.01 ;;
  s <- random_choice ["A1"; "A2"; "B1"; "B2"] ;;
  ret (VDict
    [ ("index", VInt i);
      ("energy", VNum (-10.0 + inject_Z i * 0.5 + e));
      ("occupation", VNum (if (i <? num_orbitals / 2)%Z then 2.0 else 0.0));
      ("symmetry", VStr s) ]).

Definition run_ground_state_calculation
  (molecule_data : Molecule) (basis_set : string) (kwargs : dict) : M dict :=
  _simulate_calculation_time molecule_data basis_set 1.0 ;;;
  reference_energy <- reference_or_synthesized molecule_data basis_set ;;
  noise <- random_uniform (-0.001) 0.001 ;;
  let energy := reference_energy + noise in
  let num_orbitals := (Z.of_nat (length (atoms molecule_data)) * 2)%Z in
  orbitals <- mapM (orbital num_orbitals) (range num_orbitals) ;;
  run_time <- _calculate_runtime molecule_data basis_set 1.0 ;;
  iterations <- random_randint 10 30 ;;
  d1 <- random_uniform (-0.5) 0.5 ;;
  d2 <- random_uniform (-0.5) 0.5 ;;
  d3 <- random_uniform (-0.5) 0.5 ;;
  timestamp <- datetime_now_isoformat ;;
  ret [ ("energy", VNum energy);
        ("reference_energy", VNum reference_energy);
        ("iterations", VInt iterations);
        ("runtime", VNum run_time);
        ("orbitals", VList orbitals);
        ("converged", VBool true);
        ("dipole_moment", VList [VNum d1; VNum d2; VNum d3]);
        ("method", VStr "RHF");
        ("basis_set", VStr basis_set);
        ("timestamp", timestamp) ].

Definition excited_state (ground_state : dict) (i : Z) : M value :=
  r <- random_uniform (-0.02) 0.02 ;;
  let excitation_energy := inject_Z (i + 1) * 0.1 + r in
  ground_energy <- getnum "energy" ground_state ;;
  let total_energy := ground_energy + excitation_energy in
  oscillator_strength <- random_uniform 0.01 1.0 ;;
  c <- random_uniform 0.7 0.95 ;;
  ret (VDict
    [ ("state", VInt (i + 1));
      ("excitation_energy_ev", VNum (excitation_energy * 27.2114));
      ("excitation_energy", VNum excitation_energy);
      ("total_energy", VNum total_energy);
      ("oscillator_strength", VNum oscillator_strength);
      ("description",
       VStr ("HOMO->" ++ string_of_Z i ++ " (" ++ format_fixed 2 c ++ ")")) ]).

Definition run_excited_state_calculation
  (molecule_data : Molecule) (basis_set : string) (kwargs : dict) : M dict :=
  ground_state <- run_ground_state_calculation molecule_data basis_set kwargs ;;
  _simulate_calculation_time molecule_data basis_set 1.5 ;;;
  let num_states := get_default "num_states" (VInt 3) kwargs in
  indices <- range_of num_states ;;
  excited_states <- mapM (excited_state ground_state) indices ;;
  run_time <- _calculate_runtime molecule_data basis_set 1.5 ;;
  energy <- getitem "energy" ground_state ;;
  reference_energy <- getitem "reference_energy" ground_state ;;
  iterations <- random_randint 15 45 ;;
  timestamp <- datetime_now_isoformat ;;
  ret [ ("energy", energy);
        ("reference_energy", reference_energy);
        ("iterations", VInt iterations);
        ("runtime", VNum run_time);
        ("excited_states", VList excited_states);
        ("ground_state_data", VDict ground_state);
        ("method", VStr "TD-RHF");
        ("basis_set", VStr basis_set);
        ("timestamp", timestamp) ].

Definition optimized_atom (atom : Atom) : M value :=
  rx <- random_uniform (-0.02) 0.02 ;;
  ry <- random_uniform (-0.02) 0.02 ;;
  rz <- random_uniform (-0.02) 0.02 ;;
  ret (VDict
    [ ("symbol", VStr (symbol atom));
      ("x", VNum (x atom + rx));
      ("y", VNum (y atom + ry));
      ("z", VNum (z atom + rz)) ]).

Definition optimization_step (energy : Q) (num_steps : Z)
  (current_energy : Q) (i : Z) : M (Q * value) :=
  r <- random_uniform (-0.001) 0.001 ;;
  let step_energy :=
    current_energy
    - (current_energy - energy) * (inject_Z (i + 1) / inject_Z num_steps)
    + r in
  g <- random_uniform (-0.005) 0.005 ;;
  let rms_gradient := 0.1 * (1.0 - inject_Z i / inject_Z num_steps) + g in
  f <- random_uniform (-0.01) 0.01 ;;
  ret (step_energy,
       VDict [ ("step", VInt (i + 1));
               ("energy", VNum step_energy);
               ("rms_gradient", VNum rms_gradient);
               ("max_force", VNum (rms_gradient * 2 + f)) ]).

Definition run_geometry_optimization
  (molecule_data : Molecule) (basis_set : string) (kwargs : dict) : M dict :=
  _simulate_calculation_time molecule_data basis_set 2.0 ;;;
  reference_energy <- reference_or_synthesized molecule_data basis_set ;;
  noise <- random_uniform (-0.001) 0.001 ;;
  let energy := reference_energy + noise in
  optimized_atoms <- mapM optimized_atom (atoms molecule_data) ;;
  num_steps <- random_randint 5 15 ;;
  start <- random_uniform 0.1 0.3 ;;
  let current_energy := energy + start in
  steps <- foldM (optimization_step energy num_steps) current_energy
                 (range num_steps) ;;
  let optimization_steps := snd steps in
  run_time <- _calculate_runtime molecule_data basis_set 2.0 ;;
  iterations <- random_randint 20 50 ;;
  timestamp <- datetime_now_isoformat ;;
  ret [ ("energy", VNum energy);
        ("reference_energy", VNum reference_energy);
        ("iterations", VInt iterations);
        ("runtime", VNum run_time);
        ("optimized_geometry",
         VDict [ ("atoms", VList optimized_atoms);
                 ("charge", VInt (charge molecule_data));
                 ("multiplicity", VInt (multiplicity molecule_data)) ]);
        ("optimization_steps", VList optimization_steps);
        ("converged", VBool true);
        ("method", VStr "RHF");
        ("basis_set", VStr basis_set);
        ("timestamp", timestamp) ].

Definition displacement (j : Z) : M value :=
  dx <- random_uniform (-0.1) 0.1 ;;
  dy <- random_uniform (-0.1) 0.1 ;;
  dz <- random_uniform (-0.1) 0.1 ;;
  ret (VDict [ ("atom", VInt j); ("dx", VNum dx);
               ("dy", VNum dy); ("dz", VNum dz) ]).

(** One vibrational mode, kept with its frequency. *)
Definition vibration (n_atoms : Z) (i : Z) : M (Q * value) :=
  r <- random_uniform (-50) 50 ;;
  let frequency := inject_Z ((i + 1) * 100) + r in
  intensity <- random_uniform 0 100 ;;
  displacements <- mapM displacement (range n_atoms) ;;
  reduced_mass <- random_uniform 1.0 5.0 ;;
  force_constant <- random_uniform 0.1 0.5 ;;
  ret (frequency,
       VDict [ ("mode", VInt (i + 1));
               ("frequency", VNum frequency);
               ("intensity", VNum intensity);
               ("reduced_mass", VNum reduced_mass);
               ("force_constant", VNum force_constant);
               ("displacements", VList displacements) ]).

(** [sum(max(0, v["frequency"]) for v in vibrations)] *)
Definition sum_nonnegative (frequencies : list Q) : Q :=
  fold_left (fun acc f => acc + Qmax 0 f) frequencies 0.

Definition run_vibrational_analysis
  (molecule_data : Molecule) (basis_set : string) (kwargs : dict) : M dict :=
  opt_result <- run_geometry_optimization molecule_data basis_set kwargs ;;
  _simulate_calculation_time molecule_data basis_set 2.5 ;;;
  let n_atoms := Z.of_nat (length (atoms molecule_data)) in
  let num_modes := (3 * n_atoms - 6)%Z in
  modes <- mapM (vibration n_atoms) (range num_modes) ;;
  let vibrations := map snd modes in
  run_time <- _calculate_runtime molecule_data basis_set 2.5 ;;
  energy <- getitem "energy" opt_result ;;
  reference_energy <- getitem "reference_energy" opt_result ;;
  iterations <- random_randint 30 70 ;;
  optimized_geometry <- getitem "optimized_geometry" opt_result ;;
  timestamp <- datetime_now_isoformat ;;
  ret [ ("energy", energy);
        ("reference_energy", reference_energy);
        ("iterations", VInt iterations);
        ("runtime", VNum run_time);
        ("optimized_geometry", optimized_geometry);
        ("vibrations", VList vibrations);
        ("zero_point_energy",
         VNum (sum_nonnegative (map fst modes) * 0.5 / 4.184 / 1000));
        ("method", VStr "RHF");
        ("basis_set", VStr basis_set);
        ("timestamp", timestamp) ].

Definition run_dipole_moment
  (molecule_data : Molecule) (basis_set : string) (kwargs : dict) : M dict :=
  ground_state <- run_ground_state_calculation molecule_data basis_set kwargs ;;
  _simulate_calculation_time molecule_data basis_set 0.5 ;;;
  dx <- random_uniform (-2.0) 2.0 ;;
  dy <- random_uniform (-2.0) 2.0 ;;
  dz <- random_uniform (-2.0) 2.0 ;;
  let total := VRoot (dx * dx + dy * dy + dz * dz) in
  run_time <- _calculate_runtime molecule_data basis_set 0.5 ;;
  energy <- getitem "energy" ground_state ;;
  reference_energy <- getitem "reference_energy" ground_state ;;
  iterations <- getitem "iterations" ground_state ;;
  timestamp <- datetime_now_isoformat ;;
  ret [ ("energy", energy);
        ("reference_energy", reference_energy);
        ("iterations", iterations);
        ("runtime", VNum run_time);
        ("dipole_moment",
         VDict [ ("x", VNum dx); ("y", VNum dy); ("z", VNum dz);
                 ("total", total) ]);
        ("method", VStr "RHF");
        ("basis_set", VStr basis_set);
        ("timestamp", timestamp) ].

Definition run_experiment (experiment_type : string)
  (molecule_data : Molecule) (basis_set : string) (kwargs : dict) : M dict :=
  if String.eqb experiment_type "ground_state" then
    run_ground_state_calculation molecule_data basis_set kwargs
  else if String.eqb experiment_type "excited_state" then
    run_excited_state_calculation molecule_data basis_set kwargs
  else if String.eqb experiment_type "geometry_optimization" then
    run_geometry_optimization molecule_data basis_set kwargs
  else if String.eqb experiment_type "vibrational_analysis" then
    run_vibrational_analysis molecule_data basis_set kwargs
  else if String.eqb experiment_type "dipole_moment" then
    run_dipole_moment molecule_data basis_set kwargs
  else
    raise (ValueError ("Unknown experiment type: " ++ experiment_type)).

(** [table.get(v, default)] where the key [v] is any Python value: a list or
    a dict cannot be hashed, any other non-string is simply not a key. *)
Definition factor_of (v : value) (default : Q) (t : list (string * Q))
  : outcome Q :=
  match v with
  | VStr s => Ok (lookup_default s default t)
  | VList _ => Raise (TypeError "unhashable type: 'list'")
  | VDict _ => Raise (TypeError "unhashable type: 'dict'")
  | _ => Ok default
  end.

Definition basis_factors : list (string * Q) :=
  [ ("sto-3g", 1.0); ("3-21g", 2.0); ("6-31g", 3.0);
    ("cc-pvdz", 4.0); ("cc-pvtz", 8.0) ].

Definition experiment_factors : list (string * Q) :=
  [ ("ground_state", 1.0); ("excited_state", 2.5);
    ("geometry_optimization", 3.0); ("vibrational_analysis", 5.0);
    ("dipole_moment", 1.2) ].

Definition num_electrons_of (molecule_data : Molecule) : Z :=
  fold_left (fun acc atom => (acc + _get_num_electrons (symbol atom))%Z)
            (atoms molecule_data) 0%Z.

Definition estimate_resources
  (molecule_data : Molecule) (basis_set experiment_type : value)
  : outcome dict :=
  let n_atoms := Z.of_nat (length (atoms molecule_data)) in
  let num_electrons := num_electrons_of molecule_data in
  match factor_of basis_set 1.0 basis_factors with
  | Raise e => Raise e
  | Ok basis_factor =>
  match factor_of experiment_type 1.0 experiment_factors with
  | Raise e => Raise e
  | Ok experiment_factor =>
      let e2 := inject_Z (num_electrons ^ 2) in
      let memory_mb := e2 * basis_factor * experiment_factor * 0.1 in
      let disk_mb := memory_mb * 5 in
      let cpu_hours := e2 * basis_factor * experiment_factor * 0.01 in
      let runtime_sec := cpu_hours * 3600 / 8 in
      Ok [ ("memory_mb", VNum (round memory_mb 2));
           ("disk_mb", VNum (round disk_mb 2));
           ("cpu_hours", VNum (round cpu_hours 2));
           ("estimated_runtime_sec", VNum (round runtime_sec 2));
           ("estimated_runtime_human", VStr (_format_time runtime_sec));
           ("basis_set_complexity", VNum basis_factor);
           ("experiment_complexity", VNum experiment_factor);
           ("molecule_size",
            VDict [ ("atoms", VInt n_atoms);
                    ("electrons", VInt num_electrons) ]) ]
  end end.

(** [get_molecule_data]: the catalog entry whose id is exactly [system_id]. *)
Definition get_molecule_data (system_id : string) : outcome Molecule :=
  match find (fun system => String.eqb (id system) system_id) SYSTEMS with
  | Some system => Ok system
  | None => Raise (ValueError ("Unknown system ID: " ++ system_id))
  end.

End MockQuantumAdapter.

(** ** antimatter.py *)

Module AntimatterSimulator.

Definition simulate_positronium (configuration : dict) : M dict :=
  start_time <- time_time ;;
  let reduced_mass := 0.5 in
  let n := 1%Z in
  let binding_energy := -13.6 / inject_Z (n * n) in
  let energy_hartree := binding_energy / 27.211386 in
  let reference_energy := -0.25 in
  iterations <- np_random_randint 50 150 ;;
  let convergence := Qabs (energy_hartree - reference_energy) in
  let data :=
    [ ("reduced_mass", VNum reduced_mass);
      ("principal_quantum_number", VInt n);
      ("binding_energy_ev", VNum binding_energy);
      ("annihilation_rate", VNum 7.99e9);
      ("lifetime", VNum 125e-9);
      ("system_type", VStr "para-positronium") ] in
  end_time <- time_time ;;
  let runtime := end_time - start_time in
  ret [ ("energy", VNum energy_hartree);
        ("reference_energy", VNum reference_energy);
        ("iterations", VInt iterations);
        ("runtime", VNum runtime);
        ("convergence", VNum convergence);
        ("data", VDict data) ].

Definition simulate_antihydrogen (configuration : dict) : M dict :=
  start_time <- time_time ;;
  let n := 1%Z in
  let energy_ev := -13.6 / inject_Z (n * n) in
  let energy_hartree := energy_ev / 27.211386 in
  cpt_violation <- np_random_normal 0 1e-7 ;;
  let energy_hartree := energy_hartree + cpt_violation in
  let reference_energy := -0.5 in
  iterations <- np_random_randint 30 100 ;;
  let convergence := Qabs (energy_hartree - reference_energy) in
  let data :=
    [ ("principal_quantum_number", VInt n);
      ("cpt_violation", VNum cpt_violation);
      ("gravity_effect", VStr "not calculated");
      ("binding_energy_ev", VNum energy_ev);
      ("system_type", VStr "antihydrogen") ] in
  end_time <- time_time ;;
  let runtime := end_time - start_time in
  ret [ ("energy", VNum energy_hartree);
        ("reference_energy", VNum reference_energy);
        ("iterations", VInt iterations);
        ("runtime", VNum runtime);
        ("convergence", VNum convergence);
        ("data", VDict data) ].

End AntimatterSimulator.

(** ** manager.py *)

Module QuantumModuleManager.

Section Manager.

(** Which adapter the import at module load selected. *)
Variable USING_MOCK : bool.

(** [QiskitAdapter.calculate_ground_state], which runs on the external
    Qiskit stack. *)
Variable calculate_ground_state : string -> string -> dict -> M dict.

(** [for system in SYSTEMS: if system["id"].lower() == system_id.lower()] *)
Definition find_system (system_id : string)
  : option MockQuantumAdapter.Molecule :=
  find (fun system =>
          String.eqb (lower (MockQuantumAdapter.id system)) (lower system_id))
       MockQuantumAdapter.SYSTEMS.

(** The name of a value's type, as error messages print it. *)
Definition type_name (v : value) : string :=
  match v with
  | VNone => "NoneType"
  | VBool _ => "bool"
  | VInt _ => "int"
  | VNum _ | VRoot _ => "float"
  | VStr _ => "str"
  | VList _ => "list"
  | VDict _ => "dict"
  end.

(** [v.upper()] *)
Definition upper_of (v : value) : outcome string :=
  match v with
  | VStr s => Ok (upper s)
  | _ => Raise (AttributeError
                  ("'" ++ type_name v ++ "' object has no attribute 'upper'"))
  end.

(** The generic estimate, after the mock path did not return. *)
Definition generic_estimate (system_id : string) (configuration : dict)
  : outcome dict :=
  let qubits := 2%Z in
  let depth := 10 in
  let runtime_estimate := "2-5 seconds" in
  let '(qubits, depth, runtime_estimate) :=
    if str_in (lower system_id) ["h2o"; "lih"] then
      ((qubits + 6)%Z, depth + 30, "10-30 seconds")
    else if str_in (lower system_id) ["h2"] then
      ((qubits + 2)%Z, depth + 10, runtime_estimate)
    else if str_in (lower system_id) ["h"; "he"; "li"] then
      ((qubits + 1)%Z, depth, runtime_estimate)
    else (qubits, depth, runtime_estimate) in
  match upper_of (get_default "algorithm" (VStr "") configuration) with
  | Raise e => Raise e
  | Ok algorithm =>
  let '(qubits, depth, runtime_estimate) :=
    if String.eqb algorithm "VQE" then
      (qubits, depth * 1.5, runtime_estimate)
    else if String.eqb algorithm "QAOA" then
      (qubits, depth * 2, runtime_estimate)
    else if String.eqb algorithm "QPE" then
      ((qubits * 2)%Z, depth * 3, "30-60 seconds")
    else (qubits, depth, runtime_estimate) in
  match upper_of (get_default "ansatz" (VStr "") configuration) with
  | Raise e => Raise e
  | Ok ansatz =>
  let '(qubits, depth) :=
    if String.eqb ansatz "UCCSD" then ((qubits + 2)%Z, depth * 2)
    else if String.eqb ansatz "HWE" then (qubits, depth + 10)
    else (qubits, depth) in
  Ok [ ("qubits", VInt qubits);
       ("depth", VInt (trunc depth));
       ("runtime", VStr runtime_estimate) ]
  end end.

(** The [if USING_MOCK:] block: what it returns, if it returns.  An
    exception inside it is caught (and logged) by its [except Exception]. *)
Definition mock_estimate (system_id : string) (configuration : dict)
  : option dict :=
  if USING_MOCK then
    match find_system system_id with
    | Some molecule_data =>
        match MockQuantumAdapter.estimate_resources molecule_data
                (get_default "basis_set" (VStr "sto-3g") configuration)
                (get_default "experiment_type" (VStr "ground_state")
                             configuration)
        with
        | Ok estimate => Some estimate
        | Raise _ => None
        end
    | None => None
    end
  else None.

Definition estimate_resources (system_id : string) (configuration : dict)
  : outcome dict :=
  match mock_estimate system_id configuration with
  | Some estimate => Ok estimate
  | None => generic_estimate system_id configuration
  end.

(** Names of the parameters of [MockQuantumAdapter.run_experiment]: a keyword of
    [**configuration] with one of these names collides with an argument
    already given by position. *)
Definition positional_names : list string :=
  ["self"; "experiment_type"; "molecule_data"; "basis_set"].

Fixpoint bind_kwargs (configuration : dict) : outcome dict :=
  match configuration with
  | [] => Ok []
  | (k, v) :: rest =>
      if str_in k positional_names then
        Raise (TypeError
          ("MockQuantumAdapter.run_experiment() got multiple values for argument '"
           ++ k ++ "'"))
      else match bind_kwargs rest with
           | Ok kwargs => Ok ((k, v) :: kwargs)
           | Raise e => Raise e
           end
  end.

Definition lift {A} (o : outcome A) : M A := fun w => (o, w).

Definition experiment_map : list (string * string) :=
  [ ("ground", "ground_state");
    ("excited", "excited_state");
    ("geometry", "geometry_optimization");
    ("vibrational", "vibrational_analysis");
    ("dipole", "dipole_moment") ].

(** [result["data"]["message"] = msg] *)
Definition set_data_message (msg : string) (result : dict) : M dict :=
  match get "data" result with
  | Some (VDict data) =>
      ret (set "data" (VDict (set "message" (VStr msg) data)) result)
  | Some v =>
      raise (TypeError ("'" ++ type_name v
                        ++ "' object does not support item assignment"))
  | None => raise (KeyError "data")
  end.

(** The body of the [try] block. *)
Definition run_experiment_try
  (system_id basis_set experiment_type : string) (configuration : dict)
  : M dict :=
  result <-
    (if startswith "anti_" system_id then
       if String.eqb system_id "anti_H" then
         AntimatterSimulator.simulate_antihydrogen configuration
       else if String.eqb system_id "anti_Ps" then
         AntimatterSimulator.simulate_positronium configuration
       else
         raise (ValueError ("Unsupported antimatter system: " ++ system_id))
     else if USING_MOCK then
       match find_system system_id with
       | None => raise (ValueError ("Unknown system ID: " ++ system_id))
       | Some molecule_data =>
           let mock_experiment_type :=
             MockQuantumAdapter.lookup_default
               experiment_type experiment_type experiment_map in
           kwargs <- lift (bind_kwargs configuration) ;;
           result <- MockQuantumAdapter.run_experiment
                       mock_experiment_type molecule_data basis_set kwargs ;;
           ret (if contains "data" result then result
                else set "data" (VDict []) result)
       end
     else
       if String.eqb experiment_type "ground" then
         calculate_ground_state system_id basis_set configuration
       else if String.eqb experiment_type "excited" then
         result <- calculate_ground_state system_id basis_set configuration ;;
         set_data_message
           "Excited state calculation not yet implemented, showing ground state instead"
           result
       else
         raise (ValueError
                  ("Unsupported experiment type: " ++ experiment_type))) ;;
  let result := set "system_id" (VStr system_id) result in
  let result := set "basis_set" (VStr basis_set) result in
  let result := set "experiment_type" (VStr experiment_type) result in
  ret result.

(** The result of a failed run: the [except Exception] handler. *)
Definition failure (e : exn) (system_id basis_set experiment_type : string)
  (runtime : Q) : dict :=
  [ ("error", VStr (str_of_exn e));
    ("system_id", VStr system_id);
    ("basis_set", VStr basis_set);
    ("experiment_type", VStr experiment_type);
    ("runtime", VNum runtime) ].

Definition run_experiment
  (system_id basis_set experiment_type : string) (configuration : dict)
  (w : world) : dict * world :=
  let start_time := now w in
  match run_experiment_try system_id basis_set experiment_type configuration w
  with
  | (Ok result, w') => (result, w')
  | (Raise e, w') =>
      (failure e system_id basis_set experiment_type (now w' - start_time), w')
  end.

End Manager.

End QuantumModuleManager.

(** ** config.py: what the API advertises *)

Module Config.

Record entry : Type := mkEntry {
  entry_id : string;
  entry_name : string;
  entry_description : string
}.

Definition AVAILABLE_SYSTEMS : list entry :=
  [ mkEntry "h2o" "Water" "Water molecule (H2O)";
    mkEntry "ch4" "Methane" "Methane molecule (CH4)";
    mkEntry "nh3" "Ammonia" "Ammonia molecule (NH3)";
    mkEntry "co2" "Carbon Dioxide" "Carbon dioxide molecule (CO2)" ].

Definition AVAILABLE_BASIS_SETS : list entry :=
  [ mkEntry "sto-3g" "STO-3G" "Minimal basis set, fast but less accurate";
    mkEntry "3-21g" "3-21G" "Split valence basis set";
    mkEntry "6-31g" "6-31G" "Split valence basis set";
    mkEntry "cc-pvdz" "cc-pVDZ"
      "Correlation consistent polarized valence double zeta basis set";
    mkEntry "cc-pvtz" "cc-pVTZ"
      "Correlation consistent polarized valence triple zeta basis set" ].

Definition AVAILABLE_EXPERIMENT_TYPES : list entry :=
  [ mkEntry "ground" "Ground State" "Calculate ground state energy";
    mkEntry "excited" "Excited State" "Calculate excited state properties";
    mkEntry "geometry" "Geometry Optimization" "Optimize molecular geometry";
    mkEntry "vibrational" "Vibrational Analysis"
      "Calculate vibrational frequencies";
    mkEntry "dipole" "Dipole Moment" "Calculate molecular dipole moment" ].

End Config.

(** ** schemas/experiments.py *)

Module Schemas.

(** The fields of [ResourceEstimate], all required. *)
Definition ResourceEstimate_fields : list string :=
  ["qubits"; "depth"; "runtime"].

(** A validated [ExperimentConfig]. *)
Record ExperimentConfig : Type := mkExperimentConfig {
  ansatz : string;
  mapper : string;
  hamiltonian : string;
  algorithm : string;
  advanced_options : option dict
}.

(** [config.dict()]: the fields in the order of their declaration. *)
Definition config_dict (config : ExperimentConfig) : dict :=
  [ ("ansatz", VStr (ansatz config));
    ("mapper", VStr (mapper config));
    ("hamiltonian", VStr (hamiltonian config));
    ("algorithm", VStr (algorithm config));
    ("advanced_options",
     match advanced_options config with
     | Some options => VDict options
     | None => VNone
     end) ].

(** A validated [ExperimentCreate]. *)
Record ExperimentCreate : Type := mkExperimentCreate {
  name : option string;
  system_id : string;
  basis_set : string;
  experiment_type : string;
  configuration : ExperimentConfig
}.

End Schemas.

(** ** qiskit_adapter.py

    The adapter runs on the Qiskit stack.  What that stack computes is left
    to the environment: building the electronic-structure problem, mapping
    it to a qubit operator, the exact eigensolver, the variational
    eigensolver, and the text of a traceback.  The adapter's own control
    flow, tables and result records are modelled as written. *)

Module QiskitAdapter.

Record MoleculeInfo : Type := mkMoleculeInfo {
  symbols : list string;
  coords : list (Q * Q * Q);
  multiplicity : Z;
  charge : Z
}.

Definition molecules : list (string * MoleculeInfo) :=
  [ ("H2", mkMoleculeInfo ["H"; "H"]
             [(0.0, 0.0, 0.0); (0.0, 0.0, 0.735)] 1 0);
    ("LiH", mkMoleculeInfo ["Li"; "H"]
              [(0.0, 0.0, 0.0); (0.0, 0.0, 1.5)] 1 0);
    ("H2O", mkMoleculeInfo ["O"; "H"; "H"]
              [(0.0, 0.0, 0.0); (0.757, 0.586, 0.0); (-0.757, 0.586, 0.0)]
              1 0);
    ("H", mkMoleculeInfo ["H"] [(0.0, 0.0, 0.0)] 2 0);
    ("He", mkMoleculeInfo ["He"] [(0.0, 0.0, 0.0)] 1 0);
    ("Li", mkMoleculeInfo ["Li"] [(0.0, 0.0, 0.0)] 2 0) ].

Definition get_molecule (system_id : string) : outcome MoleculeInfo :=
  match MockQuantumAdapter.lookup system_id molecules with
  | Some molecule => Ok molecule
  | None => Raise (ValueError ("Unknown system: " ++ system_id))
  end.

Inductive Mapper : Type :=
| JordanWignerMapper
| ParityMapper
| BravyiKitaevMapper.

Definition mappers : list (string * Mapper) :=
  [ ("JW", JordanWignerMapper);
    ("Parity", ParityMapper);
    ("BK", BravyiKitaevMapper) ].

(** The [optimizer_evals] attribute of a result: the library documents a
    count, or [None]; the adapter reads it as a list. *)
Inductive Evals : Type :=
| EvalCount (n : Z)
| EvalNone
| EvalList (xs : list Q).

(** What the variational solver hands back: the attributes the adapter
    reads, the optional ones absent when the result lacks them. *)
Record VQEResult : Type := mkVQEResult {
  eigenvalue : Q;
  optimizer_evals : option Evals;
  optimal_parameters : option (list (string * Q));
  optimal_circuit : string
}.

(** [len(evals)] *)
Definition len (evals : Evals) : outcome Z :=
  match evals with
  | EvalList xs => Ok (Z.of_nat (length xs))
  | EvalCount _ => Raise (TypeError "object of type 'int' has no len()")
  | EvalNone => Raise (TypeError "object of type 'NoneType' has no len()")
  end.

(** [[float(x) for x in evals]] *)
Definition floats (evals : Evals) : outcome (list value) :=
  match evals with
  | EvalList xs => Ok (map VNum xs)
  | EvalCount _ => Raise (TypeError "'int' object is not iterable")
  | EvalNone => Raise (TypeError "'NoneType' object is not iterable")
  end.

Section Stack.

(** [str(v)] of a configuration value. *)
Variable py_str : value -> string.

(** [traceback.format_exc()] *)
Variable format_exc : exn -> string.

(** The electronic-structure problem of a molecule in a basis
    ([PySCFDriver], [ElectronicStructureProblem]). *)
Variable Problem : Type.
Variable make_problem : MoleculeInfo -> string -> M Problem.

(** The qubit operator of a problem, with or without frozen core, under a
    mapper ([second_q_op], [mapper.map]). *)
Variable Operator : Type.
Variable qubit_operator : Problem -> bool -> Mapper -> M Operator.

(** [NumPyMinimumEigensolver().compute_minimum_eigenvalue(op).eigenvalue.real] *)
Variable exact_eigenvalue : Operator -> M Q.

(** The [TwoLocal] ansatz, the COBYLA optimizer and the [VQE] run. *)
Variable run_vqe : Operator -> M VQEResult.

Definition lift {A} (o : outcome A) : M A := fun w => (o, w).

(** [get_mapper(mapper_id)]: [mapper_id not in mappers], then the entry. *)
Definition get_mapper (mapper_id : value) : outcome Mapper :=
  match mapper_id with
  | VList _ => Raise (TypeError "unhashable type: 'list'")
  | VDict _ => Raise (TypeError "unhashable type: 'dict'")
  | VStr s =>
      match MockQuantumAdapter.lookup s mappers with
      | Some mapper => Ok mapper
      | None => Raise (ValueError ("Unknown mapper: " ++ s))
      end
  | v => Raise (ValueError ("Unknown mapper: " ++ py_str v))
  end.

(** [v == "VQE"] and the like: only that string is equal to it. *)
Definition is_str (s : string) (v : value) : bool :=
  match v with
  | VStr s' => String.eqb s' s
  | _ => false
  end.

(** The [try] block of [calculate_ground_state], given the clock reading
    taken before it. *)
Definition calculate_ground_state_try (start_time : Q)
  (system_id basis_set : string) (configuration : dict) : M dict :=
  molecule <- lift (get_molecule system_id) ;;
  problem <- make_problem molecule basis_set ;;
  let freeze_core := negb (str_in system_id ["H"; "H2"]) in
  mapper_id <- getitem "mapper" configuration ;;
  mapper <- lift (get_mapper mapper_id) ;;
  qubit_op <- qubit_operator problem freeze_core mapper ;;
  reference_energy <- exact_eigenvalue qubit_op ;;
  algorithm <- getitem "algorithm" configuration ;;
  outputs <-
    (if is_str "VQE" algorithm then
       getitem "ansatz" configuration ;;;
       vqe_result <- run_vqe qubit_op ;;
       let energy := eigenvalue vqe_result in
       iterations <-
         lift (match optimizer_evals vqe_result with
               | Some evals => len evals
               | None => Ok 1%Z
               end) ;;
       let convergence := Qabs (energy - reference_energy) in
       history <-
         lift (match optimizer_evals vqe_result with
               | Some evals => floats evals
               | None => Ok []
               end) ;;
       let data :=
         [ ("optimizer_history", VList history);
           ("optimal_parameters",
            VDict (match optimal_parameters vqe_result with
                   | Some ps => map (fun kv => (fst kv, VNum (snd kv))) ps
                   | None => []
                   end));
           ("optimal_circuit", VStr (optimal_circuit vqe_result)) ] in
       ret (energy, iterations, convergence, data)
     else
       ret (reference_energy, 1%Z, 0.0,
            [ ("message",
               VStr "Exact calculation using NumPy eigensolver") ])) ;;
  let '(energy, iterations, convergence, data) := outputs in
  end_time <- time_time ;;
  let runtime := end_time - start_time in
  ret [ ("energy", VNum energy);
        ("reference_energy", VNum reference_energy);
        ("iterations", VInt iterations);
        ("runtime", VNum runtime);
        ("convergence", VNum convergence);
        ("data", VDict data) ].

(** [calculate_ground_state]: every exception of the block becomes an
    error record. *)
Definition calculate_ground_state
  (system_id basis_set : string) (configuration : dict) : M dict :=
  fun w =>
    let start_time := now w in
    match calculate_ground_state_try start_time system_id basis_set
            configuration w with
    | (Ok result, w') => (Ok result, w')
    | (Raise e, w') =>
        (Ok [ ("error",
               VStr ("Error in quantum calculation: " ++ str_of_exn e));
              ("error_details", VStr (format_exc e));
              ("runtime", VNum (now w' - start_time)) ],
         w')
    end.

End Stack.

End QiskitAdapter.

(** ** api/routes/systems.py and api/routes/experiments.py

    The handlers, without the database session: what a handler answers for
    the record the session hands it. *)

Module Routes.

(** What a handler does: return a body, raise an [HTTPException], or let
    another exception escape. *)
Inductive response (A : Type) : Type :=
| Returned (body : A)
| HTTPException (status_code : Z) (detail : value)
| Escaped (e : exn).
Arguments Returned {A} body.
Arguments HTTPException {A} status_code detail.
Arguments Escaped {A} e.

(** [get_quantum_system]: the advertised system whose id is exactly
    [system_id]. *)
Definition get_quantum_system (system_id : string) : response Config.entry :=
  match find (fun s => String.eqb (Config.entry_id s) system_id)
             Config.AVAILABLE_SYSTEMS with
  | Some system => Returned system
  | None =>
      HTTPException 404 (VStr ("System " ++ system_id ++ " not found"))
  end.

(** A row of the [experiments] table. *)
Record Experiment : Type := mkExperiment {
  id : Z;
  name : string;
  system_id : string;
  basis_set : string;
  experiment_type : string;
  configuration : dict
}.

(** [create_experiment]: the row stored for a request, under the id the
    database gives it; a missing or empty name is replaced. *)
Definition create_experiment (experiment : Schemas.ExperimentCreate)
  (new_id : Z) : Experiment :=
  mkExperiment new_id
    (match Schemas.name experiment with
     | Some given =>
         if String.eqb given "" then
           "Experiment " ++ Schemas.system_id experiment
         else given
     | None => "Experiment " ++ Schemas.system_id experiment
     end)
    (Schemas.system_id experiment)
    (Schemas.basis_set experiment)
    (Schemas.experiment_type experiment)
    (Schemas.config_dict (Schemas.configuration experiment)).

(** The arguments of the [ExperimentResult] row a run is stored as. *)
Record ExperimentResult : Type := mkExperimentResult {
  experiment_id : Z;
  energy : value;
  reference_energy : option value;
  iterations : value;
  runtime : value;
  convergence : option value;
  data : value
}.

(** The row built from a result of the manager, after the error check. *)
Definition result_row (experiment : Experiment) (result : dict)
  : response ExperimentResult :=
  if contains "error" result then
    HTTPException 500 (get_default "error" VNone result)
  else
    match get "energy" result with
    | None => Escaped (KeyError "energy")
    | Some energy =>
    match get "iterations" result with
    | None => Escaped (KeyError "iterations")
    | Some iterations =>
    match get "runtime" result with
    | None => Escaped (KeyError "runtime")
    | Some runtime =>
    match get "data" result with
    | None => Escaped (KeyError "data")
    | Some data =>
        Returned (mkExperimentResult (id experiment) energy
                    (get "reference_energy" result) iterations runtime
                    (get "convergence" result) data)
    end end end end.

Section Run.

Variable USING_MOCK : bool.
Variable calculate_ground_state : string -> string -> dict -> M dict.

(** [run_experiment]: [found] is what the query for [experiment_id]
    returned. *)
Definition run_experiment (experiment_id : Z) (found : option Experiment)
  (w : world) : response ExperimentResult * world :=
  match found with
  | None =>
      (HTTPException 404
         (VStr ("Experiment " ++ string_of_Z experiment_id ++ " not found")),
       w)
  | Some experiment =>
      let '(result, w') :=
        QuantumModuleManager.run_experiment USING_MOCK calculate_ground_state
          (system_id experiment) (basis_set experiment)
          (experiment_type experiment) (configuration experiment) w in
      (result_row experiment result, w')
  end.

End Run.

End Routes.

(** ** Result shapes *)

(** A result is a Failure when it has an [error] key, a Success otherwise. *)
Definition is_failure (result : dict) : bool := contains "error" result.
Definition is_success (result : dict) : bool := negb (contains "error" result).

(** ** The generic resource heuristic, in the specification's words

    Base: 2 qubits, depth 10, band "2-5 seconds"; then one adjustment by
    system, one by algorithm, one by ansatz; qubits and depth are written
    out as integers. *)

Module Heuristic.

Record estimate : Type := mk {
  qubits : Z;
  depth : Q;
  band : string
}.

Definition base : estimate := mk 2 10 "2-5 seconds".

Definition by_system (system_id : string) (e : estimate) : estimate :=
  let s := lower system_id in
  if String.eqb s "h2o" || String.eqb s "lih" then
    mk (qubits e + 6) (depth e + 30) "10-30 seconds"
  else if String.eqb s "h2" then
    mk (qubits e + 2) (depth e + 10) (band e)
  else if String.eqb s "h" || String.eqb s "he" || String.eqb s "li" then
    mk (qubits e + 1) (depth e) (band e)
  else e.

Definition by_algorithm (algorithm : string) (e : estimate) : estimate :=
  let a := upper algorithm in
  if String.eqb a "VQE" then mk (qubits e) (depth e * 1.5) (band e)
  else if String.eqb a "QAOA" then mk (qubits e) (depth e * 2) (band e)
  else if String.eqb a "QPE" then
    mk (qubits e * 2) (depth e * 3) "30-60 seconds"
  else e.

Definition by_ansatz (ansatz : string) (e : estimate) : estimate :=
  let a := upper ansatz in
  if String.eqb a "UCCSD" then mk (qubits e + 2) (depth e * 2) (band e)
  else if String.eqb a "HWE" then mk (qubits e) (depth e + 10) (band e)
  else e.

Definition output (e : estimate) : dict :=
  [ ("qubits", VInt (qubits e));
    ("depth", VInt (trunc (depth e)));
    ("runtime", VStr (band e)) ].

Definition generic (system_id algorithm ansatz : string) : dict :=
  output (by_ansatz ansatz (by_algorithm algorithm (by_system system_id base))).

End Heuristic.

(** * Vocabulary of the properties *)

(** ** Runs through the manager *)

(** An antimatter run, whatever the adapter, basis set, experiment type and
    configuration. *)
Definition antimatter_run (system_id : string)
  (mock : bool) (adapter : string -> string -> dict -> M dict)
  (basis_set experiment_type : string) (configuration : dict) (w : world)
  : dict :=
  fst (QuantumModuleManager.run_experiment mock adapter system_id basis_set
         experiment_type configuration w).

(** [convergence] is the distance of [energy] to the given reference. *)
Definition converges_to (reference : Q) (result : dict) : Prop :=
  exists e c,
    get "energy" result = Some (VNum e) /\
    get "convergence" result = Some (VNum c) /\
    c = Qabs (e - reference).

(** No keyword of [**configuration] names a positional parameter of the
    engine's [run_experiment]. *)
Definition keyword_safe (configuration : dict) : bool :=
  forallb (fun k => negb (str_in k QuantumModuleManager.positional_names))
          (keys configuration).

(** What the manager makes of a result of the mock engine. *)
Definition stamped (system_id basis_set experiment_type : string)
  (result : dict) : dict :=
  set "experiment_type" (VStr experiment_type)
    (set "basis_set" (VStr basis_set)
       (set "system_id" (VStr system_id)
          (if contains "data" result then result
           else set "data" (VDict []) result))).

(** The manager's run when the mock engine is entered with [engine]. *)
Definition through_manager (engine : M dict)
  (system_id basis_set experiment_type : string) (w : world)
  : dict * world :=
  match engine w with
  | (Ok result, w') =>
      (stamped system_id basis_set experiment_type result, w')
  | (Raise e, w') =>
      (QuantumModuleManager.failure e system_id basis_set experiment_type
         (now w' - now w), w')
  end.

(** The public experiment types and the engine's own. *)
Definition public_types : list string :=
  ["ground"; "excited"; "geometry"; "vibrational"; "dipole"].

Definition internal_types : list string :=
  ["ground_state"; "excited_state"; "geometry_optimization";
   "vibrational_analysis"; "dipole_moment"].

(** ** Concrete inputs *)

(** A generator that always returns 1/2, a clock at 0, nothing done yet. *)
Definition midpoint_world : world :=
  World (fun _ => 1 # 2) 0 0 [] (fun _ => "1970-01-01T00:00:00").

(** The Qiskit adapter of a process in which its import failed. *)
Definition absent_adapter : string -> string -> dict -> M dict :=
  fun _ _ _ => raise (ValueError "qiskit is not installed").

(** A molecule of one atom. *)
Definition hydrogen_atom : MockQuantumAdapter.Molecule :=
  MockQuantumAdapter.mkMolecule "h" "Hydrogen" "Hydrogen atom"
    [ MockQuantumAdapter.mkAtom "H" 0.0 0.0 0.0 ] 0 2.

(** ** Runs of the mock engine *)

(** From [w] to [w'] the code consumed random variates and slept, on the
    calling thread, for the durations [ds] in turn; it did nothing else. *)
Definition step (ds : list Q) (w w' : world) : Prop :=
  draws w' = draws w /\
  (pos w <= pos w')%nat /\
  trace w' = (trace w ++ map ThreadSleep ds)%list.

(** Run from [w], the computation [c] returns (it does not raise), after the
    blocking sleeps [ds]; its result satisfies [S], and [B] as well when the
    random variates are unit variates. *)
Definition runs {A} (c : M A) (w : world) (ds : list Q) (S B : A -> Prop)
  : Prop :=
  exists a w',
    c w = (Ok a, w') /\ step ds w w' /\ S a /\ (unit_draws w -> B a).

Definition any {A} : A -> Prop := fun _ => True.

(** The duration [_simulate_calculation_time] sleeps for. *)
Definition sim_time (molecule_data : MockQuantumAdapter.Molecule)
  (basis_set : string) (factor : Q) : Q :=
  MockQuantumAdapter.num_atoms molecule_data
  * MockQuantumAdapter.lookup_default basis_set 0.1
      [ ("sto-3g", 0.1); ("3-21g", 0.2); ("6-31g", 0.3);
        ("cc-pvdz", 0.5); ("cc-pvtz", 1.0) ]
  * factor * 0.05.

(** ** What the runs of the mock engine return *)

Section Shapes.

Import MockQuantumAdapter.

Variable molecule_data : Molecule.
Variable basis_set : string.
Variable kwargs : dict.

(** The result of a ground-state run. *)
Definition ground_shape (result : dict) : Prop :=
  exists e ref it rt orbitals dm ts,
    result = [ ("energy", VNum e);
               ("reference_energy", VNum ref);
               ("iterations", VInt it);
               ("runtime", VNum rt);
               ("orbitals", VList orbitals);
               ("converged", VBool true);
               ("dipole_moment", dm);
               ("method", VStr "RHF");
               ("basis_set", VStr basis_set);
               ("timestamp", ts) ] /\
    length orbitals = (length (atoms molecule_data) * 2)%nat /\
    (forall ref0,
       reference_energy_of (id molecule_data) basis_set = Some ref0 ->
       ref = ref0).

(** Energy and iterations of a ground-state result, on unit variates. *)
Definition ground_bounds (result : dict) : Prop :=
  forall e ref it,
    get "energy" result = Some (VNum e) ->
    get "reference_energy" result = Some (VNum ref) ->
    get "iterations" result = Some (VInt it) ->
    ref - 0.001 <= e /\ e <= ref + 0.001 /\ (10 <= it <= 30)%Z.

(** An excited level over a ground state of energy [e]. *)
Definition excited_level (e : Q) (i : Z) (state : value) : Prop :=
  exists d x,
    state = VDict d /\
    get "state" d = Some (VInt (i + 1)) /\
    get "excitation_energy" d = Some (VNum x) /\
    get "total_energy" d = Some (VNum (e + x)).

(** What an excited-state run started in [w] returns, for [n] requested
    states. *)
Definition excited_shape (n : Z) (w : world) (result : dict) : Prop :=
  exists ground_state w1 e states,
    run_ground_state_calculation molecule_data basis_set kwargs w
    = (Ok ground_state, w1) /\
    get "energy" ground_state = Some (VNum e) /\
    get "energy" result = get "energy" ground_state /\
    get "reference_energy" result = get "reference_energy" ground_state /\
    get "ground_state_data" result = Some (VDict ground_state) /\
    get "excited_states" result = Some (VList states) /\
    Forall2 (excited_level e) (range n) states.

(** The result of a geometry optimization. *)
Definition geometry_shape (result : dict) : Prop :=
  exists e ref it rt geometry steps ts,
    result = [ ("energy", VNum e);
               ("reference_energy", VNum ref);
               ("iterations", VInt it);
               ("runtime", VNum rt);
               ("optimized_geometry", geometry);
               ("optimization_steps", VList steps);
               ("converged", VBool true);
               ("method", VStr "RHF");
               ("basis_set", VStr basis_set);
               ("timestamp", ts) ].

(** The displacement entry of atom [j]. *)
Definition displacement_of (j : Z) (entry : value) : Prop :=
  exists dx dy dz,
    entry = VDict [ ("atom", VInt j); ("dx", VNum dx);
                    ("dy", VNum dy); ("dz", VNum dz) ].

(** The [frequency] entry of a mode. *)
Definition frequency_of (mode : value) : Q :=
  match mode with
  | VDict d => match get "frequency" d with Some (VNum f) => f | _ => 0 end
  | _ => 0
  end.

(** Mode number [i + 1] of a molecule of [n] atoms, kept with its
    frequency: one displacement per atom, in atom order. *)
Definition mode_of (n : Z) (i : Z) (mode : Q * value) : Prop :=
  frequency_of (snd mode) = fst mode /\
  exists d displacements,
    snd mode = VDict d /\
    get "mode" d = Some (VInt (i + 1)) /\
    get "displacements" d = Some (VList displacements) /\
    Forall2 displacement_of (range n) displacements.

Definition atom_count : Z := Z.of_nat (length (atoms molecule_data)).

(** What a vibrational analysis started in [w] returns. *)
Definition vibrational_shape (w : world) (result : dict) : Prop :=
  exists opt_result w1 e ref modes,
    run_geometry_optimization molecule_data basis_set kwargs w
    = (Ok opt_result, w1) /\
    get "energy" opt_result = Some (VNum e) /\
    get "reference_energy" opt_result = Some (VNum ref) /\
    get "energy" result = get "energy" opt_result /\
    get "reference_energy" result = get "reference_energy" opt_result /\
    get "vibrations" result = Some (VList (map snd modes)) /\
    Forall2 (mode_of atom_count) (range (3 * atom_count - 6)) modes /\
    get "zero_point_energy" result
    = Some (VNum (sum_nonnegative (map fst modes) * 0.5 / 4.184 / 1000)).

End Shapes.

(** ** Delays *)

(** A delay at which the scheduler may run other work. *)
Definition cooperative (e : effect) : bool :=
  match e with
  | Suspend _ => true
  | ThreadSleep _ => false
  end.

(** The kinds of the mock engine with the factors of their delays, in the
    order in which a run performs them. *)
Definition delay_factors : list (string * list Q) :=
  [ ("ground_state", [1.0]);
    ("excited_state", [1.0; 1.5]);
    ("geometry_optimization", [2.0]);
    ("vibrational_analysis", [2.0; 2.5]);
    ("dipole_moment", [1.0; 0.5]) ].

(** A number written with exactly one decimal. *)
Definition one_decimal (number : string) : Prop :=
  exists whole tenth,
    number = whole ++ "." ++ tenth /\ String.length tenth = 1%nat.

(** * Vocabulary of the further properties *)

(** A value Python can hash, so that it can be looked up in a dict. *)
Definition hashable (v : value) : bool :=
  match v with
  | VList _ | VDict _ => false
  | _ => true
  end.

(** The three runtime bands of the generic estimate. *)
Definition runtime_bands : list string :=
  ["2-5 seconds"; "10-30 seconds"; "30-60 seconds"].

(** The manager's stamp on a result. *)
Definition stamp (system_id basis_set experiment_type : string)
  (result : dict) : dict :=
  set "experiment_type" (VStr experiment_type)
    (set "basis_set" (VStr basis_set)
       (set "system_id" (VStr system_id) result)).

(** The note the manager attaches to an excited-state run of the real
    adapter. *)
Definition excited_note : string :=
  "Excited state calculation not yet implemented, showing ground state instead".

(** The ids [QiskitAdapter.get_molecule] knows. *)
Definition qiskit_system_ids : list string :=
  ["H2"; "LiH"; "H2O"; "H"; "He"; "Li"].

(** A stand-in for the Qiskit stack.  As in the releases of qiskit-nature
    that have the [second_q] package, the driver takes no [molecule]
    keyword, so setting up a problem raises; the solvers are never
    reached. *)
Definition toy_adapter : string -> string -> dict -> M dict :=
  QiskitAdapter.calculate_ground_state
    (fun _ => "?") (fun _ => "Traceback (most recent call last): ...")
    unit
    (fun _ _ =>
       raise (TypeError
         "PySCFDriver.__init__() got an unexpected keyword argument 'molecule'"))
    unit (fun _ _ _ => ret tt)
    (fun _ => ret (-1.1))
    (fun _ => ret (QiskitAdapter.mkVQEResult (-1.0)
                     (Some (QiskitAdapter.EvalCount 3))
                     (Some [("theta", 0.1)]) "ry-cz")).

(** ** Records of the mock engine *)

(** What [_calculate_runtime] scales: atoms squared times the basis factor
    times the factor of the kind. *)
Definition runtime_base (molecule_data : MockQuantumAdapter.Molecule)
  (basis_set : string) (factor : Q) : Q :=
  MockQuantumAdapter.num_atoms molecule_data
  * MockQuantumAdapter.num_atoms molecule_data
  * MockQuantumAdapter.lookup_default basis_set 1.0
      [ ("sto-3g", 1.0); ("3-21g", 2.0); ("6-31g", 3.0);
        ("cc-pvdz", 5.0); ("cc-pvtz", 10.0) ]
  * factor.

(** The factor of the runtime each kind reports. *)
Definition runtime_factors : list (string * Q) :=
  [ ("ground_state", 1.0);
    ("excited_state", 1.5);
    ("geometry_optimization", 2.0);
    ("vibrational_analysis", 2.5);
    ("dipole_moment", 0.5) ].

Definition symmetry_labels : list string := ["A1"; "A2"; "B1"; "B2"].

(** Orbital [i] of [n]. *)
Definition orbital_record (n i : Z) (energy : Q) (symmetry : string) : value :=
  VDict [ ("index", VInt i);
          ("energy", VNum energy);
          ("occupation", VNum (if (i <? n / 2)%Z then 2.0 else 0.0));
          ("symmetry", VStr symmetry) ].

Definition ground_record (basis_set : string) (e ref : Q) (it : Z) (rt : Q)
  (orbitals : list value) (d1 d2 d3 : Q) (ts : value) : dict :=
  [ ("energy", VNum e);
    ("reference_energy", VNum ref);
    ("iterations", VInt it);
    ("runtime", VNum rt);
    ("orbitals", VList orbitals);
    ("converged", VBool true);
    ("dipole_moment", VList [VNum d1; VNum d2; VNum d3]);
    ("method", VStr "RHF");
    ("basis_set", VStr basis_set);
    ("timestamp", ts) ].

(** Excited state number [i + 1] over a ground state of energy [e]. *)
Definition excited_record (e : Q) (i : Z) (x o c : Q) : value :=
  VDict [ ("state", VInt (i + 1));
          ("excitation_energy_ev", VNum (x * 27.2114));
          ("excitation_energy", VNum x);
          ("total_energy", VNum (e + x));
          ("oscillator_strength", VNum o);
          ("description",
           VStr ("HOMO->" ++ string_of_Z i ++ " (" ++ format_fixed 2 c
                 ++ ")")) ].

Definition excited_state_record (basis_set : string) (e ref : value)
  (it : Z) (rt : Q) (states : list value) (ground_state : dict) (ts : value)
  : dict :=
  [ ("energy", e);
    ("reference_energy", ref);
    ("iterations", VInt it);
    ("runtime", VNum rt);
    ("excited_states", VList states);
    ("ground_state_data", VDict ground_state);
    ("method", VStr "TD-RHF");
    ("basis_set", VStr basis_set);
    ("timestamp", ts) ].

(** An atom of the optimized geometry. *)
Definition atom_record (symbol : string) (cx cy cz : Q) : value :=
  VDict [ ("symbol", VStr symbol);
          ("x", VNum cx); ("y", VNum cy); ("z", VNum cz) ].

(** Optimization step number [i + 1]. *)
Definition step_record (i : Z) (energy gradient force : Q) : value :=
  VDict [ ("step", VInt (i + 1));
          ("energy", VNum energy);
          ("rms_gradient", VNum gradient);
          ("max_force", VNum force) ].

Definition geometry_record (molecule_data : MockQuantumAdapter.Molecule)
  (basis_set : string) (e ref : Q) (it : Z) (rt : Q)
  (atoms steps : list value) (ts : value) : dict :=
  [ ("energy", VNum e);
    ("reference_energy", VNum ref);
    ("iterations", VInt it);
    ("runtime", VNum rt);
    ("optimized_geometry",
     VDict [ ("atoms", VList atoms);
             ("charge", VInt (MockQuantumAdapter.charge molecule_data));
             ("multiplicity",
              VInt (MockQuantumAdapter.multiplicity molecule_data)) ]);
    ("optimization_steps", VList steps);
    ("converged", VBool true);
    ("method", VStr "RHF");
    ("basis_set", VStr basis_set);
    ("timestamp", ts) ].

(** Vibrational mode number [i + 1]. *)
Definition mode_record (i : Z) (frequency intensity mass force : Q)
  (displacements : list value) : value :=
  VDict [ ("mode", VInt (i + 1));
          ("frequency", VNum frequency);
          ("intensity", VNum intensity);
          ("reduced_mass", VNum mass);
          ("force_constant", VNum force);
          ("displacements", VList displacements) ].

Definition displacement_record (j : Z) (dx dy dz : Q) : value :=
  VDict [ ("atom", VInt j); ("dx", VNum dx); ("dy", VNum dy);
          ("dz", VNum dz) ].

Definition vibrational_record (basis_set : string) (e ref : value) (it : Z)
  (rt : Q) (geometry : value) (vibrations : list value) (zpe : Q)
  (ts : value) : dict :=
  [ ("energy", e);
    ("reference_energy", ref);
    ("iterations", VInt it);
    ("runtime", VNum rt);
    ("optimized_geometry", geometry);
    ("vibrations", VList vibrations);
    ("zero_point_energy", VNum zpe);
    ("method", VStr "RHF");
    ("basis_set", VStr basis_set);
    ("timestamp", ts) ].

Definition dipole_record (basis_set : string) (e ref it : value) (rt : Q)
  (dx dy dz : Q) (ts : value) : dict :=
  [ ("energy", e);
    ("reference_energy", ref);
    ("iterations", it);
    ("runtime", VNum rt);
    ("dipole_moment",
     VDict [ ("x", VNum dx); ("y", VNum dy); ("z", VNum dz);
             ("total", VRoot (dx * dx + dy * dy + dz * dz)) ]);
    ("method", VStr "RHF");
    ("basis_set", VStr basis_set);
    ("timestamp", ts) ].

(** [lo <= q <= hi] *)
Definition within (lo hi q : Q) : Prop := lo <= q /\ q <= hi.

(** Entry [k] of a value that is a dict. *)
Definition entry (k : string) (v : value) : option value :=
  match v with
  | VDict d => get k d
  | _ => None
  end.

(** ** Bounds of the mock engine on unit variates *)

(** The bounds of excited state number [i + 1]. *)
Definition excited_bounds (i : Z) (x o : Q) : Prop :=
  within (inject_Z (i + 1) * 0.1 - 0.02) (inject_Z (i + 1) * 0.1 + 0.02) x /\
  within 0.01 1.0 o.

(** The bounds of an optimized atom. *)
Definition atom_bounds (atom : MockQuantumAdapter.Atom) (cx cy cz : Q)
  : Prop :=
  within (MockQuantumAdapter.x atom - 0.02)
         (MockQuantumAdapter.x atom + 0.02) cx /\
  within (MockQuantumAdapter.y atom - 0.02)
         (MockQuantumAdapter.y atom + 0.02) cy /\
  within (MockQuantumAdapter.z atom - 0.02)
         (MockQuantumAdapter.z atom + 0.02) cz.

(** The bounds of step [i + 1] of [n] towards [energy]: the gradient
    follows 0.1 * (1 - i / n), the force twice the gradient, and the last
    step lands on the energy. *)
Definition step_bounds (energy : Q) (n i : Z) (se g f : Q) : Prop :=
  ((i + 1 = n)%Z -> within (energy - 0.001) (energy + 0.001) se) /\
  within (0.1 * (1.0 - inject_Z i / inject_Z n) - 0.005)
         (0.1 * (1.0 - inject_Z i / inject_Z n) + 0.005) g /\
  within (g * 2 - 0.01) (g * 2 + 0.01) f.

(** The bounds of mode number [i + 1]. *)
Definition mode_bounds (i : Z) (frequency intensity mass force : Q) : Prop :=
  within (inject_Z ((i + 1) * 100) - 50) (inject_Z ((i + 1) * 100) + 50)
         frequency /\
  within 0 100 intensity /\ within 1.0 5.0 mass /\ within 0.1 0.5 force.

Definition displacement_bounds (dx dy dz : Q) : Prop :=
  within (-0.1) 0.1 dx /\ within (-0.1) 0.1 dy /\ within (-0.1) 0.1 dz.

(** The number under key [k] of a record, as the sums and comparisons of
    the engine read it. *)
Definition number_at (k : string) (v : value) : Q :=
  match entry k v with
  | Some (VNum q) => q
  | _ => 0
  end.

(** [sum(qs)] *)
Definition total (qs : list Q) : Q := fold_left Qplus qs 0.

(** What every kind of the mock engine reports for a molecule and a basis
    set: the four numbers the route stores, the reference energy of the
    table when there is one, its own basis set, and none of the other keys
    the manager or the route read. *)
Definition engine_summary (molecule_data : MockQuantumAdapter.Molecule)
  (basis_set : string) (result : dict) : Prop :=
  get "data" result = None /\
  get "error" result = None /\
  get "convergence" result = None /\
  get "system_id" result = None /\
  get "experiment_type" result = None /\
  get "basis_set" result = Some (VStr basis_set) /\
  exists e ref it rt,
    get "energy" result = Some (VNum e) /\
    get "reference_energy" result = Some (VNum ref) /\
    get "iterations" result = Some (VInt it) /\
    get "runtime" result = Some (VNum rt) /\
    forall ref0,
      MockQuantumAdapter.reference_energy_of
        (MockQuantumAdapter.id molecule_data) basis_set = Some ref0 ->
      ref = ref0.

(** [s.isascii()] *)
Fixpoint isascii (s : string) : bool :=
  match s with
  | EmptyString => true
  | String c rest => (Z.of_N (N_of_ascii c) <? 128)%Z && isascii rest
  end.

(** * Properties *)

(** ** Antimatter runs *)

(** C3. A run for "anti_Ps" is a Success with reference energy -0.25, a run
    for "anti_H" a Success with reference energy -0.5; in both, convergence
    is |energy - reference_energy|; the positronium payload carries the
    annihilation rate 7.99e9 per second, the lifetime 125e-9 seconds and
    the system type "para-positronium". *)
Theorem antimatter_reference_energies :
  forall mock adapter basis_set experiment_type configuration w,
    let ps := antimatter_run "anti_Ps" mock adapter basis_set experiment_type
                configuration w in
    let ah := antimatter_run "anti_H" mock adapter basis_set experiment_type
                configuration w in
    (is_success ps = true /\
     get "reference_energy" ps = Some (VNum (-0.25)) /\
     converges_to (-0.25) ps /\
     exists data,
       get "data" ps = Some (VDict data) /\
       get "annihilation_rate" data = Some (VNum 7.99e9) /\
       get "lifetime" data = Some (VNum 125e-9) /\
       get "system_type" data = Some (VStr "para-positronium")) /\
    (is_success ah = true /\
     get "reference_energy" ah = Some (VNum (-0.5)) /\
     converges_to (-0.5) ah).
Proof.
  intros mock adapter basis_set experiment_type configuration w ps ah.
  split.
  - repeat split; try reflexivity.
    + eexists; eexists; repeat split; reflexivity.
    + eexists; repeat split; reflexivity.
  - repeat split; try reflexivity.
    eexists; eexists; repeat split; reflexivity.
Qed.

(** ** The generic path of [estimate_resources] *)

Lemma generic_estimate_spec :
  forall system_id configuration algorithm ansatz,
    get_default "algorithm" (VStr "") configuration = VStr algorithm ->
    get_default "ansatz" (VStr "") configuration = VStr ansatz ->
    QuantumModuleManager.generic_estimate system_id configuration
    = Ok (Heuristic.generic system_id algorithm ansatz).
Proof.
  intros system_id configuration algorithm ansatz Halg Hans.
  unfold QuantumModuleManager.generic_estimate, Heuristic.generic,
    Heuristic.by_system, Heuristic.by_algorithm, Heuristic.by_ansatz,
    Heuristic.output, Heuristic.base, str_in.
  rewrite Halg, Hans. cbn [existsb QuantumModuleManager.upper_of].
  destruct (String.eqb (lower system_id) "h2o");
    [| destruct (String.eqb (lower system_id) "lih");
       [| destruct (String.eqb (lower system_id) "h2");
          [| destruct (String.eqb (lower system_id) "h");
             [| destruct (String.eqb (lower system_id) "he");
                [| destruct (String.eqb (lower system_id) "li") ]]]]];
    cbn [orb Heuristic.qubits Heuristic.depth Heuristic.band];
    (destruct (String.eqb (upper algorithm) "VQE");
     [| destruct (String.eqb (upper algorithm) "QAOA");
        [| destruct (String.eqb (upper algorithm) "QPE") ]]);
    cbn [Heuristic.qubits Heuristic.depth Heuristic.band];
    (destruct (String.eqb (upper ansatz) "UCCSD");
     [| destruct (String.eqb (upper ansatz) "HWE") ]);
    reflexivity.
Qed.

(** C4. When the mock catalog does not answer for [system_id] (no mock
    adapter, or [system_id] is not in its catalog), [estimate_resources]
    returns the base (2 qubits, depth 10, "2-5 seconds") adjusted by system,
    by algorithm and by ansatz as the specification lists them, qubits and
    depth written as integers; and
    [estimate_resources("unknown_system", {"algorithm": "QPE"})] is
    4 qubits, depth 30, "30-60 seconds". *)
Theorem estimate_resources_generic_path :
  forall mock system_id configuration algorithm ansatz,
    (mock = true -> QuantumModuleManager.find_system system_id = None) ->
    get_default "algorithm" (VStr "") configuration = VStr algorithm ->
    get_default "ansatz" (VStr "") configuration = VStr ansatz ->
    QuantumModuleManager.estimate_resources mock system_id configuration
    = Ok (Heuristic.generic system_id algorithm ansatz)
    /\ QuantumModuleManager.estimate_resources mock "unknown_system"
         [("algorithm", VStr "QPE")]
       = Ok [ ("qubits", VInt 4); ("depth", VInt 30);
              ("runtime", VStr "30-60 seconds") ].
Proof.
  intros mock system_id configuration algorithm ansatz Hpath Halg Hans.
  split.
  - unfold QuantumModuleManager.estimate_resources,
      QuantumModuleManager.mock_estimate.
    destruct mock.
    + rewrite (Hpath eq_refl).
      now apply generic_estimate_spec.
    + now apply generic_estimate_spec.
  - destruct mock; reflexivity.
Qed.

Lemma estimate_resources_generic_path_witness :
  QuantumModuleManager.estimate_resources true "LiH"
    [ ("algorithm", VStr "vqe");
      ("ansatz", VStr ("ucc" ++ utf8 383 ++ "d")) ]
  = Ok [ ("qubits", VInt 10); ("depth", VInt 120);
         ("runtime", VStr "10-30 seconds") ].
Proof.
  apply (estimate_resources_generic_path true "LiH"
           [ ("algorithm", VStr "vqe");
             ("ansatz", VStr ("ucc" ++ utf8 383 ++ "d")) ]
           "vqe" ("ucc" ++ utf8 383 ++ "d"));
    reflexivity.
Defined.

(** C5. The claim does not hold of the code: the generic path, which runs
    after and outside the [try] block, calls [.upper()] on the [algorithm]
    entry as it is.  [estimate_resources("unknown_system",
    {"algorithm": None})] raises AttributeError to the caller, while an
    exception of the mock-catalog path (here an unhashable [basis_set]) is
    caught and answered with the generic estimate. *)
Theorem estimate_resources_can_raise :
  QuantumModuleManager.estimate_resources true "unknown_system"
    [("algorithm", VNone)]
  = Raise (AttributeError "'NoneType' object has no attribute 'upper'") /\
  QuantumModuleManager.estimate_resources false "h2o"
    [("ansatz", VInt 3)]
  = Raise (AttributeError "'int' object has no attribute 'upper'") /\
  QuantumModuleManager.estimate_resources true "h2o"
    [("basis_set", VList [])]
  = Ok [ ("qubits", VInt 8); ("depth", VInt 40);
         ("runtime", VStr "10-30 seconds") ].
Proof. repeat split; reflexivity. Qed.

(** ** The classical-resource estimate of the mock adapter *)

Section ClassicalEstimate.

Import MockQuantumAdapter.

Lemma basis_factor_cases :
  forall basis_set,
    In (lookup_default basis_set 1.0 basis_factors) [1.0; 2.0; 3.0; 4.0; 8.0].
Proof.
  intro b. unfold lookup_default, basis_factors. cbn [lookup].
  destruct (String.eqb "sto-3g" b); [cbn; tauto|].
  destruct (String.eqb "3-21g" b); [cbn; tauto|].
  destruct (String.eqb "6-31g" b); [cbn; tauto|].
  destruct (String.eqb "cc-pvdz" b); [cbn; tauto|].
  destruct (String.eqb "cc-pvtz" b); cbn; tauto.
Qed.

Lemma experiment_factor_cases :
  forall experiment_type,
    In (lookup_default experiment_type 1.0 experiment_factors)
       [1.0; 2.5; 3.0; 5.0; 1.2].
Proof.
  intro t. unfold lookup_default, experiment_factors. cbn [lookup].
  destruct (String.eqb "ground_state" t); [cbn; tauto|].
  destruct (String.eqb "excited_state" t); [cbn; tauto|].
  destruct (String.eqb "geometry_optimization" t); [cbn; tauto|].
  destruct (String.eqb "vibrational_analysis" t); [cbn; tauto|].
  destruct (String.eqb "dipole_moment" t); cbn; tauto.
Qed.

Lemma lookup_default_absent :
  forall (t : list (string * Q)) k d,
    ~ In k (map fst t) -> lookup_default k d t = d.
Proof.
  intros t k d. unfold lookup_default.
  induction t as [|[k' a] t IH]; cbn; intro Hk; [reflexivity|].
  destruct (String.eqb_spec k' k) as [->|_]; [tauto|].
  apply IH. tauto.
Qed.

Lemma catalog_electrons :
  forall m, In m SYSTEMS ->
    In (inject_Z (num_electrons_of m ^ 2)) [inject_Z 100; inject_Z 484].
Proof.
  intros m [<-|[<-|[<-|[<-|[]]]]]; vm_compute; tauto.
Qed.

(** On the catalog no amount but the CPU hours has a third decimal. *)
Lemma catalog_amounts_exact :
  forall e2 bf ef,
    In e2 [inject_Z 100; inject_Z 484] ->
    In bf [1.0; 2.0; 3.0; 4.0; 8.0] ->
    In ef [1.0; 2.5; 3.0; 5.0; 1.2] ->
    let memory_mb := e2 * bf * ef * 0.1 in
    let runtime_sec := e2 * bf * ef * 0.01 * 3600 / 8 in
    round memory_mb 2 == memory_mb /\
    round (memory_mb * 5) 2 == memory_mb * 5 /\
    round runtime_sec 2 == runtime_sec.
Proof.
  intros e2 bf ef He2 Hbf Hef.
  cbn [In] in He2, Hbf, Hef.
  destruct He2 as [<-|[<-|[]]];
    destruct Hbf as [<-|[<-|[<-|[<-|[<-|[]]]]]];
    destruct Hef as [<-|[<-|[<-|[<-|[<-|[]]]]]];
    repeat split; vm_compute; reflexivity.
Qed.

(** On the catalog the reported CPU hours are within half a hundredth of
    the amount, and no run is shorter than 450 seconds. *)
Lemma catalog_cpu_hours :
  forall e2 bf ef,
    In e2 [inject_Z 100; inject_Z 484] ->
    In bf [1.0; 2.0; 3.0; 4.0; 8.0] ->
    In ef [1.0; 2.5; 3.0; 5.0; 1.2] ->
    let cpu_hours := e2 * bf * ef * 0.01 in
    Qabs (round cpu_hours 2 - cpu_hours) <= 0.005 /\
    450 <= cpu_hours * 3600 / 8.
Proof.
  intros e2 bf ef He2 Hbf Hef.
  cbn [In] in He2, Hbf, Hef.
  destruct He2 as [<-|[<-|[]]];
    destruct Hbf as [<-|[<-|[<-|[<-|[<-|[]]]]]];
    destruct Hef as [<-|[<-|[<-|[<-|[<-|[]]]]]];
    split; vm_compute; discriminate.
Qed.

End ClassicalEstimate.

(** ** One decimal *)

Lemma append_assoc :
  forall a b c : string, ((a ++ b) ++ c = a ++ (b ++ c))%string.
Proof.
  induction a as [|x a IH]; intros b c; cbn; [reflexivity|].
  now rewrite IH.
Qed.

Lemma format_fixed_one_decimal :
  forall q, one_decimal (format_fixed 1 q).
Proof.
  intro q. unfold one_decimal, format_fixed.
  set (scaled := round_half_even (Qabs q * inject_Z (pow10 1))).
  change (pow10 1) with 10%Z.
  exists ((if Qlt_le_dec q 0 then "-" else "")
          ++ string_of_Z (scaled / 10)),
    (pad_left 1 (scaled mod 10)).
  split; [now rewrite append_assoc|].
  assert (Hd : (0 <= scaled mod 10 < 10)%Z) by (apply Z.mod_pos_bound; lia).
  assert (Hcases : (scaled mod 10 = 0 \/ scaled mod 10 = 1
                    \/ scaled mod 10 = 2 \/ scaled mod 10 = 3
                    \/ scaled mod 10 = 4 \/ scaled mod 10 = 5
                    \/ scaled mod 10 = 6 \/ scaled mod 10 = 7
                    \/ scaled mod 10 = 8 \/ scaled mod 10 = 9)%Z) by lia.
  destruct Hcases as [H|[H|[H|[H|[H|[H|[H|[H|[H|H]]]]]]]]];
    rewrite H; reflexivity.
Qed.

(** C7, as the specification states it, fails: the reported [cpu_hours] is
    rounded to two decimals.  Carbon dioxide has 22 electrons; with sto-3g
    and dipole_moment the formula gives 5.808 and the estimate says 5.81. *)
Lemma cpu_hours_is_rounded :
  MockQuantumAdapter.num_electrons_of MockQuantumAdapter.co2 = 22%Z /\
  exists estimate c,
    MockQuantumAdapter.estimate_resources MockQuantumAdapter.co2
      (VStr "sto-3g") (VStr "dipole_moment") = Ok estimate /\
    get "cpu_hours" estimate = Some (VNum c) /\
    c == 5.81 /\
    ~ c == inject_Z (22 ^ 2) * 1.0 * 1.2 * 0.01.
Proof.
  split; [reflexivity|].
  eexists; eexists.
  split; [reflexivity|].
  split; [reflexivity|].
  split; [vm_compute; reflexivity|].
  vm_compute. discriminate.
Qed.

(** C7, amended. For every catalog molecule, basis set and experiment
    type, with the basis factors {sto-3g 1.0, 3-21g 2.0, 6-31g 3.0,
    cc-pvdz 4.0, cc-pvtz 8.0} and the experiment factors {ground_state 1.0,
    excited_state 2.5, geometry_optimization 3.0, vibrational_analysis 5.0,
    dipole_moment 1.2}, both 1.0 for any other name, the estimate reports
    memory_mb = electrons^2 * basis * experiment * 0.1, disk_mb = five times
    that, estimated_runtime_sec = electrons^2 * basis * experiment * 0.01 *
    3600 / 8, and as cpu_hours the amount electrons^2 * basis * experiment *
    0.01 rounded to two decimals; the runtime string has one decimal and the
    unit of its band: < 60 seconds, < 3600 minutes, < 86400 hours, else
    days.  On the catalog the runtime is at least 450 seconds. *)
Theorem classical_estimate_amounts :
  forall molecule_data basis_set experiment_type,
    In molecule_data MockQuantumAdapter.SYSTEMS ->
    let electrons := MockQuantumAdapter.num_electrons_of molecule_data in
    let basis :=
      MockQuantumAdapter.lookup_default basis_set 1.0
        MockQuantumAdapter.basis_factors in
    let experiment :=
      MockQuantumAdapter.lookup_default experiment_type 1.0
        MockQuantumAdapter.experiment_factors in
    let memory_mb := inject_Z (electrons ^ 2) * basis * experiment * 0.1 in
    let cpu_hours := inject_Z (electrons ^ 2) * basis * experiment * 0.01 in
    let runtime_sec := cpu_hours * 3600 / 8 in
    (* the estimate *)
    (exists memory disk cpu runtime human,
       MockQuantumAdapter.estimate_resources molecule_data
         (VStr basis_set) (VStr experiment_type)
       = Ok [ ("memory_mb", VNum memory);
              ("disk_mb", VNum disk);
              ("cpu_hours", VNum cpu);
              ("estimated_runtime_sec", VNum runtime);
              ("estimated_runtime_human", VStr human);
              ("basis_set_complexity", VNum basis);
              ("experiment_complexity", VNum experiment);
              ("molecule_size",
               VDict [ ("atoms",
                        VInt (Z.of_nat
                                (length
                                   (MockQuantumAdapter.atoms molecule_data))));
                       ("electrons", VInt electrons) ]) ] /\
       memory == memory_mb /\
       disk == memory_mb * 5 /\
       runtime == runtime_sec /\
       cpu = round cpu_hours 2 /\
       Qabs (cpu - cpu_hours) <= 0.005 /\
       450 <= runtime_sec /\
       (runtime_sec < 3600 ->
        human = format_fixed 1 (runtime_sec / 60) ++ " minutes") /\
       (3600 <= runtime_sec -> runtime_sec < 86400 ->
        human = format_fixed 1 (runtime_sec / 3600) ++ " hours") /\
       (86400 <= runtime_sec ->
        human = format_fixed 1 (runtime_sec / 86400) ++ " days"))
    (* the factor tables *)
    /\ MockQuantumAdapter.basis_factors
       = [ ("sto-3g", 1.0); ("3-21g", 2.0); ("6-31g", 3.0);
           ("cc-pvdz", 4.0); ("cc-pvtz", 8.0) ]
    /\ MockQuantumAdapter.experiment_factors
       = [ ("ground_state", 1.0); ("excited_state", 2.5);
           ("geometry_optimization", 3.0); ("vibrational_analysis", 5.0);
           ("dipole_moment", 1.2) ]
    /\ (~ In basis_set (map fst MockQuantumAdapter.basis_factors) ->
        basis = 1.0)
    /\ (~ In experiment_type (map fst MockQuantumAdapter.experiment_factors) ->
        experiment = 1.0)
    (* the unit and the decimal of the runtime string, for every duration *)
    /\ (forall s,
          exists number,
            one_decimal number /\
            (s < 60 ->
             MockQuantumAdapter._format_time s = number ++ " seconds") /\
            (60 <= s -> s < 3600 ->
             MockQuantumAdapter._format_time s = number ++ " minutes") /\
            (3600 <= s -> s < 86400 ->
             MockQuantumAdapter._format_time s = number ++ " hours") /\
            (86400 <= s ->
             MockQuantumAdapter._format_time s = number ++ " days")).
Proof.
  intros m b t Hm electrons basis experiment memory_mb cpu_hours runtime_sec.
  split.
  { exists (round memory_mb 2), (round (memory_mb * 5) 2),
      (round cpu_hours 2), (round runtime_sec 2),
      (MockQuantumAdapter._format_time runtime_sec).
    split; [reflexivity|].
    destruct (catalog_amounts_exact (inject_Z (electrons ^ 2)) basis
                experiment (catalog_electrons m Hm) (basis_factor_cases b)
                (experiment_factor_cases t))
      as (Hmem & Hdisk & Hrun).
    destruct (catalog_cpu_hours (inject_Z (electrons ^ 2)) basis experiment
                (catalog_electrons m Hm) (basis_factor_cases b)
                (experiment_factor_cases t))
      as (Hcpu & Hlong).
    fold memory_mb in Hmem, Hdisk. fold cpu_hours in Hcpu, Hlong, Hrun.
    fold runtime_sec in Hlong, Hrun.
    split; [exact Hmem|]. split; [exact Hdisk|]. split; [exact Hrun|].
    split; [reflexivity|]. split; [exact Hcpu|]. split; [exact Hlong|].
    unfold MockQuantumAdapter._format_time.
    destruct (Qlt_le_dec runtime_sec 60); [lra|].
    destruct (Qlt_le_dec runtime_sec 3600).
    { split; [reflexivity|]. split; intros; lra. }
    destruct (Qlt_le_dec runtime_sec 86400).
    { split; [intros; lra|]. split; [reflexivity|]. intros; lra. }
    split; [intros; lra|]. split; [intros; lra | reflexivity]. }
  split; [reflexivity|].
  split; [reflexivity|].
  split; [apply lookup_default_absent|].
  split; [apply lookup_default_absent|].
  intro s. unfold MockQuantumAdapter._format_time.
  destruct (Qlt_le_dec s 60).
  { exists (format_fixed 1 s).
    split; [apply format_fixed_one_decimal|].
    split; [reflexivity|]. repeat split; intros; lra. }
  destruct (Qlt_le_dec s 3600).
  { exists (format_fixed 1 (s / 60)).
    split; [apply format_fixed_one_decimal|].
    split; [intros; lra|]. split; [reflexivity|]. split; intros; lra. }
  destruct (Qlt_le_dec s 86400).
  { exists (format_fixed 1 (s / 3600)).
    split; [apply format_fixed_one_decimal|].
    split; [intros; lra|]. split; [intros; lra|].
    split; [reflexivity | intros; lra]. }
  exists (format_fixed 1 (s / 86400)).
  split; [apply format_fixed_one_decimal|].
  split; [intros; lra|]. split; [intros; lra|].
  split; [intros; lra | reflexivity].
Qed.

Lemma classical_estimate_amounts_witness :
  exists memory disk cpu runtime,
    MockQuantumAdapter.estimate_resources MockQuantumAdapter.co2
      (VStr "sto-3g") (VStr "dipole_moment")
    = Ok [ ("memory_mb", VNum memory);
           ("disk_mb", VNum disk);
           ("cpu_hours", VNum cpu);
           ("estimated_runtime_sec", VNum runtime);
           ("estimated_runtime_human", VStr "43.6 minutes");
           ("basis_set_complexity", VNum 1.0);
           ("experiment_complexity", VNum 1.2);
           ("molecule_size",
            VDict [ ("atoms", VInt 3); ("electrons", VInt 22) ]) ] /\
    memory == 58.08 /\ disk == 290.4 /\ cpu == 5.81 /\ runtime == 2613.6.
Proof.
  destruct (classical_estimate_amounts MockQuantumAdapter.co2
              "sto-3g" "dipole_moment") as (H & _).
  - cbn. tauto.
  - destruct H as (memory & disk & cpu & runtime & human & E & Hmem & Hdisk
                   & Hrun & Hcpu & _ & _ & Hmin & _).
    rewrite Hmin in E by (vm_compute; reflexivity).
    exists memory, disk, cpu, runtime.
    split; [exact E|].
    split; [rewrite Hmem; vm_compute; reflexivity|].
    split; [rewrite Hdisk; vm_compute; reflexivity|].
    split; [rewrite Hcpu; vm_compute; reflexivity|].
    rewrite Hrun. vm_compute. reflexivity.
Defined.

(** ** Reasoning about runs of the mock engine *)

Lemma step_trans :
  forall ds1 ds2 w w1 w2,
    step ds1 w w1 -> step ds2 w1 w2 -> step (ds1 ++ ds2)%list w w2.
Proof.
  intros ds1 ds2 w w1 w2 (Hd1 & Hp1 & Ht1) (Hd2 & Hp2 & Ht2).
  repeat split.
  - congruence.
  - lia.
  - rewrite Ht2, Ht1, map_app, app_assoc. reflexivity.
Qed.

Lemma step_unit_draws :
  forall ds w w', step ds w w' -> unit_draws w -> unit_draws w'.
Proof.
  intros ds w w' (Hd & Hp & _) Hu n Hn.
  rewrite Hd. apply Hu. lia.
Qed.

Lemma runs_ret :
  forall A (a : A) w (S B : A -> Prop),
    S a -> B a -> runs (ret a) w [] S B.
Proof.
  intros A a w S B HS HB. exists a, w.
  repeat split; auto. cbn. now rewrite app_nil_r.
Qed.

Lemma runs_bind :
  forall A C (c : M A) (k : A -> M C) w ds1 ds2 S1 B1 (S2 B2 : C -> Prop),
    runs c w ds1 S1 B1 ->
    (forall a w1, c w = (Ok a, w1) -> S1 a ->
       runs (k a) w1 ds2 S2 (fun b => B1 a -> B2 b)) ->
    runs (bind c k) w (ds1 ++ ds2)%list S2 B2.
Proof.
  intros A C c k w ds1 ds2 S1 B1 S2 B2 (a & w1 & E & Hst & HS & HB) Hk.
  destruct (Hk a w1 E HS) as (b & w2 & E2 & Hst2 & HS2 & HB2).
  exists b, w2. unfold bind. rewrite E.
  repeat split; auto.
  - apply (step_trans _ _ _ _ _ Hst Hst2).
  - apply (step_trans _ _ _ _ _ Hst Hst2).
  - apply (step_trans _ _ _ _ _ Hst Hst2).
  - intro Hu. apply HB2; [|now apply HB].
    apply (step_unit_draws _ _ _ Hst Hu).
Qed.

Lemma runs_weaken :
  forall A (c : M A) w ds (S B S' B' : A -> Prop),
    runs c w ds S B ->
    (forall a, S a -> S' a) ->
    (forall a, S a -> B a -> B' a) ->
    runs c w ds S' B'.
Proof.
  intros A c w ds S B S' B' (a & w' & E & Hst & HS & HB) HS' HB'.
  exists a, w'. repeat split; auto; apply Hst.
Qed.

Lemma runs_mapM :
  forall A C (f : A -> M C) (S B : A -> C -> Prop) xs w,
    (forall x w, runs (f x) w [] (S x) (B x)) ->
    runs (mapM f xs) w [] (Forall2 S xs) (Forall2 B xs).
Proof.
  intros A C f S B xs. induction xs as [|x xs IH]; intros w Hf; cbn [mapM].
  - apply runs_ret; constructor.
  - change (@nil Q) with (@nil Q ++ ([] ++ []))%list.
    eapply runs_bind; [apply Hf|]. intros y w1 _ Hy.
    eapply runs_bind; [apply IH, Hf|]. intros ys w2 _ Hys.
    apply runs_ret; [now constructor|].
    intros Hbs Hb. now constructor.
Qed.

Lemma runs_foldM :
  forall A T C (f : T -> A -> M (T * C)) xs s w,
    (forall s x w, runs (f s x) w [] any any) ->
    runs (foldM f s xs) w [] (fun r => length (snd r) = length xs) any.
Proof.
  intros A T C f xs. induction xs as [|x xs IH]; intros s w Hf; cbn [foldM].
  - now apply runs_ret.
  - change (@nil Q) with (@nil Q ++ ([] ++ []))%list.
    eapply runs_bind; [apply Hf|]. intros r w1 _ _.
    eapply runs_bind; [apply IH, Hf|]. intros rs w2 _ Hrs.
    apply runs_ret; cbn; [congruence | now intros].
Qed.

(** *** The library calls *)

Lemma runs_next_draw :
  forall w, runs next_draw w [] any (fun u => 0 <= u /\ u < 1).
Proof.
  intro w. eexists; eexists. split; [reflexivity|].
  repeat split; cbn; auto.
  - now rewrite app_nil_r.
  - apply H. lia.
  - apply H. lia.
Qed.

Lemma runs_random_uniform :
  forall a b w,
    runs (random_uniform a b) w [] any (fun q => a <= b -> a <= q /\ q <= b).
Proof.
  intros a b w. unfold random_uniform.
  change (@nil Q) with (@nil Q ++ [])%list.
  eapply runs_bind; [apply runs_next_draw|]. intros u w1 _ _.
  apply runs_ret; [exact I|].
  intros (H0 & H1) Hab. split; nra.
Qed.

Lemma runs_random_randint :
  forall a b w,
    runs (random_randint a b) w [] any
         (fun n => (a <= b -> a <= n <= b)%Z).
Proof.
  intros a b w. unfold random_randint.
  change (@nil Q) with (@nil Q ++ [])%list.
  eapply runs_bind; [apply runs_next_draw|]. intros u w1 _ _.
  apply runs_ret; [exact I|].
  intros (H0 & H1) Hab.
  assert (Hlen : 0 < inject_Z (b - a + 1)).
  { change 0 with (inject_Z 0). rewrite <- Zlt_Qlt. lia. }
  assert (Hlo : (0 <= Qfloor (u * inject_Z (b - a + 1)))%Z).
  { change 0%Z with (Qfloor (inject_Z 0)). apply Qfloor_resp_le.
    change (inject_Z 0) with 0. nra. }
  assert (Hhi : (Qfloor (u * inject_Z (b - a + 1)) < b - a + 1)%Z).
  { rewrite Zlt_Qlt.
    apply Qle_lt_trans with (u * inject_Z (b - a + 1));
      [apply Qfloor_le | nra]. }
  lia.
Qed.

Lemma runs_random_choice :
  forall l w, runs (random_choice l) w [] any any.
Proof.
  intros l w. unfold random_choice.
  change (@nil Q) with (@nil Q ++ [])%list.
  eapply runs_bind; [apply runs_next_draw|]. intros u w1 _ _.
  now apply runs_ret.
Qed.

Lemma runs_now_isoformat :
  forall w, runs datetime_now_isoformat w [] any any.
Proof.
  intro w. eexists; eexists. split; [reflexivity|].
  repeat split; cbn; auto. now rewrite app_nil_r.
Qed.

Lemma runs_range_of :
  forall n w, runs (range_of (VInt n)) w [] (eq (range n)) any.
Proof. intros n w. now apply runs_ret. Qed.

Lemma runs_getitem :
  forall k d v w,
    get k d = Some v -> runs (getitem k d) w [] (eq v) any.
Proof.
  intros k d v w H. unfold getitem. rewrite H. now apply runs_ret.
Qed.

Lemma runs_getnum :
  forall k d q w,
    get k d = Some (VNum q) -> runs (getnum k d) w [] (eq q) any.
Proof.
  intros k d q w H. unfold getnum. rewrite H. now apply runs_ret.
Qed.

(** *** The simulated delay of the mock engine *)

Lemma lookup_default_nonneg :
  forall (t : list (string * Q)) k d,
    0 <= d -> Forall (fun kv => 0 <= snd kv) t ->
    0 <= MockQuantumAdapter.lookup_default k d t.
Proof.
  intros t k d Hd Ht. unfold MockQuantumAdapter.lookup_default.
  induction Ht as [|[k' a] t Ha Ht IH]; cbn; [exact Hd|].
  destruct (String.eqb k' k); [exact Ha | exact IH].
Qed.

Lemma sim_time_nonneg :
  forall m basis_set factor, 0 <= factor -> 0 <= sim_time m basis_set factor.
Proof.
  intros m b f Hf. unfold sim_time.
  assert (0 <= MockQuantumAdapter.num_atoms m).
  { unfold MockQuantumAdapter.num_atoms.
    change 0 with (inject_Z 0). rewrite <- Zle_Qle. lia. }
  assert (0 <= MockQuantumAdapter.lookup_default b 0.1
                 [ ("sto-3g", 0.1); ("3-21g", 0.2); ("6-31g", 0.3);
                   ("cc-pvdz", 0.5); ("cc-pvtz", 1.0) ]).
  { apply lookup_default_nonneg; [lra|]. repeat constructor; cbn; lra. }
  repeat apply Qmult_le_0_compat; trivial; lra.
Qed.

Lemma runs_simulate_calculation_time :
  forall m basis_set factor w,
    0 <= factor ->
    runs (MockQuantumAdapter._simulate_calculation_time m basis_set factor)
         w [sim_time m basis_set factor] any any.
Proof.
  intros m b f w Hf.
  unfold MockQuantumAdapter._simulate_calculation_time, time_sleep.
  fold (sim_time m b f).
  pose proof (sim_time_nonneg m b f Hf) as H.
  apply Qle_bool_iff in H. rewrite H.
  eexists; eexists. split; [reflexivity|].
  repeat split; cbn; auto.
Qed.

Lemma runs_calculate_runtime :
  forall m basis_set factor w,
    runs (MockQuantumAdapter._calculate_runtime m basis_set factor)
         w [] any any.
Proof.
  intros m b f w. unfold MockQuantumAdapter._calculate_runtime.
  change (@nil Q) with (@nil Q ++ [])%list.
  eapply runs_bind; [apply runs_random_uniform|]. intros r w1 _ _.
  now apply runs_ret.
Qed.

Lemma runs_bind_quiet :
  forall A C (c : M A) (k : A -> M C) w ds S1 B1 (S2 B2 : C -> Prop),
    runs c w [] S1 B1 ->
    (forall a w1, c w = (Ok a, w1) -> S1 a ->
       runs (k a) w1 ds S2 (fun b => B1 a -> B2 b)) ->
    runs (bind c k) w ds S2 B2.
Proof. intros. change ds with ([] ++ ds)%list. eapply runs_bind; eauto. Qed.

Lemma runs_bind_sleep :
  forall A C (c : M A) (k : A -> M C) w ds1 ds S1 B1 (S2 B2 : C -> Prop),
    runs c w ds1 S1 B1 ->
    (forall a w1, c w = (Ok a, w1) -> S1 a ->
       runs (k a) w1 ds S2 (fun b => B1 a -> B2 b)) ->
    runs (bind c k) w (ds1 ++ ds)%list S2 B2.
Proof. intros. eapply runs_bind; eauto. Qed.

Lemma length_range : forall n, length (range n) = Z.to_nat n.
Proof. intro n. unfold range. now rewrite length_map, length_seq. Qed.

(** ** The ground-state run *)

Section GroundState.

Import MockQuantumAdapter.

Variable molecule_data : Molecule.
Variable basis_set : string.
Variable kwargs : dict.

Lemma runs_reference_or_synthesized :
  forall w,
    runs (reference_or_synthesized molecule_data basis_set) w []
      (fun ref => forall ref0,
         reference_energy_of (id molecule_data) basis_set = Some ref0 ->
         ref = ref0)
      any.
Proof.
  intro w. unfold reference_or_synthesized.
  destruct (reference_energy_of (id molecule_data) basis_set) as [ref|].
  - apply runs_ret; [|exact I]. now intros ref0 [= ->].
  - eapply runs_bind_quiet; [apply runs_random_uniform|]. intros r w1 _ _.
    apply runs_ret; [|now intros]. discriminate.
Qed.

Lemma runs_orbital :
  forall n i w, runs (orbital n i) w [] any any.
Proof.
  intros n i w. unfold orbital.
  eapply runs_bind_quiet; [apply runs_random_uniform|]. intros e w1 _ _.
  eapply runs_bind_quiet; [apply runs_random_choice|]. intros s w2 _ _.
  now apply runs_ret.
Qed.

Lemma ground_state_runs :
  forall w,
    runs (run_ground_state_calculation molecule_data basis_set kwargs) w
         [sim_time molecule_data basis_set 1.0]
         (ground_shape molecule_data basis_set) ground_bounds.
Proof.
  intro w. unfold run_ground_state_calculation.
  change [sim_time molecule_data basis_set 1.0]
    with ([sim_time molecule_data basis_set 1.0] ++ [])%list.
  eapply runs_bind_sleep;
    [apply runs_simulate_calculation_time; lra|]. intros [] w1 _ _.
  eapply runs_bind_quiet; [apply runs_reference_or_synthesized|].
  intros ref w2 _ Href.
  eapply runs_bind_quiet; [apply runs_random_uniform|]. intros noise w3 _ _.
  eapply runs_bind_quiet;
    [apply runs_mapM with (S := fun _ _ => True) (B := fun _ _ => True);
     intros; apply runs_orbital|].
  intros orbitals w4 _ Horb.
  eapply runs_bind_quiet; [apply runs_calculate_runtime|]. intros rt w5 _ _.
  eapply runs_bind_quiet; [apply runs_random_randint|]. intros it w6 _ _.
  eapply runs_bind_quiet; [apply runs_random_uniform|]. intros d1 w7 _ _.
  eapply runs_bind_quiet; [apply runs_random_uniform|]. intros d2 w8 _ _.
  eapply runs_bind_quiet; [apply runs_random_uniform|]. intros d3 w9 _ _.
  eapply runs_bind_quiet; [apply runs_now_isoformat|]. intros ts w10 _ _.
  apply runs_ret.
  - do 7 eexists. split; [reflexivity|]. split; [|exact Href].
    apply Forall2_length in Horb. rewrite <- Horb, length_range. lia.
  - intros _ _ _ _ Hit _ _ Hnoise _ _ e ref' it' [= <-] [= <-] [= <-].
    specialize (Hit ltac:(lia)). specialize (Hnoise ltac:(lra)).
    repeat split; try lia; lra.
Qed.

End GroundState.

(** ** Runs through the manager, in mock mode *)

Lemma bind_kwargs_safe :
  forall configuration,
    keyword_safe configuration = true ->
    QuantumModuleManager.bind_kwargs configuration = Ok configuration.
Proof.
  unfold keyword_safe, keys.
  induction configuration as [|[k v] rest IH];
    cbn [map forallb fst QuantumModuleManager.bind_kwargs]; [reflexivity|].
  intro H. apply andb_prop in H. destruct H as [Hk Hrest].
  apply negb_true_iff in Hk. rewrite Hk, (IH Hrest). reflexivity.
Qed.

Lemma mock_run_experiment :
  forall adapter system_id basis_set experiment_type configuration m w,
    startswith "anti_" system_id = false ->
    QuantumModuleManager.find_system system_id = Some m ->
    keyword_safe configuration = true ->
    QuantumModuleManager.run_experiment true adapter system_id basis_set
      experiment_type configuration w
    = through_manager
        (MockQuantumAdapter.run_experiment
           (MockQuantumAdapter.lookup_default experiment_type experiment_type
              QuantumModuleManager.experiment_map)
           m basis_set configuration)
        system_id basis_set experiment_type w.
Proof.
  intros adapter system_id basis_set experiment_type configuration m w
    Hanti Hfind Hsafe.
  unfold QuantumModuleManager.run_experiment,
    QuantumModuleManager.run_experiment_try, through_manager, stamped.
  rewrite Hanti, Hfind, (bind_kwargs_safe _ Hsafe).
  unfold bind, QuantumModuleManager.lift, ret.
  destruct (MockQuantumAdapter.run_experiment _ m basis_set configuration w)
    as [[result|e] w']; reflexivity.
Qed.

Lemma midpoint_world_unit_draws : unit_draws midpoint_world.
Proof. intros n _. cbn. lra. Qed.

(** C1, as the specification states it, fails: the [data] payload of a mock
    ground-state run is the empty dict the manager fills in; it holds no
    orbitals. *)
Lemma ground_run_data_is_empty :
  let result :=
    fst (QuantumModuleManager.run_experiment true absent_adapter
           "h2o" "sto-3g" "ground" [] midpoint_world) in
  is_success result = true /\
  get "data" result = Some (VDict []) /\
  ~ exists data orbitals,
      get "data" result = Some (VDict data) /\
      get "orbitals" data = Some (VList orbitals) /\
      length orbitals = 6%nat.
Proof.
  vm_compute. repeat split.
  intros (data & orbitals & [= <-] & H & _). discriminate H.
Qed.

(** C1, amended. [run_experiment("h2o", "sto-3g", "ground", c)] in mock
    mode, for a configuration [c] none of whose keys is a positional
    parameter of the engine, is a Success whose energy lies in
    [-74.964, -74.962], whose iterations lie in [10, 30], whose top-level
    [orbitals] entry is a list of length 6, and whose [data] payload is the
    empty dict. *)
Theorem ground_run_h2o_sto3g :
  forall adapter configuration w,
    keyword_safe configuration = true ->
    unit_draws w ->
    exists result w',
      QuantumModuleManager.run_experiment true adapter
        "h2o" "sto-3g" "ground" configuration w = (result, w') /\
      is_success result = true /\
      (exists e, get "energy" result = Some (VNum e) /\
                 -74.964 <= e /\ e <= -74.962) /\
      (exists it, get "iterations" result = Some (VInt it) /\
                  (10 <= it <= 30)%Z) /\
      (exists orbitals, get "orbitals" result = Some (VList orbitals) /\
                        length orbitals = 6%nat) /\
      get "data" result = Some (VDict []).
Proof.
  intros adapter configuration w Hsafe Hunit.
  rewrite (mock_run_experiment adapter "h2o" "sto-3g" "ground" configuration
             MockQuantumAdapter.h2o w eq_refl eq_refl Hsafe).
  destruct (ground_state_runs MockQuantumAdapter.h2o "sto-3g" configuration w)
    as (r & w' & E & _ & Hshape & Hbounds).
  unfold through_manager.
  change (MockQuantumAdapter.run_experiment _ _ _ _ w)
    with (MockQuantumAdapter.run_ground_state_calculation
            MockQuantumAdapter.h2o "sto-3g" configuration w).
  rewrite E.
  destruct Hshape as (e & ref & it & rt & orbitals & dm & ts & -> & Hlen & Href).
  specialize (Href (-74.963) eq_refl). subst ref.
  destruct (Hbounds Hunit e (-74.963) it eq_refl eq_refl eq_refl)
    as (Hlo & Hhi & Hit).
  eexists; eexists. split; [reflexivity|].
  split; [reflexivity|].
  split; [exists e; split; [reflexivity | split; lra]|].
  split; [exists it; split; [reflexivity | exact Hit]|].
  split; [exists orbitals; split; [reflexivity | exact Hlen]|].
  reflexivity.
Qed.

Lemma ground_run_h2o_sto3g_witness :
  exists result w',
    QuantumModuleManager.run_experiment true absent_adapter
      "h2o" "sto-3g" "ground"
      [ ("ansatz", VStr "UCCSD"); ("mapper", VStr "JW");
        ("hamiltonian", VStr "electronic"); ("algorithm", VStr "VQE") ]
      midpoint_world = (result, w') /\
    is_success result = true /\
    (exists e, get "energy" result = Some (VNum e) /\
               -74.964 <= e /\ e <= -74.962) /\
    (exists it, get "iterations" result = Some (VInt it) /\
                (10 <= it <= 30)%Z) /\
    (exists orbitals, get "orbitals" result = Some (VList orbitals) /\
                      length orbitals = 6%nat) /\
    get "data" result = Some (VDict []).
Proof.
  apply ground_run_h2o_sto3g.
  - reflexivity.
  - exact midpoint_world_unit_draws.
Defined.

(** ** Failures *)

(** C2. [run_experiment] returns a result for every input, in mock mode and
    with any real adapter: whenever the dispatch or the engine raises, the
    result is a Failure made of the error message, the three identifying
    parameters and the elapsed runtime, and nothing else; and in mock mode
    a system id that is not in the catalog gives a Failure whose message is
    "Unknown system ID: " followed by that id (for an id with the antimatter
    prefix that is neither "anti_H" nor "anti_Ps", in either mode:
    "Unsupported antimatter system: " followed by that id). *)
Theorem run_experiment_never_raises :
  forall mock adapter system_id basis_set experiment_type configuration w,
    (exists result w',
       QuantumModuleManager.run_experiment mock adapter system_id basis_set
         experiment_type configuration w = (result, w')) /\
    (forall e w',
       QuantumModuleManager.run_experiment_try mock adapter system_id
         basis_set experiment_type configuration w = (Raise e, w') ->
       let result :=
         fst (QuantumModuleManager.run_experiment mock adapter system_id
                basis_set experiment_type configuration w) in
       is_failure result = true /\
       result = [ ("error", VStr (str_of_exn e));
                  ("system_id", VStr system_id);
                  ("basis_set", VStr basis_set);
                  ("experiment_type", VStr experiment_type);
                  ("runtime", VNum (now w' - now w)) ]) /\
    (mock = true ->
     startswith "anti_" system_id = false ->
     QuantumModuleManager.find_system system_id = None ->
     let result :=
       fst (QuantumModuleManager.run_experiment mock adapter system_id
              basis_set experiment_type configuration w) in
     is_failure result = true /\
     get "error" result = Some (VStr ("Unknown system ID: " ++ system_id))) /\
    (startswith "anti_" system_id = true ->
     system_id <> "anti_H" -> system_id <> "anti_Ps" ->
     let result :=
       fst (QuantumModuleManager.run_experiment mock adapter system_id
              basis_set experiment_type configuration w) in
     is_failure result = true /\
     get "error" result
     = Some (VStr ("Unsupported antimatter system: " ++ system_id))).
Proof.
  intros mock adapter system_id basis_set experiment_type configuration w.
  split; [|split; [|split]].
  - destruct (QuantumModuleManager.run_experiment mock adapter system_id
                basis_set experiment_type configuration w) as [result w'].
    now exists result, w'.
  - intros e w' E. unfold QuantumModuleManager.run_experiment.
    rewrite E. split; reflexivity.
  - intros -> Hanti Hfind.
    unfold QuantumModuleManager.run_experiment,
      QuantumModuleManager.run_experiment_try.
    rewrite Hanti, Hfind. split; reflexivity.
  - intros Hanti HH HPs.
    unfold QuantumModuleManager.run_experiment,
      QuantumModuleManager.run_experiment_try.
    rewrite Hanti.
    destruct (String.eqb_spec system_id "anti_H"); [contradiction|].
    destruct (String.eqb_spec system_id "anti_Ps"); [contradiction|].
    split; reflexivity.
Qed.

Lemma run_experiment_never_raises_witness :
  get "error"
    (fst (QuantumModuleManager.run_experiment true absent_adapter
            "benzene" "sto-3g" "ground" [] midpoint_world))
  = Some (VStr "Unknown system ID: benzene").
Proof.
  apply (proj1 (proj2 (proj2 (run_experiment_never_raises true
                                absent_adapter "benzene" "sto-3g" "ground" []
                                midpoint_world)))
           eq_refl eq_refl eq_refl).
Defined.

(** ** The translation of experiment types in mock mode *)

Lemma translation_falls_through :
  forall experiment_type,
    ~ In experiment_type public_types ->
    MockQuantumAdapter.lookup_default experiment_type experiment_type
      QuantumModuleManager.experiment_map = experiment_type.
Proof.
  intros t Ht. unfold MockQuantumAdapter.lookup_default.
  cbn [QuantumModuleManager.experiment_map MockQuantumAdapter.lookup].
  cbn [public_types In] in Ht.
  destruct (String.eqb_spec "ground" t); [tauto|].
  destruct (String.eqb_spec "excited" t); [tauto|].
  destruct (String.eqb_spec "geometry" t); [tauto|].
  destruct (String.eqb_spec "vibrational" t); [tauto|].
  destruct (String.eqb_spec "dipole" t); [tauto|].
  reflexivity.
Qed.

Lemma unknown_kind_raises :
  forall experiment_type m basis_set kwargs w,
    ~ In experiment_type internal_types ->
    MockQuantumAdapter.run_experiment experiment_type m basis_set kwargs w
    = (Raise (ValueError ("Unknown experiment type: " ++ experiment_type)), w).
Proof.
  intros t m b kw w Ht. unfold MockQuantumAdapter.run_experiment.
  cbn [internal_types In] in Ht.
  destruct (String.eqb_spec t "ground_state"); [intuition congruence|].
  destruct (String.eqb_spec t "excited_state"); [intuition congruence|].
  destruct (String.eqb_spec t "geometry_optimization");
    [intuition congruence|].
  destruct (String.eqb_spec t "vibrational_analysis");
    [intuition congruence|].
  destruct (String.eqb_spec t "dipole_moment"); [intuition congruence|].
  reflexivity.
Qed.

(** C10. In mock mode, for a catalog system and a configuration none of
    whose keys is a positional parameter of the engine: a type that is not
    one of the five public keys is passed to the engine unchanged; so each
    internal identifier runs the computation its public key runs; and any
    string that is neither gives a Failure whose message is
    "Unknown experiment type: " followed by the string. *)
Theorem experiment_type_translation :
  forall adapter system_id basis_set configuration m w,
    startswith "anti_" system_id = false ->
    QuantumModuleManager.find_system system_id = Some m ->
    keyword_safe configuration = true ->
    let run experiment_type :=
      QuantumModuleManager.run_experiment true adapter system_id basis_set
        experiment_type configuration w in
    let via engine experiment_type :=
      through_manager (engine m basis_set configuration)
        system_id basis_set experiment_type w in
    (forall t, ~ In t public_types ->
       run t = through_manager
                 (MockQuantumAdapter.run_experiment t m basis_set configuration)
                 system_id basis_set t w) /\
    (forall t, t = "ground" \/ t = "ground_state" ->
       run t = via MockQuantumAdapter.run_ground_state_calculation t) /\
    (forall t, t = "excited" \/ t = "excited_state" ->
       run t = via MockQuantumAdapter.run_excited_state_calculation t) /\
    (forall t, t = "geometry" \/ t = "geometry_optimization" ->
       run t = via MockQuantumAdapter.run_geometry_optimization t) /\
    (forall t, t = "vibrational" \/ t = "vibrational_analysis" ->
       run t = via MockQuantumAdapter.run_vibrational_analysis t) /\
    (forall t, t = "dipole" \/ t = "dipole_moment" ->
       run t = via MockQuantumAdapter.run_dipole_moment t) /\
    (forall t, ~ In t public_types -> ~ In t internal_types ->
       is_failure (fst (run t)) = true /\
       get "error" (fst (run t))
       = Some (VStr ("Unknown experiment type: " ++ t)) /\
       snd (run t) = w).
Proof.
  intros adapter system_id basis_set configuration m w Hanti Hfind Hsafe
    run via.
  assert (Hrun : forall t,
            run t = through_manager
                      (MockQuantumAdapter.run_experiment
                         (MockQuantumAdapter.lookup_default t t
                            QuantumModuleManager.experiment_map)
                         m basis_set configuration)
                      system_id basis_set t w).
  { intro t. now apply mock_run_experiment. }
  split; [|repeat split].
  - intros t Ht. rewrite Hrun, translation_falls_through by exact Ht.
    reflexivity.
  - intros t [-> | ->]; rewrite Hrun; reflexivity.
  - intros t [-> | ->]; rewrite Hrun; reflexivity.
  - intros t [-> | ->]; rewrite Hrun; reflexivity.
  - intros t [-> | ->]; rewrite Hrun; reflexivity.
  - intros t [-> | ->]; rewrite Hrun; reflexivity.
  - rewrite Hrun, translation_falls_through by assumption.
    unfold through_manager. rewrite unknown_kind_raises by assumption.
    reflexivity.
  - rewrite Hrun, translation_falls_through by assumption.
    unfold through_manager. rewrite unknown_kind_raises by assumption.
    reflexivity.
  - rewrite Hrun, translation_falls_through by assumption.
    unfold through_manager. rewrite unknown_kind_raises by assumption.
    reflexivity.
Qed.

Lemma experiment_type_translation_witness :
  get "error"
    (fst (QuantumModuleManager.run_experiment true absent_adapter
            "h2o" "sto-3g" "groundstate" [] midpoint_world))
  = Some (VStr "Unknown experiment type: groundstate").
Proof.
  destruct (experiment_type_translation absent_adapter "h2o" "sto-3g" []
              MockQuantumAdapter.h2o midpoint_world eq_refl eq_refl eq_refl)
    as (_ & _ & _ & _ & _ & _ & Hunknown).
  apply (Hunknown "groundstate").
  - cbn. intuition discriminate.
  - cbn. intuition discriminate.
Defined.

(** ** The composed runs of the mock engine *)

Section ComposedRuns.

Import MockQuantumAdapter.

Variable molecule_data : Molecule.
Variable basis_set : string.
Variable kwargs : dict.

Let delay (factor : Q) : Q := sim_time molecule_data basis_set factor.

Lemma runs_excited_state :
  forall ground_state e i w,
    get "energy" ground_state = Some (VNum e) ->
    runs (excited_state ground_state i) w [] (excited_level e i) any.
Proof.
  intros gs e i w He. unfold excited_state.
  eapply runs_bind_quiet; [apply runs_random_uniform|]. intros r w1 _ _.
  eapply runs_bind_quiet; [apply runs_getnum, He|]. intros e' w1' _ <-.
  eapply runs_bind_quiet; [apply runs_random_uniform|]. intros o w2 _ _.
  eapply runs_bind_quiet; [apply runs_random_uniform|]. intros c w3 _ _.
  apply runs_ret; [|now intros].
  eexists; eexists. repeat split; reflexivity.
Qed.

Lemma excited_state_runs :
  forall n w,
    get_default "num_states" (VInt 3) kwargs = VInt n ->
    runs (run_excited_state_calculation molecule_data basis_set kwargs) w
         [delay 1.0; delay 1.5]
         (excited_shape molecule_data basis_set kwargs n w) any.
Proof.
  intros n w Hn. unfold run_excited_state_calculation. rewrite Hn.
  change [delay 1.0; delay 1.5] with ([delay 1.0] ++ [delay 1.5] ++ [])%list.
  eapply runs_bind_sleep; [apply ground_state_runs|].
  intros gs w1 Eground Hshape.
  destruct Hshape as (e & ref & it & rt & orbs & dm & ts & -> & _ & _).
  eapply runs_bind_sleep;
    [apply runs_simulate_calculation_time; lra|]. intros [] w2 _ _.
  eapply runs_bind_quiet; [apply runs_range_of|]. intros indices w3 _ <-.
  eapply runs_bind_quiet.
  { apply runs_mapM with (S := excited_level e) (B := fun _ _ => True).
    intros i w'.
    eapply runs_weaken; [apply runs_excited_state; reflexivity | auto | auto]. }
  intros states w4 _ Hstates.
  eapply runs_bind_quiet; [apply runs_calculate_runtime|]. intros rt' w5 _ _.
  eapply runs_bind_quiet; [now apply runs_getitem|]. intros ve w6 _ <-.
  eapply runs_bind_quiet; [now apply runs_getitem|]. intros vr w7 _ <-.
  eapply runs_bind_quiet; [apply runs_random_randint|]. intros it' w8 _ _.
  eapply runs_bind_quiet; [apply runs_now_isoformat|]. intros ts' w9 _ _.
  apply runs_ret; [|now intros].
  eexists; eexists; exists e, states.
  split; [exact Eground|]. repeat split. exact Hstates.
Qed.

(** *** Geometry optimization *)

Lemma runs_optimized_atom :
  forall atom w, runs (optimized_atom atom) w [] any any.
Proof.
  intros atom w. unfold optimized_atom.
  eapply runs_bind_quiet; [apply runs_random_uniform|]. intros rx w1 _ _.
  eapply runs_bind_quiet; [apply runs_random_uniform|]. intros ry w2 _ _.
  eapply runs_bind_quiet; [apply runs_random_uniform|]. intros rz w3 _ _.
  now apply runs_ret.
Qed.

Lemma runs_optimization_step :
  forall energy num_steps current i w,
    runs (optimization_step energy num_steps current i) w [] any any.
Proof.
  intros energy num_steps current i w. unfold optimization_step.
  eapply runs_bind_quiet; [apply runs_random_uniform|]. intros r w1 _ _.
  eapply runs_bind_quiet; [apply runs_random_uniform|]. intros g w2 _ _.
  eapply runs_bind_quiet; [apply runs_random_uniform|]. intros f w3 _ _.
  now apply runs_ret.
Qed.

Lemma geometry_optimization_runs :
  forall w,
    runs (run_geometry_optimization molecule_data basis_set kwargs) w
         [delay 2.0] (geometry_shape basis_set) any.
Proof.
  intro w. unfold run_geometry_optimization.
  change [delay 2.0] with ([delay 2.0] ++ [])%list.
  eapply runs_bind_sleep;
    [apply runs_simulate_calculation_time; lra|]. intros [] w1 _ _.
  eapply runs_bind_quiet; [apply runs_reference_or_synthesized|].
  intros ref w2 _ _.
  eapply runs_bind_quiet; [apply runs_random_uniform|]. intros noise w3 _ _.
  eapply runs_bind_quiet;
    [apply runs_mapM with (S := fun _ _ => True) (B := fun _ _ => True);
     intros; apply runs_optimized_atom|].
  intros optimized w4 _ _.
  eapply runs_bind_quiet; [apply runs_random_randint|]. intros n w5 _ _.
  eapply runs_bind_quiet; [apply runs_random_uniform|]. intros start w6 _ _.
  eapply runs_bind_quiet;
    [apply runs_foldM; intros; apply runs_optimization_step|].
  intros steps w7 _ _.
  eapply runs_bind_quiet; [apply runs_calculate_runtime|]. intros rt w8 _ _.
  eapply runs_bind_quiet; [apply runs_random_randint|]. intros it w9 _ _.
  eapply runs_bind_quiet; [apply runs_now_isoformat|]. intros ts w10 _ _.
  apply runs_ret; [|now intros].
  do 7 eexists. reflexivity.
Qed.

(** *** Vibrational analysis *)

Lemma runs_displacement :
  forall j w, runs (displacement j) w [] (displacement_of j) any.
Proof.
  intros j w. unfold displacement.
  eapply runs_bind_quiet; [apply runs_random_uniform|]. intros dx w1 _ _.
  eapply runs_bind_quiet; [apply runs_random_uniform|]. intros dy w2 _ _.
  eapply runs_bind_quiet; [apply runs_random_uniform|]. intros dz w3 _ _.
  apply runs_ret; [|now intros].
  now exists dx, dy, dz.
Qed.

Lemma runs_vibration :
  forall n i w, runs (vibration n i) w [] (mode_of n i) any.
Proof.
  intros n i w. unfold vibration.
  eapply runs_bind_quiet; [apply runs_random_uniform|]. intros r w1 _ _.
  eapply runs_bind_quiet; [apply runs_random_uniform|]. intros int w2 _ _.
  eapply runs_bind_quiet;
    [apply runs_mapM with (S := displacement_of) (B := fun _ _ => True);
     intros; eapply runs_weaken; [apply runs_displacement | auto | auto]|].
  intros displacements w3 _ Hdisp.
  eapply runs_bind_quiet; [apply runs_random_uniform|]. intros rm w4 _ _.
  eapply runs_bind_quiet; [apply runs_random_uniform|]. intros fc w5 _ _.
  apply runs_ret; [|now intros].
  split; [reflexivity|].
  eexists; eexists. repeat split. exact Hdisp.
Qed.

Lemma vibrational_analysis_runs :
  forall w,
    runs (run_vibrational_analysis molecule_data basis_set kwargs) w
         [delay 2.0; delay 2.5]
         (vibrational_shape molecule_data basis_set kwargs w) any.
Proof.
  intro w. unfold run_vibrational_analysis.
  change [delay 2.0; delay 2.5] with ([delay 2.0] ++ [delay 2.5] ++ [])%list.
  eapply runs_bind_sleep; [apply geometry_optimization_runs|].
  intros opt w1 Eopt Hshape.
  destruct Hshape as (e & ref & it & rt & geometry & steps & ts & ->).
  eapply runs_bind_sleep;
    [apply runs_simulate_calculation_time; lra|]. intros [] w2 _ _.
  eapply runs_bind_quiet.
  { apply runs_mapM with (S := mode_of (atom_count molecule_data))
                         (B := fun _ _ => True).
    intros i w'.
    eapply runs_weaken; [apply runs_vibration | auto | auto]. }
  intros modes w3 _ Hmodes.
  eapply runs_bind_quiet; [apply runs_calculate_runtime|]. intros rt' w4 _ _.
  eapply runs_bind_quiet; [now apply runs_getitem|]. intros ve w5 _ <-.
  eapply runs_bind_quiet; [now apply runs_getitem|]. intros vr w6 _ <-.
  eapply runs_bind_quiet; [apply runs_random_randint|]. intros it' w7 _ _.
  eapply runs_bind_quiet; [now apply runs_getitem|]. intros vg w8 _ <-.
  eapply runs_bind_quiet; [apply runs_now_isoformat|]. intros ts' w9 _ _.
  apply runs_ret; [|now intros].
  eexists; exists w1, e, ref, modes.
  split; [exact Eopt|]. repeat split. exact Hmodes.
Qed.

(** *** Dipole moment *)

Lemma dipole_moment_runs :
  forall w,
    runs (run_dipole_moment molecule_data basis_set kwargs) w
         [delay 1.0; delay 0.5] any any.
Proof.
  intro w. unfold run_dipole_moment.
  change [delay 1.0; delay 0.5] with ([delay 1.0] ++ [delay 0.5] ++ [])%list.
  eapply runs_bind_sleep; [apply ground_state_runs|].
  intros gs w1 _ Hshape.
  destruct Hshape as (e & ref & it & rt & orbs & dm & ts & -> & _ & _).
  eapply runs_bind_sleep;
    [apply runs_simulate_calculation_time; lra|]. intros [] w2 _ _.
  eapply runs_bind_quiet; [apply runs_random_uniform|]. intros dx w3 _ _.
  eapply runs_bind_quiet; [apply runs_random_uniform|]. intros dy w4 _ _.
  eapply runs_bind_quiet; [apply runs_random_uniform|]. intros dz w5 _ _.
  eapply runs_bind_quiet; [apply runs_calculate_runtime|]. intros rt' w6 _ _.
  eapply runs_bind_quiet; [now apply runs_getitem|]. intros ve w7 _ _.
  eapply runs_bind_quiet; [now apply runs_getitem|]. intros vr w8 _ _.
  eapply runs_bind_quiet; [now apply runs_getitem|]. intros vi w9 _ _.
  eapply runs_bind_quiet; [apply runs_now_isoformat|]. intros ts' w10 _ _.
  now apply runs_ret.
Qed.

End ComposedRuns.

Lemma Forall2_Forall_r :
  forall A C (R : A -> C -> Prop) (P : C -> Prop) xs ys,
    Forall2 R xs ys -> (forall x y, R x y -> P y) -> Forall P ys.
Proof.
  intros A C R P xs ys H HP.
  induction H; constructor; eauto.
Qed.

(** ** Excited states *)

(** C6. For every molecule and basis set (and a [num_states] option that is
    absent or an integer), the excited-state run first runs the ground
    state and reuses it: its energy and reference energy are those of that
    ground-state result, which it embeds whole as [ground_state_data]; it
    reports [num_states] excited states (3 when the option is absent), and
    the total energy of each is the ground energy plus its excitation
    energy. *)
Theorem excited_state_reuses_ground_state :
  forall molecule_data basis_set kwargs n w,
    get_default "num_states" (VInt 3) kwargs = VInt n ->
    exists ground_state w1 result w' e ref states,
      MockQuantumAdapter.run_ground_state_calculation
        molecule_data basis_set kwargs w = (Ok ground_state, w1) /\
      MockQuantumAdapter.run_excited_state_calculation
        molecule_data basis_set kwargs w = (Ok result, w') /\
      get "energy" ground_state = Some (VNum e) /\
      get "reference_energy" ground_state = Some (VNum ref) /\
      get "energy" result = Some (VNum e) /\
      get "reference_energy" result = Some (VNum ref) /\
      get "ground_state_data" result = Some (VDict ground_state) /\
      get "excited_states" result = Some (VList states) /\
      length states = Z.to_nat n /\
      (get "num_states" kwargs = None -> length states = 3%nat) /\
      Forall (fun state =>
                exists d x t,
                  state = VDict d /\
                  get "excitation_energy" d = Some (VNum x) /\
                  get "total_energy" d = Some (VNum t) /\
                  t == e + x) states.
Proof.
  intros m b kw n w Hn.
  destruct (excited_state_runs m b kw n w Hn)
    as (result & w' & E & _ & Hshape & _).
  destruct Hshape
    as (gs & w1 & e & states & Eg & He & Hre & Hrr & Hgs & Hst & Hlv).
  destruct (ground_state_runs m b kw w) as (gs' & w1' & Eg' & _ & Hg & _).
  rewrite Eg in Eg'. injection Eg' as <- <-.
  destruct Hg as (e' & ref & it & rt & orbs & dm & ts & -> & _ & _).
  cbn in He. injection He as <-.
  eexists; exists w1, result, w', e', ref, states.
  split; [exact Eg|].
  repeat split; try assumption.
  - apply Forall2_length in Hlv. now rewrite <- Hlv, length_range.
  - intro Habsent. unfold get_default in Hn. rewrite Habsent in Hn.
    injection Hn as <-.
    apply Forall2_length in Hlv. now rewrite <- Hlv, length_range.
  - apply (Forall2_Forall_r _ _ _ _ _ _ Hlv).
    intros i s (d & x & -> & _ & Hx & Ht).
    exists d, x, (e' + x). repeat split; assumption.
Qed.

Lemma excited_state_reuses_ground_state_witness :
  exists ground_state w1 result w' e ref states,
    MockQuantumAdapter.run_ground_state_calculation
      MockQuantumAdapter.nh3 "6-31g" [] midpoint_world
    = (Ok ground_state, w1) /\
    MockQuantumAdapter.run_excited_state_calculation
      MockQuantumAdapter.nh3 "6-31g" [] midpoint_world = (Ok result, w') /\
    get "energy" ground_state = Some (VNum e) /\
    get "reference_energy" ground_state = Some (VNum ref) /\
    get "energy" result = Some (VNum e) /\
    get "reference_energy" result = Some (VNum ref) /\
    get "ground_state_data" result = Some (VDict ground_state) /\
    get "excited_states" result = Some (VList states) /\
    length states = Z.to_nat 3 /\
    (get "num_states" [] = None -> length states = 3%nat) /\
    Forall (fun state =>
              exists d x t,
                state = VDict d /\
                get "excitation_energy" d = Some (VNum x) /\
                get "total_energy" d = Some (VNum t) /\
                t == e + x) states.
Proof.
  apply (excited_state_reuses_ground_state MockQuantumAdapter.nh3 "6-31g" []
           3 midpoint_world).
  reflexivity.
Defined.

(** ** Vibrational analysis *)

Lemma frequencies_of_modes :
  forall n (indices : list Z) (modes : list (Q * value)),
    Forall2 (mode_of n) indices modes ->
    map frequency_of (map snd modes) = map fst modes.
Proof.
  intros n indices modes H.
  induction H as [|i mode indices modes (Hf & _) _ IH]; cbn;
    [reflexivity | now rewrite Hf, IH].
Qed.

(** C8, as the specification states it, fails: for a molecule of one atom,
    3N - 6 is -3, and the analysis reports no mode at all. *)
Lemma vibrational_modes_of_one_atom :
  exists result w' vibrations,
    MockQuantumAdapter.run_vibrational_analysis hydrogen_atom "sto-3g" []
      midpoint_world = (Ok result, w') /\
    get "vibrations" result = Some (VList vibrations) /\
    Z.of_nat (length vibrations)
    <> (3 * Z.of_nat (length (MockQuantumAdapter.atoms hydrogen_atom)) - 6)%Z.
Proof.
  destruct (vibrational_analysis_runs hydrogen_atom "sto-3g" []
              midpoint_world)
    as (result & w' & E & _ & Hshape & _).
  destruct Hshape as (opt & w1 & e & ref & modes & _ & _ & _ & _ & _
                      & Hvib & Hmodes & _).
  exists result, w', (map snd modes).
  split; [exact E|]. split; [exact Hvib|].
  rewrite length_map. cbn. lia.
Qed.

(** C8, amended. For every molecule with N atoms, the vibrational analysis
    first runs the geometry optimization and reuses its energy and
    reference energy; it produces max(0, 3N - 6) modes (3N - 6 as soon as
    N >= 2, so on the whole catalog), each with one displacement entry per
    atom, for all N atoms in order; and its zero-point energy is the sum of
    the non-negative parts of the mode frequencies, times 0.5, divided by
    4.184 and by 1000. *)
Theorem vibrational_analysis_modes :
  forall molecule_data basis_set kwargs w,
    let N := Z.of_nat (length (MockQuantumAdapter.atoms molecule_data)) in
    exists opt_result w1 result w' e ref vibrations,
      MockQuantumAdapter.run_geometry_optimization
        molecule_data basis_set kwargs w = (Ok opt_result, w1) /\
      MockQuantumAdapter.run_vibrational_analysis
        molecule_data basis_set kwargs w = (Ok result, w') /\
      get "energy" opt_result = Some (VNum e) /\
      get "reference_energy" opt_result = Some (VNum ref) /\
      get "energy" result = Some (VNum e) /\
      get "reference_energy" result = Some (VNum ref) /\
      get "vibrations" result = Some (VList vibrations) /\
      Z.of_nat (length vibrations) = Z.max 0 (3 * N - 6) /\
      ((2 <= N)%Z -> Z.of_nat (length vibrations) = (3 * N - 6)%Z) /\
      (In molecule_data MockQuantumAdapter.SYSTEMS -> (2 <= N)%Z) /\
      Forall (fun mode =>
                exists d displacements,
                  mode = VDict d /\
                  get "displacements" d = Some (VList displacements) /\
                  Z.of_nat (length displacements) = N /\
                  Forall2 displacement_of (range N) displacements)
             vibrations /\
      get "zero_point_energy" result
      = Some (VNum (MockQuantumAdapter.sum_nonnegative
                      (map frequency_of vibrations) * 0.5 / 4.184 / 1000)).
Proof.
  intros m b kw w N.
  destruct (vibrational_analysis_runs m b kw w)
    as (result & w' & E & _ & Hshape & _).
  destruct Hshape as (opt & w1 & e & ref & modes & Eopt & He & Href & Hre
                      & Hrr & Hvib & Hmodes & Hzpe).
  fold N in Hmodes. unfold atom_count in Hmodes. fold N in Hmodes.
  assert (Hlen : Z.of_nat (length (map snd modes)) = Z.max 0 (3 * N - 6)).
  { rewrite length_map. apply Forall2_length in Hmodes.
    rewrite <- Hmodes, length_range. lia. }
  exists opt, w1, result, w', e, ref, (map snd modes).
  repeat split; try congruence.
  - lia.
  - intros [<-|[<-|[<-|[<-|[]]]]]; subst N; cbn; lia.
  - apply Forall_map.
    apply (Forall2_Forall_r _ _ _ _ _ _ Hmodes).
    intros i mode (_ & d & disp & Hd & _ & Hdisp & Hall).
    exists d, disp. repeat split; try assumption.
    apply Forall2_length in Hall. rewrite <- Hall, length_range.
    subst N. lia.
  - rewrite (frequencies_of_modes _ _ _ Hmodes). exact Hzpe.
Qed.

Lemma vibrational_analysis_modes_witness :
  exists result w' vibrations,
    MockQuantumAdapter.run_vibrational_analysis MockQuantumAdapter.ch4
      "sto-3g" [] midpoint_world = (Ok result, w') /\
    get "vibrations" result = Some (VList vibrations) /\
    Z.of_nat (length vibrations) = 9%Z.
Proof.
  destruct (vibrational_analysis_modes MockQuantumAdapter.ch4 "sto-3g" []
              midpoint_world)
    as (opt & w1 & result & w' & e & ref & vibrations & _ & E & _ & _ & _
        & _ & Hvib & _ & Hcount & _).
  exists result, w', vibrations.
  split; [exact E|]. split; [exact Hvib|].
  apply Hcount. cbn. lia.
Defined.

(** ** The simulated processing delay *)

(** C9, as the specification states it, fails: the delay of a ground-state
    run on water with sto-3g is one [time.sleep] of 0.015 seconds, which
    blocks the calling thread; it is not a suspension point. *)
Lemma ground_state_delay_blocks :
  exists secs,
    trace (snd (MockQuantumAdapter.run_experiment "ground_state"
                  MockQuantumAdapter.h2o "sto-3g" [] midpoint_world))
    = [ThreadSleep secs] /\
    secs == 0.015 /\
    forallb cooperative
      (trace (snd (MockQuantumAdapter.run_experiment "ground_state"
                     MockQuantumAdapter.h2o "sto-3g" [] midpoint_world)))
    = false.
Proof.
  eexists. split; [vm_compute; reflexivity|].
  split; [reflexivity | vm_compute; reflexivity].
Qed.

(** C9, amended. Before it returns, each mock experiment kind sleeps on the
    calling thread ([time.sleep]) for atoms * basis factor * kind factor *
    0.05 seconds, the basis factor being 0.1 unless the basis set is one of
    sto-3g 0.1, 3-21g 0.2, 6-31g 0.3, cc-pvdz 0.5, cc-pvtz 1.0, and the kind
    factors ground_state 1.0; excited_state 1.0 then 1.5;
    geometry_optimization 2.0; vibrational_analysis 2.0 then 2.5;
    dipole_moment 1.0 then 0.5.  A run performs these blocking sleeps and no
    other delay; none is a suspension point. *)
Theorem simulated_delay_blocks_the_thread :
  forall kind factors molecule_data basis_set kwargs n w,
    In (kind, factors) delay_factors ->
    get_default "num_states" (VInt 3) kwargs = VInt n ->
    exists result w',
      MockQuantumAdapter.run_experiment kind molecule_data basis_set kwargs w
      = (Ok result, w') /\
      trace w'
      = (trace w
         ++ map (fun factor =>
                   ThreadSleep
                     (MockQuantumAdapter.num_atoms molecule_data
                      * MockQuantumAdapter.lookup_default basis_set 0.1
                          [ ("sto-3g", 0.1); ("3-21g", 0.2); ("6-31g", 0.3);
                            ("cc-pvdz", 0.5); ("cc-pvtz", 1.0) ]
                      * factor * 0.05))
                factors)%list /\
      forall e,
        In e (skipn (length (trace w)) (trace w')) -> cooperative e = false.
Proof.
  intros kind factors m b kw n w Hkind Hn.
  assert (H : exists result w',
             MockQuantumAdapter.run_experiment kind m b kw w = (Ok result, w')
             /\ trace w'
                = (trace w
                   ++ map ThreadSleep (map (sim_time m b) factors))%list).
  { cbn [delay_factors In] in Hkind.
    destruct Hkind as [H|[H|[H|[H|[H|[]]]]]]; injection H as <- <-.
    - destruct (ground_state_runs m b kw w) as (r & w' & E & St & _).
      exists r, w'. split; [exact E | apply St].
    - destruct (excited_state_runs m b kw n w Hn) as (r & w' & E & St & _).
      exists r, w'. split; [exact E | apply St].
    - destruct (geometry_optimization_runs m b kw w) as (r & w' & E & St & _).
      exists r, w'. split; [exact E | apply St].
    - destruct (vibrational_analysis_runs m b kw w) as (r & w' & E & St & _).
      exists r, w'. split; [exact E | apply St].
    - destruct (dipole_moment_runs m b kw w) as (r & w' & E & St & _).
      exists r, w'. split; [exact E | apply St]. }
  destruct H as (result & w' & E & Htrace).
  rewrite map_map in Htrace.
  exists result, w'. split; [exact E|]. split; [exact Htrace|].
  intros e He. rewrite Htrace in He.
  rewrite skipn_app, skipn_all, Nat.sub_diag in He. cbn [skipn app] in He.
  apply in_map_iff in He. destruct He as (f & <- & _). reflexivity.
Qed.

Lemma simulated_delay_blocks_the_thread_witness :
  exists result w',
    MockQuantumAdapter.run_experiment "vibrational_analysis"
      MockQuantumAdapter.co2 "cc-pvtz" [] midpoint_world = (Ok result, w') /\
    trace w'
    = [ ThreadSleep (inject_Z 3 * 1.0 * 2.0 * 0.05);
        ThreadSleep (inject_Z 3 * 1.0 * 2.5 * 0.05) ].
Proof.
  destruct (simulated_delay_blocks_the_thread
              "vibrational_analysis" [2.0; 2.5] MockQuantumAdapter.co2
              "cc-pvtz" [] 3 midpoint_world)
    as (result & w' & E & Htrace & _).
  - cbn. tauto.
  - reflexivity.
  - exists result, w'. split; [exact E | exact Htrace].
Defined.

(** * Further properties *)

(** ** Looking a system up *)

Lemma lower_catalog_ids :
  map (fun m => lower (MockQuantumAdapter.id m)) MockQuantumAdapter.SYSTEMS
  = ["h2o"; "ch4"; "nh3"; "co2"].
Proof. reflexivity. Qed.

(** X1. The manager finds a system by its id whatever the case of the
    letters, the mock adapter's own [get_molecule_data] only by the exact
    id; what [get_molecule_data] finds the manager finds too, and an id
    [get_molecule_data] does not know raises "Unknown system ID: <id>". *)
Theorem system_lookup :
  forall system_id m,
    (QuantumModuleManager.find_system system_id = Some m <->
     In m MockQuantumAdapter.SYSTEMS /\
     lower system_id = MockQuantumAdapter.id m) /\
    (MockQuantumAdapter.get_molecule_data system_id = Ok m <->
     In m MockQuantumAdapter.SYSTEMS /\
     system_id = MockQuantumAdapter.id m) /\
    (MockQuantumAdapter.get_molecule_data system_id = Ok m ->
     QuantumModuleManager.find_system system_id = Some m) /\
    ((forall m', MockQuantumAdapter.get_molecule_data system_id <> Ok m') ->
     MockQuantumAdapter.get_molecule_data system_id
     = Raise (ValueError ("Unknown system ID: " ++ system_id))).
Proof.
  intros sid m.
  assert (Hfind :
            QuantumModuleManager.find_system sid = Some m <->
            In m MockQuantumAdapter.SYSTEMS /\
            lower sid = MockQuantumAdapter.id m).
  { unfold QuantumModuleManager.find_system, MockQuantumAdapter.SYSTEMS.
    cbn [find In].
    change (lower (MockQuantumAdapter.id MockQuantumAdapter.h2o)) with "h2o".
    change (lower (MockQuantumAdapter.id MockQuantumAdapter.ch4)) with "ch4".
    change (lower (MockQuantumAdapter.id MockQuantumAdapter.nh3)) with "nh3".
    change (lower (MockQuantumAdapter.id MockQuantumAdapter.co2)) with "co2".
    destruct (String.eqb_spec "h2o" (lower sid)) as [E1|N1].
    { split; [intros [= <-]; auto|].
      intros [[<-|[<-|[<-|[<-|[]]]]] E]; try reflexivity;
        rewrite E in E1; discriminate E1. }
    destruct (String.eqb_spec "ch4" (lower sid)) as [E2|N2].
    { split; [intros [= <-]; auto|].
      intros [[<-|[<-|[<-|[<-|[]]]]] E]; try reflexivity;
        rewrite E in E2; discriminate E2. }
    destruct (String.eqb_spec "nh3" (lower sid)) as [E3|N3].
    { split; [intros [= <-]; auto|].
      intros [[<-|[<-|[<-|[<-|[]]]]] E]; try reflexivity;
        rewrite E in E3; discriminate E3. }
    destruct (String.eqb_spec "co2" (lower sid)) as [E4|N4].
    { split; [intros [= <-]; auto 6|].
      intros [[<-|[<-|[<-|[<-|[]]]]] E]; try reflexivity;
        rewrite E in E4; discriminate E4. }
    split; [discriminate|].
    intros [[<-|[<-|[<-|[<-|[]]]]] E]; exfalso; auto. }
  assert (Hget :
            MockQuantumAdapter.get_molecule_data sid = Ok m <->
            In m MockQuantumAdapter.SYSTEMS /\ sid = MockQuantumAdapter.id m).
  { unfold MockQuantumAdapter.get_molecule_data, MockQuantumAdapter.SYSTEMS.
    cbn [find In].
    change (MockQuantumAdapter.id MockQuantumAdapter.h2o) with "h2o".
    change (MockQuantumAdapter.id MockQuantumAdapter.ch4) with "ch4".
    change (MockQuantumAdapter.id MockQuantumAdapter.nh3) with "nh3".
    change (MockQuantumAdapter.id MockQuantumAdapter.co2) with "co2".
    destruct (String.eqb_spec "h2o" sid) as [E1|N1].
    { split; [intros [= <-]; auto|].
      intros [[<-|[<-|[<-|[<-|[]]]]] E]; try reflexivity;
        rewrite E in E1; discriminate E1. }
    destruct (String.eqb_spec "ch4" sid) as [E2|N2].
    { split; [intros [= <-]; auto|].
      intros [[<-|[<-|[<-|[<-|[]]]]] E]; try reflexivity;
        rewrite E in E2; discriminate E2. }
    destruct (String.eqb_spec "nh3" sid) as [E3|N3].
    { split; [intros [= <-]; auto|].
      intros [[<-|[<-|[<-|[<-|[]]]]] E]; try reflexivity;
        rewrite E in E3; discriminate E3. }
    destruct (String.eqb_spec "co2" sid) as [E4|N4].
    { split; [intros [= <-]; auto 6|].
      intros [[<-|[<-|[<-|[<-|[]]]]] E]; try reflexivity;
        rewrite E in E4; discriminate E4. }
    split; [discriminate|].
    intros [[<-|[<-|[<-|[<-|[]]]]] E]; exfalso; auto. }
  split; [exact Hfind|]. split; [exact Hget|]. split.
  - intro H. apply Hget in H. destruct H as [Hin ->].
    apply Hfind. split; [exact Hin|].
    destruct Hin as [<-|[<-|[<-|[<-|[]]]]]; reflexivity.
  - intro Hnone. unfold MockQuantumAdapter.get_molecule_data in *.
    destruct (find _ MockQuantumAdapter.SYSTEMS) as [m'|];
      [exfalso; now apply (Hnone m') | reflexivity].
Qed.

Lemma system_lookup_witness :
  QuantumModuleManager.find_system "H2O" = Some MockQuantumAdapter.h2o /\
  MockQuantumAdapter.get_molecule_data "H2O"
  = Raise (ValueError "Unknown system ID: H2O").
Proof.
  destruct (system_lookup "H2O" MockQuantumAdapter.h2o)
    as (Hfind & _ & _ & Hraise).
  split.
  - apply Hfind. split; [cbn; tauto | reflexivity].
  - apply Hraise. intros m'. discriminate.
Defined.

(** ** The generic estimate *)

Lemma by_system_cases :
  forall system_id e,
    In (Heuristic.by_system system_id e)
       [ Heuristic.mk (Heuristic.qubits e + 6) (Heuristic.depth e + 30)
           "10-30 seconds";
         Heuristic.mk (Heuristic.qubits e + 2) (Heuristic.depth e + 10)
           (Heuristic.band e);
         Heuristic.mk (Heuristic.qubits e + 1) (Heuristic.depth e)
           (Heuristic.band e);
         e ].
Proof.
  intros s e. unfold Heuristic.by_system.
  destruct (String.eqb (lower s) "h2o" || String.eqb (lower s) "lih");
    [cbn; tauto|].
  destruct (String.eqb (lower s) "h2"); [cbn; tauto|].
  destruct (String.eqb (lower s) "h" || String.eqb (lower s) "he"
            || String.eqb (lower s) "li"); cbn; tauto.
Qed.

Lemma by_algorithm_cases :
  forall algorithm e,
    In (Heuristic.by_algorithm algorithm e)
       [ Heuristic.mk (Heuristic.qubits e) (Heuristic.depth e * 1.5)
           (Heuristic.band e);
         Heuristic.mk (Heuristic.qubits e) (Heuristic.depth e * 2)
           (Heuristic.band e);
         Heuristic.mk (Heuristic.qubits e * 2) (Heuristic.depth e * 3)
           "30-60 seconds";
         e ].
Proof.
  intros a e. unfold Heuristic.by_algorithm.
  destruct (String.eqb (upper a) "VQE"); [cbn; tauto|].
  destruct (String.eqb (upper a) "QAOA"); [cbn; tauto|].
  destruct (String.eqb (upper a) "QPE"); cbn; tauto.
Qed.

Lemma by_ansatz_cases :
  forall ansatz e,
    In (Heuristic.by_ansatz ansatz e)
       [ Heuristic.mk (Heuristic.qubits e + 2) (Heuristic.depth e * 2)
           (Heuristic.band e);
         Heuristic.mk (Heuristic.qubits e) (Heuristic.depth e + 10)
           (Heuristic.band e);
         e ].
Proof.
  intros a e. unfold Heuristic.by_ansatz.
  destruct (String.eqb (upper a) "UCCSD"); [cbn; tauto|].
  destruct (String.eqb (upper a) "HWE"); cbn; tauto.
Qed.

Lemma lower_idempotent : forall s, lower (lower s) = lower s.
Proof.
  unfold lower. induction s as [|c s IH]; cbn [map_string]; [reflexivity|].
  rewrite IH. f_equal.
  unfold lower_ascii.
  destruct ((65 <=? nat_of_ascii c) && (nat_of_ascii c <=? 90))%nat eqn:E.
  - apply andb_prop in E. destruct E as [E1 E2].
    apply Nat.leb_le in E1, E2.
    rewrite nat_ascii_embedding by lia.
    replace ((65 <=? nat_of_ascii c + 32) && (nat_of_ascii c + 32 <=? 90))%nat
      with false; [reflexivity|].
    symmetry. apply andb_false_iff. right. apply Nat.leb_gt. lia.
  - rewrite E. reflexivity.
Qed.

Lemma upper_ascii_idempotent :
  forall s,
    map_string upper_ascii (map_string upper_ascii s)
    = map_string upper_ascii s.
Proof.
  induction s as [|c s IH]; cbn [map_string]; [reflexivity|].
  rewrite IH. f_equal.
  unfold upper_ascii.
  destruct ((97 <=? nat_of_ascii c) && (nat_of_ascii c <=? 122))%nat eqn:E.
  - apply andb_prop in E. destruct E as [E1 E2].
    apply Nat.leb_le in E1, E2.
    rewrite nat_ascii_embedding by lia.
    replace ((97 <=? nat_of_ascii c - 32) && (nat_of_ascii c - 32 <=? 122))%nat
      with false; [reflexivity|].
    symmetry. apply andb_false_iff. left. apply Nat.leb_gt. lia.
  - rewrite E. reflexivity.
Qed.

Lemma upper_of_ascii :
  forall s, isascii s = true -> upper s = map_string upper_ascii s.
Proof.
  unfold upper.
  induction s as [|c s IH]; cbn [isascii upper_from map_string];
    [reflexivity|].
  intro H. apply andb_prop in H. destruct H as [Hc Hs].
  rewrite Hc, (IH Hs). reflexivity.
Qed.

Lemma upper_ascii_below :
  forall c,
    (Z.of_N (N_of_ascii c) <? 128)%Z = true ->
    (Z.of_N (N_of_ascii (upper_ascii c)) <? 128)%Z = true.
Proof.
  intros c Hc. unfold upper_ascii.
  destruct ((97 <=? nat_of_ascii c) && (nat_of_ascii c <=? 122))%nat eqn:E;
    [|exact Hc].
  apply andb_prop in E. destruct E as [E1 E2]. apply Nat.leb_le in E1, E2.
  apply Z.ltb_lt. unfold ascii_of_nat.
  rewrite N_ascii_embedding; unfold nat_of_ascii in *; lia.
Qed.

Lemma isascii_upper :
  forall s, isascii s = true -> isascii (map_string upper_ascii s) = true.
Proof.
  induction s as [|c s IH]; cbn [isascii map_string]; [reflexivity|].
  intro H. apply andb_prop in H. destruct H as [Hc Hs].
  now rewrite (upper_ascii_below c Hc), (IH Hs).
Qed.

Lemma upper_idempotent :
  forall s, isascii s = true -> upper (upper s) = upper s.
Proof.
  intros s Hs.
  rewrite (upper_of_ascii s Hs), (upper_of_ascii _ (isascii_upper s Hs)).
  apply upper_ascii_idempotent.
Qed.

(** X2. For string [algorithm] and [ansatz] entries, the generic estimate
    has between 2 and 18 qubits and a depth between 10 and 240, its runtime
    is one of the three bands, and the depth it computes is a whole number
    (so [int()] drops nothing); when the algorithm and the ansatz are ASCII
    strings, the estimate depends on them and on the system id only up to
    the case of their letters. *)
Theorem generic_estimate_range :
  forall system_id configuration algorithm ansatz,
    get_default "algorithm" (VStr "") configuration = VStr algorithm ->
    get_default "ansatz" (VStr "") configuration = VStr ansatz ->
    exists qubits depth band,
      QuantumModuleManager.generic_estimate system_id configuration
      = Ok [ ("qubits", VInt qubits); ("depth", VInt depth);
             ("runtime", VStr band) ] /\
      (2 <= qubits <= 18)%Z /\ (10 <= depth <= 240)%Z /\
      In band runtime_bands /\
      inject_Z depth
      == Heuristic.depth
           (Heuristic.by_ansatz ansatz
              (Heuristic.by_algorithm algorithm
                 (Heuristic.by_system system_id Heuristic.base))) /\
      (isascii algorithm = true -> isascii ansatz = true ->
       QuantumModuleManager.generic_estimate (lower system_id)
         [ ("algorithm", VStr (upper algorithm));
           ("ansatz", VStr (upper ansatz)) ]
       = QuantumModuleManager.generic_estimate system_id configuration).
Proof.
  intros sid cfg alg anz Halg Hans.
  rewrite (generic_estimate_spec sid cfg alg anz Halg Hans).
  rewrite (generic_estimate_spec (lower sid)
             [ ("algorithm", VStr (upper alg)); ("ansatz", VStr (upper anz)) ]
             (upper alg) (upper anz) eq_refl eq_refl).
  unfold Heuristic.generic, Heuristic.output.
  assert (Hcase :
            isascii alg = true -> isascii anz = true ->
            Heuristic.by_ansatz (upper anz)
              (Heuristic.by_algorithm (upper alg)
                 (Heuristic.by_system (lower sid) Heuristic.base))
            = Heuristic.by_ansatz anz
                (Heuristic.by_algorithm alg
                   (Heuristic.by_system sid Heuristic.base))).
  { intros Ha Hz.
    unfold Heuristic.by_ansatz, Heuristic.by_algorithm, Heuristic.by_system.
    now rewrite lower_idempotent, (upper_idempotent alg Ha),
      (upper_idempotent anz Hz). }
  pose proof (by_system_cases sid Heuristic.base) as Hs.
  set (e1 := Heuristic.by_system sid Heuristic.base) in *.
  pose proof (by_algorithm_cases alg e1) as Ha.
  set (e2 := Heuristic.by_algorithm alg e1) in *.
  pose proof (by_ansatz_cases anz e2) as Hz.
  set (e3 := Heuristic.by_ansatz anz e2) in *.
  assert (Hsame :
            isascii alg = true -> isascii anz = true ->
            Ok [ ("qubits",
                  VInt (Heuristic.qubits
                          (Heuristic.by_ansatz (upper anz)
                             (Heuristic.by_algorithm (upper alg)
                                (Heuristic.by_system (lower sid)
                                   Heuristic.base)))));
                 ("depth",
                  VInt (trunc
                          (Heuristic.depth
                             (Heuristic.by_ansatz (upper anz)
                                (Heuristic.by_algorithm (upper alg)
                                   (Heuristic.by_system (lower sid)
                                      Heuristic.base))))));
                 ("runtime",
                  VStr (Heuristic.band
                          (Heuristic.by_ansatz (upper anz)
                             (Heuristic.by_algorithm (upper alg)
                                (Heuristic.by_system (lower sid)
                                   Heuristic.base))))) ]
            = @Ok dict
                [ ("qubits", VInt (Heuristic.qubits e3));
                  ("depth", VInt (trunc (Heuristic.depth e3)));
                  ("runtime", VStr (Heuristic.band e3)) ]).
  { intros Hx Hy. now rewrite (Hcase Hx Hy). }
  clear Hcase. revert Hsame.
  generalize
    (Heuristic.by_ansatz (upper anz)
       (Heuristic.by_algorithm (upper alg)
          (Heuristic.by_system (lower sid) Heuristic.base))).
  intros e0 Hsame.
  clearbody e3 e2 e1.
  do 3 eexists. split; [reflexivity|].
  split; [|split; [|split; [|split; [|exact Hsame]]]]; clear Hsame e0;
    cbn [In] in Hs, Ha, Hz;
    destruct Hs as [<-|[<-|[<-|[<-|[]]]]];
    destruct Ha as [<-|[<-|[<-|[<-|[]]]]];
    destruct Hz as [<-|[<-|[<-|[]]]];
    vm_compute; intuition discriminate.
Qed.

Lemma generic_estimate_range_witness :
  exists qubits depth band,
    QuantumModuleManager.generic_estimate "H2"
      [("algorithm", VStr "vqe"); ("ansatz", VStr "hwe")]
    = Ok [ ("qubits", VInt qubits); ("depth", VInt depth);
           ("runtime", VStr band) ] /\
    (2 <= qubits <= 18)%Z /\ (10 <= depth <= 240)%Z.
Proof.
  destruct (generic_estimate_range "H2"
              [("algorithm", VStr "vqe"); ("ansatz", VStr "hwe")]
              "vqe" "hwe" eq_refl eq_refl)
    as (q & d & b & E & Hq & Hd & _).
  exists q, d, b. auto.
Defined.

(** ** Which estimate a system gets *)

(** X3. In mock mode, for a catalog system and [basis_set] and
    [experiment_type] entries that can be hashed, [estimate_resources]
    returns the mock adapter's classical estimate whatever the [algorithm]
    and [ansatz] entries are (they are not looked at, so a non-string there
    does no harm), and that estimate has none of the fields [qubits],
    [depth], [runtime] that the [ResourceEstimate] schema requires; the
    generic estimate, when it is returned, has exactly those three. *)
Theorem estimate_shape :
  forall system_id configuration m,
    QuantumModuleManager.find_system system_id = Some m ->
    hashable (get_default "basis_set" (VStr "sto-3g") configuration) = true ->
    hashable (get_default "experiment_type" (VStr "ground_state")
                configuration) = true ->
    (exists estimate,
       QuantumModuleManager.estimate_resources true system_id configuration
       = Ok estimate /\
       MockQuantumAdapter.estimate_resources m
         (get_default "basis_set" (VStr "sto-3g") configuration)
         (get_default "experiment_type" (VStr "ground_state") configuration)
       = Ok estimate /\
       keys estimate
       = [ "memory_mb"; "disk_mb"; "cpu_hours"; "estimated_runtime_sec";
           "estimated_runtime_human"; "basis_set_complexity";
           "experiment_complexity"; "molecule_size" ] /\
       forall field, In field Schemas.ResourceEstimate_fields ->
                     contains field estimate = false) /\
    (forall estimate,
       QuantumModuleManager.generic_estimate system_id configuration
       = Ok estimate ->
       keys estimate = Schemas.ResourceEstimate_fields).
Proof.
  intros sid cfg m Hfind Hb Ht. split.
  - unfold QuantumModuleManager.estimate_resources,
      QuantumModuleManager.mock_estimate.
    rewrite Hfind.
    unfold MockQuantumAdapter.estimate_resources.
    destruct (get_default "basis_set" (VStr "sto-3g") cfg);
      try discriminate Hb;
      destruct (get_default "experiment_type" (VStr "ground_state") cfg);
      try discriminate Ht;
      cbn [MockQuantumAdapter.factor_of];
      (eexists; split; [reflexivity|]; split; [reflexivity|];
       split; [reflexivity|];
       intros f [<-|[<-|[<-|[]]]]; reflexivity).
  - intros estimate. unfold QuantumModuleManager.generic_estimate.
    repeat match goal with
           | |- context [if ?b then _ else _] => destruct b
           end;
      (destruct (QuantumModuleManager.upper_of
                   (get_default "algorithm" (VStr "") cfg));
       [|intro H; discriminate H]);
      repeat match goal with
             | |- context [if ?b then _ else _] => destruct b
             end;
      (destruct (QuantumModuleManager.upper_of
                   (get_default "ansatz" (VStr "") cfg));
       [|intro H; discriminate H]);
      repeat match goal with
             | |- context [if ?b then _ else _] => destruct b
             end;
      intros [= <-]; reflexivity.
Qed.

Lemma estimate_shape_witness :
  exists estimate,
    QuantumModuleManager.estimate_resources true "CO2"
      [("algorithm", VNone); ("basis_set", VStr "cc-pvtz")] = Ok estimate /\
    contains "qubits" estimate = false.
Proof.
  destruct (estimate_shape "CO2"
              [("algorithm", VNone); ("basis_set", VStr "cc-pvtz")]
              MockQuantumAdapter.co2 eq_refl eq_refl eq_refl)
    as ((estimate & E & _ & _ & Hfields) & _).
  exists estimate. split; [exact E|].
  apply Hfields. cbn. tauto.
Defined.

(** ** The runtime string at the edge of a band *)

Lemma Qfloor_between :
  forall x k, inject_Z k <= x -> x < inject_Z (k + 1) -> Qfloor x = k.
Proof.
  intros x k Hlo Hhi.
  pose proof (Qfloor_le x) as H1.
  pose proof (Qlt_floor x) as H2.
  assert (k < Qfloor x + 1)%Z.
  { rewrite Zlt_Qlt. eapply Qle_lt_trans; eassumption. }
  assert (Qfloor x < k + 1)%Z.
  { rewrite Zlt_Qlt. eapply Qle_lt_trans; eassumption. }
  lia.
Qed.

Lemma inject_Z_pred : forall k, inject_Z (k - 1) == inject_Z k - 1.
Proof.
  intro k. unfold Z.sub. rewrite inject_Z_plus, inject_Z_opp.
  change (inject_Z 1) with 1. lra.
Qed.

Lemma round_half_even_upper_half :
  forall x k,
    Z.even k = true ->
    inject_Z k - (1 # 2) <= x -> x < inject_Z k ->
    round_half_even x = k.
Proof.
  intros x k Hk Hlo Hhi. unfold round_half_even.
  assert (Hfloor : Qfloor x = (k - 1)%Z).
  { apply Qfloor_between.
    - rewrite inject_Z_pred. lra.
    - now replace (k - 1 + 1)%Z with k by lia. }
  rewrite Hfloor.
  assert (Hr : 1 # 2 <= x - inject_Z (k - 1)).
  { rewrite inject_Z_pred. lra. }
  destruct (Qcompare (x - inject_Z (k - 1)) (1 # 2)) eqn:E.
  - replace (Z.even (k - 1)) with false; [lia|].
    rewrite Z.even_sub, Hk. reflexivity.
  - apply Qlt_alt in E. lra.
  - lia.
Qed.

Lemma format_fixed_just_under :
  forall q (k : Z),
    (0 < k)%Z -> Z.even (10 * k) = true ->
    inject_Z k - 0.05 <= q -> q < inject_Z k ->
    format_fixed 1 q = string_of_Z k ++ ".0".
Proof.
  intros q k Hk Heven Hlo Hhi.
  assert (Hk' : 1 <= inject_Z k).
  { change 1 with (inject_Z 1). rewrite <- Zle_Qle. lia. }
  assert (Habs : Qabs q == q) by (apply Qabs_pos; lra).
  unfold format_fixed.
  change (inject_Z (pow10 1)) with 10. change (pow10 1) with 10%Z.
  rewrite (round_half_even_upper_half (Qabs q * 10) (10 * k)%Z Heven).
  - destruct (Qlt_le_dec q 0) as [Hneg|_]; [lra|].
    replace (10 * k / 10)%Z with k by (rewrite Z.mul_comm, Z.div_mul; lia).
    replace (10 * k mod 10)%Z with 0%Z
      by (rewrite Z.mul_comm, Z.mod_mul; lia).
    reflexivity.
  - rewrite inject_Z_mult, Habs. change (inject_Z 10) with 10. lra.
  - rewrite inject_Z_mult, Habs. change (inject_Z 10) with 10. lra.
Qed.

(** X4. [_format_time] picks the unit before it rounds: a runtime of more
    than 59.95 seconds and less than one minute reads "60.0 seconds", one of
    more than 3597 seconds and less than an hour "60.0 minutes", one of more
    than 86220 seconds and less than a day "24.0 hours". *)
Theorem format_time_band_edges :
  forall s,
    (59.95 < s -> s < 60 ->
     MockQuantumAdapter._format_time s = "60.0 seconds") /\
    (3597 < s -> s < 3600 ->
     MockQuantumAdapter._format_time s = "60.0 minutes") /\
    (86220 < s -> s < 86400 ->
     MockQuantumAdapter._format_time s = "24.0 hours").
Proof.
  intro s. unfold MockQuantumAdapter._format_time. repeat split.
  - intros Hlo Hhi.
    destruct (Qlt_le_dec s 60); [|lra].
    rewrite (format_fixed_just_under s 60);
      [reflexivity | lia | reflexivity
       | change (inject_Z 60) with 60; lra
       | change (inject_Z 60) with 60; lra].
  - intros Hlo Hhi.
    destruct (Qlt_le_dec s 60); [lra|].
    destruct (Qlt_le_dec s 3600); [|lra].
    rewrite (format_fixed_just_under (s / 60) 60);
      [reflexivity | lia | reflexivity | |].
    + change (inject_Z 60) with 60. apply Qle_shift_div_l; lra.
    + change (inject_Z 60) with 60. apply Qlt_shift_div_r; lra.
  - intros Hlo Hhi.
    destruct (Qlt_le_dec s 60); [lra|].
    destruct (Qlt_le_dec s 3600); [lra|].
    destruct (Qlt_le_dec s 86400); [|lra].
    rewrite (format_fixed_just_under (s / 3600) 24);
      [reflexivity | lia | reflexivity | |].
    + change (inject_Z 24) with 24. apply Qle_shift_div_l; lra.
    + change (inject_Z 24) with 24. apply Qlt_shift_div_r; lra.
Qed.

Lemma format_time_band_edges_witness :
  MockQuantumAdapter._format_time 59.99 = "60.0 seconds" /\
  MockQuantumAdapter._format_time 3599 = "60.0 minutes".
Proof.
  split.
  - apply (format_time_band_edges 59.99); lra.
  - apply (format_time_band_edges 3599); lra.
Defined.

(** ** Antimatter runs *)

Lemma floor_of_unit_variate :
  forall u n,
    0 <= u -> u < 1 -> (0 < n)%Z ->
    (0 <= Qfloor (u * inject_Z n) < n)%Z.
Proof.
  intros u n H0 H1 Hn.
  assert (Hlen : 0 < inject_Z n).
  { change 0 with (inject_Z 0). rewrite <- Zlt_Qlt. lia. }
  split.
  - change 0%Z with (Qfloor (inject_Z 0)). apply Qfloor_resp_le.
    change (inject_Z 0) with 0. nra.
  - rewrite Zlt_Qlt.
    apply Qle_lt_trans with (u * inject_Z n); [apply Qfloor_le | nra].
Qed.

Ltac run_antimatter :=
  cbv [AntimatterSimulator.simulate_positronium
       AntimatterSimulator.simulate_antihydrogen
       bind ret time_time np_random_randint np_random_normal next_draw];
  cbn [pos draws now trace isoformat].



(** X6. Neither simulation reads its configuration.  The positronium
    energy is -13.6 / 27.211386 hartree for every input, the hydrogen value,
    so its convergence is the same 0.2497... on every run; the antihydrogen
    energy is that value plus the [cpt_violation] its payload reports, which
    is 1e-7 times the normal deviate drawn. *)
Theorem antimatter_energies :
  forall configuration configuration' w,
    AntimatterSimulator.simulate_positronium configuration w
    = AntimatterSimulator.simulate_positronium configuration' w /\
    AntimatterSimulator.simulate_antihydrogen configuration w
    = AntimatterSimulator.simulate_antihydrogen configuration' w /\
    (exists result w' e c,
       AntimatterSimulator.simulate_positronium configuration w
       = (Ok result, w') /\
       get "energy" result = Some (VNum e) /\
       e == -13.6 / 27.211386 /\
       get "convergence" result = Some (VNum c) /\
       0.2497 < c /\ c < 0.2498) /\
    (exists result w' e data v,
       AntimatterSimulator.simulate_antihydrogen configuration w
       = (Ok result, w') /\
       get "energy" result = Some (VNum e) /\
       get "data" result = Some (VDict data) /\
       get "cpt_violation" data = Some (VNum v) /\
       v == 1e-7 * draws w (pos w) /\
       e == -13.6 / 27.211386 + v).
Proof.
  intros cfg cfg' w.
  split; [reflexivity|]. split; [reflexivity|]. split.
  - do 4 eexists. split; [run_antimatter; reflexivity|].
    split; [reflexivity|].
    split; [vm_compute; reflexivity|]. split; [reflexivity|].
    split; vm_compute; reflexivity.
  - do 5 eexists. split; [run_antimatter; reflexivity|].
    split; [reflexivity|].
    split; [reflexivity|]. split; [reflexivity|].
    split; [lra|].
    change (inject_Z (1 * 1)) with 1. field. vm_compute. discriminate.
Qed.

(** ** Dicts *)

Lemma get_set_same :
  forall k v d, get k (set k v d) = Some v.
Proof.
  intros k v d. induction d as [|[k' v'] d IH]; cbn.
  - now rewrite String.eqb_refl.
  - destruct (String.eqb k' k) eqn:E; cbn; rewrite ?E, ?String.eqb_refl;
      auto.
Qed.

Lemma get_set_other :
  forall k k' v d, k <> k' -> get k' (set k v d) = get k' d.
Proof.
  intros k k' v d Hk. induction d as [|[k0 v0] d IH]; cbn.
  - destruct (String.eqb_spec k k'); [contradiction | reflexivity].
  - destruct (String.eqb_spec k0 k) as [->|Hk0]; cbn.
    + destruct (String.eqb_spec k k'); [contradiction | reflexivity].
    + destruct (String.eqb k0 k'); [reflexivity | exact IH].
Qed.

Lemma get_stamp :
  forall system_id basis_set experiment_type result,
    get "system_id" (stamp system_id basis_set experiment_type result)
    = Some (VStr system_id) /\
    get "basis_set" (stamp system_id basis_set experiment_type result)
    = Some (VStr basis_set) /\
    get "experiment_type" (stamp system_id basis_set experiment_type result)
    = Some (VStr experiment_type) /\
    forall k,
      ~ In k ["system_id"; "basis_set"; "experiment_type"] ->
      get k (stamp system_id basis_set experiment_type result) = get k result.
Proof.
  intros sid bs et r. unfold stamp. repeat split.
  - rewrite !get_set_other by discriminate. apply get_set_same.
  - rewrite get_set_other by discriminate. apply get_set_same.
  - apply get_set_same.
  - intros k Hk. cbn [In] in Hk.
    rewrite !get_set_other; [reflexivity | | |]; intros <-; tauto.
Qed.

(** ** The real adapter behind the manager *)

(** X7. With the real adapter (no mock), and a system id without the
    antimatter prefix: every experiment type other than "ground" and
    "excited" fails with "Unsupported experiment type: <type>" without the
    adapter being called, so of the five advertised types "geometry",
    "vibrational" and "dipole" always fail, as do the engine's internal
    names; "ground" returns the adapter's record with the three
    identifying parameters stamped on it, and an exception of the adapter
    becomes a Failure. *)
Theorem real_adapter_dispatch :
  forall adapter system_id basis_set configuration w,
    startswith "anti_" system_id = false ->
    let run experiment_type :=
      QuantumModuleManager.run_experiment false adapter system_id basis_set
        experiment_type configuration w in
    (forall t, t <> "ground" -> t <> "excited" ->
       run t = (QuantumModuleManager.failure
                  (ValueError ("Unsupported experiment type: " ++ t))
                  system_id basis_set t (now w - now w), w)) /\
    (forall t,
       In t (["geometry"; "vibrational"; "dipole"] ++ internal_types)%list ->
       is_failure (fst (run t)) = true /\ snd (run t) = w) /\
    (forall e, In e Config.AVAILABLE_EXPERIMENT_TYPES ->
       In (Config.entry_id e) ["ground"; "excited"] \/
       is_failure (fst (run (Config.entry_id e))) = true) /\
    (forall result w',
       adapter system_id basis_set configuration w = (Ok result, w') ->
       run "ground" = (stamp system_id basis_set "ground" result, w')) /\
    (forall e w',
       adapter system_id basis_set configuration w = (Raise e, w') ->
       run "ground" = (QuantumModuleManager.failure e system_id basis_set
                         "ground" (now w' - now w), w')).
Proof.
  intros adapter sid bs cfg w Hanti run.
  assert (Hother : forall t, t <> "ground" -> t <> "excited" ->
            run t = (QuantumModuleManager.failure
                       (ValueError ("Unsupported experiment type: " ++ t))
                       sid bs t (now w - now w), w)).
  { intros t Hg He. unfold run, QuantumModuleManager.run_experiment,
      QuantumModuleManager.run_experiment_try.
    rewrite Hanti.
    destruct (String.eqb_spec t "ground"); [contradiction|].
    destruct (String.eqb_spec t "excited"); [contradiction|].
    reflexivity. }
  split; [exact Hother|]. split; [|split; [|split]].
  - intros t Ht. rewrite Hother.
    + split; reflexivity.
    + cbn in Ht. intuition (subst; discriminate).
    + cbn in Ht. intuition (subst; discriminate).
  - intros e [<-|[<-|[<-|[<-|[<-|[]]]]]]; cbn [Config.entry_id];
      try (left; cbn; tauto);
      right; rewrite Hother by discriminate; reflexivity.
  - intros result w' E.
    unfold run, QuantumModuleManager.run_experiment,
      QuantumModuleManager.run_experiment_try, bind.
    rewrite Hanti. cbn [String.eqb Ascii.eqb Bool.eqb].
    rewrite E. reflexivity.
  - intros e w' E.
    unfold run, QuantumModuleManager.run_experiment,
      QuantumModuleManager.run_experiment_try, bind.
    rewrite Hanti. cbn [String.eqb Ascii.eqb Bool.eqb].
    rewrite E. reflexivity.
Qed.

Lemma real_adapter_dispatch_witness :
  fst (QuantumModuleManager.run_experiment false toy_adapter "H2" "sto-3g"
         "dipole" [] midpoint_world)
  = QuantumModuleManager.failure
      (ValueError "Unsupported experiment type: dipole")
      "H2" "sto-3g" "dipole" (0 - 0).
Proof.
  destruct (real_adapter_dispatch toy_adapter "H2" "sto-3g" []
              midpoint_world eq_refl) as (Hother & _).
  rewrite (Hother "dipole"); [reflexivity | discriminate | discriminate].
Defined.

(** X8. An "excited" run with the real adapter is the ground-state
    calculation with a note: when the adapter's record has a [data] dict,
    the note is written to its [message] entry (replacing one that is
    there) and every other entry of [data] and of the record is kept; when
    the record has no [data] entry, as the adapter's own error record, the
    run is a Failure whose message is 'data', whatever the record said. *)
Theorem real_adapter_excited :
  forall adapter system_id basis_set configuration w result w',
    startswith "anti_" system_id = false ->
    adapter system_id basis_set configuration w = (Ok result, w') ->
    let run :=
      QuantumModuleManager.run_experiment false adapter system_id basis_set
        "excited" configuration w in
    (forall data,
       get "data" result = Some (VDict data) ->
       exists noted data',
         run = (noted, w') /\
         get "data" noted = Some (VDict data') /\
         get "message" data' = Some (VStr excited_note) /\
         (forall k, k <> "message" -> get k data' = get k data) /\
         (forall k,
            ~ In k ["data"; "system_id"; "basis_set"; "experiment_type"] ->
            get k noted = get k result)) /\
    (get "data" result = None ->
     run = (QuantumModuleManager.failure (KeyError "data") system_id
              basis_set "excited" (now w' - now w), w') /\
     get "error" (fst run) = Some (VStr "'data'")).
Proof.
  intros adapter sid bs cfg w result w' Hanti E run.
  assert (Hrun : run = match QuantumModuleManager.set_data_message
                               excited_note result w' with
                       | (Ok noted, w2) => (stamp sid bs "excited" noted, w2)
                       | (Raise e, w2) =>
                           (QuantumModuleManager.failure e sid bs "excited"
                              (now w2 - now w), w2)
                       end).
  { unfold run, QuantumModuleManager.run_experiment,
      QuantumModuleManager.run_experiment_try, bind.
    rewrite Hanti. cbn [String.eqb Ascii.eqb Bool.eqb].
    rewrite E. fold excited_note.
    destruct (QuantumModuleManager.set_data_message excited_note result w')
      as [[noted|e] w2]; reflexivity. }
  split.
  - intros data Hdata. rewrite Hrun.
    unfold QuantumModuleManager.set_data_message. rewrite Hdata.
    cbn [ret].
    eexists; eexists. split; [reflexivity|].
    destruct (get_stamp sid bs "excited"
                (set "data" (VDict (set "message" (VStr excited_note) data))
                   result)) as (_ & _ & _ & Hkeep).
    split.
    { rewrite Hkeep by (cbn; intuition discriminate). apply get_set_same. }
    split; [apply get_set_same|].
    split.
    { intros k Hk. now apply get_set_other. }
    intros k Hk. cbn [In] in Hk.
    rewrite Hkeep by (cbn; tauto).
    apply get_set_other. intros <-. tauto.
  - intro Hnone. rewrite Hrun.
    unfold QuantumModuleManager.set_data_message. rewrite Hnone.
    split; reflexivity.
Qed.

Lemma real_adapter_excited_witness :
  get "error"
    (fst (QuantumModuleManager.run_experiment false toy_adapter "h2o"
            "sto-3g" "excited" [] midpoint_world))
  = Some (VStr "'data'").
Proof.
  eapply (real_adapter_excited toy_adapter "h2o" "sto-3g" [] midpoint_world);
    reflexivity.
Defined.

(** ** The Qiskit adapter *)

Section QiskitStack.

Variable py_str : value -> string.
Variable format_exc : exn -> string.
Variable Problem : Type.
Variable make_problem : QiskitAdapter.MoleculeInfo -> string -> M Problem.
Variable Operator : Type.
Variable qubit_operator :
  Problem -> bool -> QiskitAdapter.Mapper -> M Operator.
Variable exact_eigenvalue : Operator -> M Q.
Variable run_vqe : Operator -> M QiskitAdapter.VQEResult.

Let adapter : string -> string -> dict -> M dict :=
  QiskitAdapter.calculate_ground_state py_str format_exc Problem make_problem
    Operator qubit_operator exact_eigenvalue run_vqe.

Lemma get_molecule_known :
  forall system_id,
    (exists molecule, QiskitAdapter.get_molecule system_id = Ok molecule) <->
    In system_id qiskit_system_ids.
Proof.
  intro s. unfold QiskitAdapter.get_molecule, QiskitAdapter.molecules.
  cbn [MockQuantumAdapter.lookup qiskit_system_ids In].
  destruct (String.eqb_spec "H2" s); [split; eauto|].
  destruct (String.eqb_spec "LiH" s); [split; eauto|].
  destruct (String.eqb_spec "H2O" s); [split; eauto|].
  destruct (String.eqb_spec "H" s); [split; eauto|].
  destruct (String.eqb_spec "He" s); [split; eauto 6|].
  destruct (String.eqb_spec "Li" s); [split; eauto 7|].
  split; [intros [m H]; discriminate H | tauto].
Qed.

(** X9. [get_molecule] knows exactly the ids H2, LiH, H2O, H, He and Li,
    with these capitals.  For any other id, whatever the Qiskit stack
    would compute, [calculate_ground_state] returns (it does not raise) an
    error record with the message "Error in quantum calculation: Unknown
    system: <id>", at once.  None of the system ids the API advertises is
    known: with the real adapter a "ground" run on an advertised system is
    always a Failure with that message and no energy. *)
Theorem qiskit_unknown_system :
  forall system_id basis_set configuration w,
    ~ In system_id qiskit_system_ids ->
    adapter system_id basis_set configuration w
    = (Ok [ ("error",
             VStr ("Error in quantum calculation: Unknown system: "
                   ++ system_id));
            ("error_details",
             VStr (format_exc (ValueError ("Unknown system: " ++ system_id))));
            ("runtime", VNum (now w - now w)) ],
       w) /\
    (forall e, In e Config.AVAILABLE_SYSTEMS ->
       ~ In (Config.entry_id e) qiskit_system_ids) /\
    (startswith "anti_" system_id = false ->
     let result :=
       fst (QuantumModuleManager.run_experiment false adapter system_id
              basis_set "ground" configuration w) in
     is_failure result = true /\
     get "error" result
     = Some (VStr ("Error in quantum calculation: Unknown system: "
                   ++ system_id)) /\
     get "energy" result = None /\
     get "system_id" result = Some (VStr system_id)).
Proof.
  intros sid bs cfg w Hunknown.
  assert (Hget : QiskitAdapter.get_molecule sid
                 = Raise (ValueError ("Unknown system: " ++ sid))).
  { pose proof (get_molecule_known sid) as Hk.
    unfold QiskitAdapter.get_molecule in *.
    destruct (MockQuantumAdapter.lookup sid QiskitAdapter.molecules);
      [exfalso; apply Hunknown, Hk; eauto | reflexivity]. }
  assert (Hrun : adapter sid bs cfg w
                 = (Ok [ ("error",
                          VStr ("Error in quantum calculation: Unknown system: "
                                ++ sid));
                         ("error_details",
                          VStr (format_exc
                                  (ValueError ("Unknown system: " ++ sid))));
                         ("runtime", VNum (now w - now w)) ], w)).
  { unfold adapter, QiskitAdapter.calculate_ground_state,
      QiskitAdapter.calculate_ground_state_try, bind, QiskitAdapter.lift.
    rewrite Hget. reflexivity. }
  split; [exact Hrun|]. split.
  - intros e [<-|[<-|[<-|[<-|[]]]]]; cbn; intuition discriminate.
  - intros Hanti result.
    destruct (real_adapter_dispatch adapter sid bs cfg w Hanti)
      as (_ & _ & _ & Hground & _).
    unfold result. rewrite (Hground _ _ Hrun). cbn [fst].
    destruct (get_stamp sid bs "ground"
                [ ("error",
                   VStr ("Error in quantum calculation: Unknown system: "
                         ++ sid));
                  ("error_details",
                   VStr (format_exc (ValueError ("Unknown system: " ++ sid))));
                  ("runtime", VNum (now w - now w)) ])
      as (Hsid & _ & _ & Hkeep).
    unfold is_failure, contains.
    rewrite !Hkeep by (cbn; intuition discriminate).
    split; [reflexivity|]. split; [reflexivity|].
    split; [reflexivity | exact Hsid].
Qed.

End QiskitStack.

Lemma qiskit_unknown_system_witness :
  get "error"
    (fst (QuantumModuleManager.run_experiment false toy_adapter "h2o"
            "sto-3g" "ground" [] midpoint_world))
  = Some (VStr "Error in quantum calculation: Unknown system: h2o").
Proof.
  unfold toy_adapter.
  eapply (qiskit_unknown_system _ _ _ _ _ _ _ _ "h2o" "sto-3g" []
            midpoint_world).
  - cbn. intuition discriminate.
  - reflexivity.
Defined.

(** ** Runs of the mock engine, in detail *)

Lemma runs_unit :
  forall A (c : M A) w ds (S B : A -> Prop),
    runs c w ds S B -> unit_draws w ->
    exists a w', c w = (Ok a, w') /\ step ds w w' /\ S a /\ B a.
Proof.
  intros A c w ds S B (a & w' & E & Hst & HS & HB) Hu.
  exists a, w'. auto.
Qed.

Lemma Forall2_conj :
  forall A C (P R : A -> C -> Prop) xs ys,
    Forall2 P xs ys -> Forall2 R xs ys ->
    Forall2 (fun x y => P x y /\ R x y) xs ys.
Proof.
  intros A C P R xs ys HP. induction HP; intro HR; inversion HR; subst;
    constructor; auto.
Qed.

Lemma runs_foldM_each :
  forall A T C (f : T -> A -> M (T * C)) (S B : A -> C -> Prop) xs s w,
    (forall s x w,
       runs (f s x) w [] (fun r => S x (snd r)) (fun r => B x (snd r))) ->
    runs (foldM f s xs) w []
         (fun r => Forall2 S xs (snd r)) (fun r => Forall2 B xs (snd r)).
Proof.
  intros A T C f S B xs. induction xs as [|x xs IH]; intros s w Hf;
    cbn [foldM].
  - apply runs_ret; constructor.
  - eapply runs_bind_quiet; [apply Hf|]. intros r w1 _ Hr.
    eapply runs_bind_quiet; [apply IH, Hf|]. intros rs w2 _ Hrs.
    apply runs_ret; cbn [snd]; [now constructor|].
    intros Hbs Hb. now constructor.
Qed.

Lemma runs_uniform_within :
  forall a b w,
    a <= b -> runs (random_uniform a b) w [] any (within a b).
Proof.
  intros a b w Hab.
  eapply runs_weaken; [apply runs_random_uniform | auto |].
  intros q _ H. exact (H Hab).
Qed.

Lemma runs_randint_within :
  forall a b w,
    (a <= b)%Z ->
    runs (random_randint a b) w [] any (fun n => (a <= n <= b)%Z).
Proof.
  intros a b w Hab.
  eapply runs_weaken; [apply runs_random_randint | auto |].
  intros n _ H. exact (H Hab).
Qed.

Lemma runs_choice_in :
  forall l w,
    l <> [] -> runs (random_choice l) w [] any (fun s => In s l).
Proof.
  intros l w Hl. unfold random_choice.
  eapply runs_bind_quiet; [apply runs_next_draw|]. intros u w1 _ _.
  apply runs_ret; [exact I|].
  intros (H0 & H1).
  assert (Hlen : (0 < Z.of_nat (length l))%Z).
  { destruct l; [contradiction | cbn; lia]. }
  pose proof (floor_of_unit_variate u _ H0 H1 Hlen) as Hi.
  apply nth_In. lia.
Qed.

Lemma runtime_base_nonneg :
  forall m basis_set factor, 0 <= factor -> 0 <= runtime_base m basis_set factor.
Proof.
  intros m b f Hf. unfold runtime_base.
  assert (0 <= MockQuantumAdapter.num_atoms m).
  { unfold MockQuantumAdapter.num_atoms.
    change 0 with (inject_Z 0). rewrite <- Zle_Qle. lia. }
  assert (0 <= MockQuantumAdapter.lookup_default b 1.0
                 [ ("sto-3g", 1.0); ("3-21g", 2.0); ("6-31g", 3.0);
                   ("cc-pvdz", 5.0); ("cc-pvtz", 10.0) ]).
  { apply lookup_default_nonneg; [lra|]. repeat constructor; cbn; lra. }
  repeat apply Qmult_le_0_compat; trivial.
Qed.

Lemma runs_calculate_runtime_within :
  forall m basis_set factor w,
    0 <= factor ->
    runs (MockQuantumAdapter._calculate_runtime m basis_set factor) w [] any
         (within (0.8 * runtime_base m basis_set factor)
                 (1.2 * runtime_base m basis_set factor)).
Proof.
  intros m b f w Hf. unfold MockQuantumAdapter._calculate_runtime.
  fold (runtime_base m b f).
  pose proof (runtime_base_nonneg m b f Hf) as Hbase.
  eapply runs_bind_quiet; [apply runs_uniform_within; lra|].
  intros r w1 _ _.
  apply runs_ret; [exact I|].
  intros (H0 & H1). unfold within. split; nra.
Qed.

(** *** Ground state *)

Section GroundStateDetails.

Import MockQuantumAdapter.

Variable molecule_data : Molecule.
Variable basis_set : string.
Variable kwargs : dict.

Let orbital_count : Z := (Z.of_nat (length (atoms molecule_data)) * 2)%Z.

Lemma runs_orbital_record :
  forall n i w,
    runs (orbital n i) w []
      (fun v => exists en sym, v = orbital_record n i en sym)
      (fun v => forall en sym,
         v = orbital_record n i en sym ->
         within (-10.0 + inject_Z i * 0.5 - 0.01)
                (-10.0 + inject_Z i * 0.5 + 0.01) en /\
         In sym symmetry_labels).
Proof.
  intros n i w. unfold orbital.
  eapply runs_bind_quiet; [apply runs_uniform_within; lra|].
  intros e w1 _ _.
  eapply runs_bind_quiet; [apply runs_choice_in; discriminate|].
  intros s w2 _ _.
  apply runs_ret; [now exists (-10.0 + inject_Z i * 0.5 + e), s|].
  intros Hs (He1 & He2) en sym [= <- <-].
  split; [unfold within; split; lra | exact Hs].
Qed.

Lemma ground_state_details :
  forall w,
    runs (run_ground_state_calculation molecule_data basis_set kwargs) w
      [sim_time molecule_data basis_set 1.0]
      (fun r => exists e ref it rt orbitals d1 d2 d3 ts,
         r = ground_record basis_set e ref it rt orbitals d1 d2 d3 ts /\
         Forall2 (fun i v => exists en sym,
                    v = orbital_record orbital_count i en sym)
                 (range orbital_count) orbitals)
      (fun r => forall e ref it rt orbitals d1 d2 d3 ts,
         r = ground_record basis_set e ref it rt orbitals d1 d2 d3 ts ->
         within (0.8 * runtime_base molecule_data basis_set 1.0)
                (1.2 * runtime_base molecule_data basis_set 1.0) rt /\
         within (-0.5) 0.5 d1 /\ within (-0.5) 0.5 d2 /\
         within (-0.5) 0.5 d3 /\
         Forall2 (fun i v => forall en sym,
                    v = orbital_record orbital_count i en sym ->
                    within (-10.0 + inject_Z i * 0.5 - 0.01)
                           (-10.0 + inject_Z i * 0.5 + 0.01) en /\
                    In sym symmetry_labels)
                 (range orbital_count) orbitals).
Proof.
  intro w. unfold run_ground_state_calculation. fold orbital_count.
  change [sim_time molecule_data basis_set 1.0]
    with ([sim_time molecule_data basis_set 1.0] ++ [])%list.
  eapply runs_bind_sleep;
    [apply runs_simulate_calculation_time; lra|]. intros [] w1 _ _.
  eapply runs_bind_quiet; [apply runs_reference_or_synthesized|].
  intros ref w2 _ _.
  eapply runs_bind_quiet; [apply runs_random_uniform|]. intros noise w3 _ _.
  eapply runs_bind_quiet;
    [apply runs_mapM; intros; apply runs_orbital_record|].
  intros orbitals w4 _ Horb.
  eapply runs_bind_quiet; [apply runs_calculate_runtime_within; lra|].
  intros rt w5 _ _.
  eapply runs_bind_quiet; [apply runs_random_randint|]. intros it w6 _ _.
  eapply runs_bind_quiet; [apply runs_uniform_within; lra|].
  intros d1 w7 _ _.
  eapply runs_bind_quiet; [apply runs_uniform_within; lra|].
  intros d2 w8 _ _.
  eapply runs_bind_quiet; [apply runs_uniform_within; lra|].
  intros d3 w9 _ _.
  eapply runs_bind_quiet; [apply runs_now_isoformat|]. intros ts w10 _ _.
  apply runs_ret.
  - do 9 eexists. split; [reflexivity | exact Horb].
  - intros _ H3 H2 H1 _ Hrt Horbs _ _ _ e' ref' it' rt' orbs' x1 x2 x3 ts' E.
    injection E as <- <- <- <- <- <- <- <- <-.
    auto 6.
Qed.

End GroundStateDetails.

(** *** Excited states *)

Section ExcitedStateDetails.

Import MockQuantumAdapter.

Variable molecule_data : Molecule.
Variable basis_set : string.
Variable kwargs : dict.

Lemma runs_excited_record :
  forall ground_state e i w,
    get "energy" ground_state = Some (VNum e) ->
    runs (excited_state ground_state i) w []
      (fun s => exists x o c, s = excited_record e i x o c)
      (fun s => forall x o c,
         s = excited_record e i x o c -> excited_bounds i x o).
Proof.
  intros gs e i w He. unfold excited_state.
  eapply runs_bind_quiet; [apply runs_uniform_within; lra|].
  intros r w1 _ _.
  eapply runs_bind_quiet; [apply runs_getnum, He|]. intros e' w2 _ <-.
  eapply runs_bind_quiet; [apply runs_uniform_within; lra|].
  intros o w3 _ _.
  eapply runs_bind_quiet; [apply runs_uniform_within; lra|].
  intros c w4 _ _.
  apply runs_ret; [now exists (inject_Z (i + 1) * 0.1 + r), o, c|].
  intros _ (Ho1 & Ho2) _ (Hr1 & Hr2) x o' c' E.
  pose proof (f_equal (entry "excitation_energy") E) as Hx.
  pose proof (f_equal (entry "oscillator_strength") E) as Ho.
  cbn in Hx, Ho.
  assert (x = inject_Z (i + 1) * 0.1 + r) by congruence.
  assert (o' = o) by congruence. subst x o'.
  unfold excited_bounds, within. repeat split; lra.
Qed.

Lemma excited_state_details :
  forall n w,
    get_default "num_states" (VInt 3) kwargs = VInt n ->
    runs (run_excited_state_calculation molecule_data basis_set kwargs) w
      [sim_time molecule_data basis_set 1.0;
       sim_time molecule_data basis_set 1.5]
      (fun r => exists ground_state w1 e ref it rt states ts,
         run_ground_state_calculation molecule_data basis_set kwargs w
         = (Ok ground_state, w1) /\
         get "energy" ground_state = Some (VNum e) /\
         get "reference_energy" ground_state = Some (VNum ref) /\
         r = excited_state_record basis_set (VNum e) (VNum ref) it rt states
               ground_state ts /\
         Forall2 (fun i s => exists x o c, s = excited_record e i x o c)
                 (range n) states)
      (fun r => forall e ref it rt states ground_state ts,
         r = excited_state_record basis_set (VNum e) ref it rt states
               ground_state ts ->
         (15 <= it <= 45)%Z /\
         within (0.8 * runtime_base molecule_data basis_set 1.5)
                (1.2 * runtime_base molecule_data basis_set 1.5) rt /\
         Forall2 (fun i s => forall x o c,
                    s = excited_record e i x o c -> excited_bounds i x o)
                 (range n) states).
Proof.
  intros n w Hn. unfold run_excited_state_calculation. rewrite Hn.
  change [sim_time molecule_data basis_set 1.0;
          sim_time molecule_data basis_set 1.5]
    with ([sim_time molecule_data basis_set 1.0]
          ++ [sim_time molecule_data basis_set 1.5] ++ [])%list.
  eapply runs_bind_sleep; [apply ground_state_runs|].
  intros gs w1 Eground Hshape.
  destruct Hshape as (e & ref & it0 & rt0 & orbs & dm & ts0 & Egs & _ & _).
  assert (He : get "energy" gs = Some (VNum e)) by (now subst gs).
  assert (Hr : get "reference_energy" gs = Some (VNum ref)) by (now subst gs).
  eapply runs_bind_sleep;
    [apply runs_simulate_calculation_time; lra|]. intros [] w2 _ _.
  eapply runs_bind_quiet; [apply runs_range_of|]. intros indices w3 _ <-.
  eapply runs_bind_quiet;
    [apply runs_mapM; intros; apply runs_excited_record, He|].
  intros states w4 _ Hstates.
  eapply runs_bind_quiet; [apply runs_calculate_runtime_within; lra|].
  intros rt w5 _ _.
  eapply runs_bind_quiet; [apply runs_getitem, He|]. intros ve w6 _ <-.
  eapply runs_bind_quiet; [apply runs_getitem, Hr|]. intros vr w7 _ <-.
  eapply runs_bind_quiet; [apply runs_randint_within; lia|].
  intros it w8 _ _.
  eapply runs_bind_quiet; [apply runs_now_isoformat|]. intros ts w9 _ _.
  apply runs_ret.
  - exists gs, w1, e, ref, it, rt, states, ts. auto.
  - intros _ Hit _ _ Hrt Hbs _ _ _ e' ref' it' rt' states' gs' ts' E.
    injection E as <- _ <- <- <- _ _.
    auto.
Qed.

End ExcitedStateDetails.

(** *** Geometry optimization *)

Section GeometryDetails.

Import MockQuantumAdapter.

Variable molecule_data : Molecule.
Variable basis_set : string.
Variable kwargs : dict.

Lemma runs_atom_record :
  forall atom w,
    runs (optimized_atom atom) w []
      (fun v => exists cx cy cz, v = atom_record (symbol atom) cx cy cz)
      (fun v => forall cx cy cz,
         v = atom_record (symbol atom) cx cy cz -> atom_bounds atom cx cy cz).
Proof.
  intros atom w. unfold optimized_atom.
  eapply runs_bind_quiet; [apply runs_uniform_within; lra|].
  intros rx w1 _ _.
  eapply runs_bind_quiet; [apply runs_uniform_within; lra|].
  intros ry w2 _ _.
  eapply runs_bind_quiet; [apply runs_uniform_within; lra|].
  intros rz w3 _ _.
  apply runs_ret; [now exists (x atom + rx), (y atom + ry), (z atom + rz)|].
  intros (Hz1 & Hz2) (Hy1 & Hy2) (Hx1 & Hx2) cx cy cz E.
  pose proof (f_equal (entry "x") E) as Ex.
  pose proof (f_equal (entry "y") E) as Ey.
  pose proof (f_equal (entry "z") E) as Ez.
  cbn in Ex, Ey, Ez.
  assert (cx = x atom + rx) by congruence.
  assert (cy = y atom + ry) by congruence.
  assert (cz = z atom + rz) by congruence. subst cx cy cz.
  unfold atom_bounds, within. repeat split; lra.
Qed.

Lemma runs_step_record :
  forall energy n current i w,
    runs (optimization_step energy n current i) w []
      (fun r => exists se g f, snd r = step_record i se g f)
      (fun r => forall se g f,
         snd r = step_record i se g f ->
         (0 < n)%Z -> step_bounds energy n i se g f).
Proof.
  intros energy n current i w. unfold optimization_step.
  eapply runs_bind_quiet; [apply runs_uniform_within; lra|].
  intros r w1 _ _.
  eapply runs_bind_quiet; [apply runs_uniform_within; lra|].
  intros g w2 _ _.
  eapply runs_bind_quiet; [apply runs_uniform_within; lra|].
  intros f w3 _ _.
  apply runs_ret; [cbn [snd]; now do 3 eexists|].
  intros (Hf1 & Hf2) (Hg1 & Hg2) (Hr1 & Hr2) se g' f' E Hn.
  cbn [snd] in E.
  pose proof (f_equal (entry "energy") E) as Ee.
  pose proof (f_equal (entry "rms_gradient") E) as Eg.
  pose proof (f_equal (entry "max_force") E) as Ef.
  cbn in Ee, Eg, Ef.
  assert (se = current
               - (current - energy) * (inject_Z (i + 1) / inject_Z n) + r)
    by congruence.
  assert (g' = 0.1 * (1.0 - inject_Z i / inject_Z n) + g) by congruence.
  assert (f' = (0.1 * (1.0 - inject_Z i / inject_Z n) + g) * 2 + f)
    by congruence.
  subst se g' f'.
  unfold step_bounds, within.
  split; [|split; split; lra].
  intros ->.
  assert (Hone : inject_Z n / inject_Z n == 1).
  { field. change 0 with (inject_Z 0). rewrite inject_Z_injective. lia. }
  rewrite Hone. split; lra.
Qed.

Lemma geometry_details :
  forall w,
    runs (run_geometry_optimization molecule_data basis_set kwargs) w
      [sim_time molecule_data basis_set 2.0]
      (fun r => exists e ref it rt optimized steps ts n,
         r = geometry_record molecule_data basis_set e ref it rt optimized
               steps ts /\
         Forall2 (fun atom v => exists cx cy cz,
                    v = atom_record (symbol atom) cx cy cz)
                 (atoms molecule_data) optimized /\
         Forall2 (fun i v => exists se g f, v = step_record i se g f)
                 (range n) steps /\
         (forall ref0,
            reference_energy_of (id molecule_data) basis_set = Some ref0 ->
            ref = ref0))
      (fun r => forall e ref it rt optimized steps ts,
         r = geometry_record molecule_data basis_set e ref it rt optimized
               steps ts ->
         within (ref - 0.001) (ref + 0.001) e /\
         (20 <= it <= 50)%Z /\
         within (0.8 * runtime_base molecule_data basis_set 2.0)
                (1.2 * runtime_base molecule_data basis_set 2.0) rt /\
         Forall2 (fun atom v => forall cx cy cz,
                    v = atom_record (symbol atom) cx cy cz ->
                    atom_bounds atom cx cy cz)
                 (atoms molecule_data) optimized /\
         (5 <= Z.of_nat (length steps) <= 15)%Z /\
         Forall2 (fun i v => forall se g f,
                    v = step_record i se g f ->
                    step_bounds e (Z.of_nat (length steps)) i se g f)
                 (range (Z.of_nat (length steps))) steps).
Proof.
  intro w. unfold run_geometry_optimization.
  change [sim_time molecule_data basis_set 2.0]
    with ([sim_time molecule_data basis_set 2.0] ++ [])%list.
  eapply runs_bind_sleep;
    [apply runs_simulate_calculation_time; lra|]. intros [] w1 _ _.
  eapply runs_bind_quiet; [apply runs_reference_or_synthesized|].
  intros ref w2 _ Href.
  eapply runs_bind_quiet; [apply runs_uniform_within; lra|].
  intros noise w3 _ _.
  eapply runs_bind_quiet;
    [apply runs_mapM; intros; apply runs_atom_record|].
  intros optimized w4 _ Hatoms.
  eapply runs_bind_quiet; [apply runs_randint_within; lia|].
  intros n w5 _ _.
  eapply runs_bind_quiet; [apply runs_uniform_within; lra|].
  intros start w6 _ _.
  eapply runs_bind_quiet.
  { apply runs_foldM_each
      with (S := fun i v => exists se g f, v = step_record i se g f)
           (B := fun i v => forall se g f,
                   v = step_record i se g f ->
                   (0 < n)%Z -> step_bounds (ref + noise) n i se g f).
    intros. apply runs_step_record. }
  intros steps w7 _ Hsteps.
  eapply runs_bind_quiet; [apply runs_calculate_runtime_within; lra|].
  intros rt w8 _ _.
  eapply runs_bind_quiet; [apply runs_randint_within; lia|].
  intros it w9 _ _.
  eapply runs_bind_quiet; [apply runs_now_isoformat|]. intros ts w10 _ _.
  apply runs_ret.
  - exists (ref + noise), ref, it, rt, optimized, (snd steps), ts, n. auto.
  - intros _ Hit Hrt Hbsteps _ Hn Hbatoms (Hn1 & Hn2) _ _
      e' ref' it' rt' optimized' steps' ts' E.
    pose proof (f_equal (get "energy") E) as Ee.
    pose proof (f_equal (get "reference_energy") E) as Er.
    pose proof (f_equal (get "iterations") E) as Ei.
    pose proof (f_equal (get "runtime") E) as Et.
    pose proof (f_equal (get "optimized_geometry") E) as Eo.
    pose proof (f_equal (get "optimization_steps") E) as Es.
    cbn in Ee, Er, Ei, Et, Eo, Es.
    assert (e' = ref + noise) by congruence.
    assert (ref' = ref) by congruence.
    assert (it' = it) by congruence.
    assert (rt' = rt) by congruence.
    assert (optimized' = optimized) by congruence.
    assert (steps' = snd steps) by congruence.
    subst e' ref' it' rt' optimized' steps'.
    assert (Hlen : Z.of_nat (length (snd steps)) = n).
    { apply Forall2_length in Hsteps. rewrite <- Hsteps, length_range. lia. }
    rewrite Hlen.
    split; [unfold within; split; lra|].
    split; [exact Hit|]. split; [exact Hrt|]. split; [exact Hbatoms|].
    split; [lia|].
    eapply Forall2_impl; [|exact Hbsteps].
    intros i v Hv se g f Ev. apply Hv; [exact Ev | lia].
Qed.

End GeometryDetails.

(** *** Vibrational analysis *)

Section VibrationalDetails.

Import MockQuantumAdapter.

Variable molecule_data : Molecule.
Variable basis_set : string.
Variable kwargs : dict.

Lemma runs_displacement_record :
  forall j w,
    runs (displacement j) w []
      (fun v => exists dx dy dz, v = displacement_record j dx dy dz)
      (fun v => forall dx dy dz,
         v = displacement_record j dx dy dz -> displacement_bounds dx dy dz).
Proof.
  intros j w. unfold displacement.
  eapply runs_bind_quiet; [apply runs_uniform_within; lra|].
  intros dx w1 _ _.
  eapply runs_bind_quiet; [apply runs_uniform_within; lra|].
  intros dy w2 _ _.
  eapply runs_bind_quiet; [apply runs_uniform_within; lra|].
  intros dz w3 _ _.
  apply runs_ret; [now exists dx, dy, dz|].
  intros Hz Hy Hx dx' dy' dz' E.
  pose proof (f_equal (entry "dx") E) as Ex.
  pose proof (f_equal (entry "dy") E) as Ey.
  pose proof (f_equal (entry "dz") E) as Ez.
  cbn in Ex, Ey, Ez.
  assert (dx' = dx) by congruence.
  assert (dy' = dy) by congruence.
  assert (dz' = dz) by congruence. subst.
  unfold displacement_bounds. auto.
Qed.

Lemma runs_mode_record :
  forall n i w,
    runs (vibration n i) w []
      (fun r => exists f int rm fc ds,
         r = (f, mode_record i f int rm fc ds) /\
         Forall2 (fun j v => exists dx dy dz,
                    v = displacement_record j dx dy dz) (range n) ds)
      (fun r => forall f int rm fc ds,
         snd r = mode_record i f int rm fc ds ->
         mode_bounds i f int rm fc /\
         Forall2 (fun j v => forall dx dy dz,
                    v = displacement_record j dx dy dz ->
                    displacement_bounds dx dy dz) (range n) ds).
Proof.
  intros n i w. unfold vibration.
  eapply runs_bind_quiet; [apply runs_uniform_within; lra|].
  intros r w1 _ _.
  eapply runs_bind_quiet; [apply runs_uniform_within; lra|].
  intros int w2 _ _.
  eapply runs_bind_quiet;
    [apply runs_mapM; intros; apply runs_displacement_record|].
  intros ds w3 _ Hds.
  eapply runs_bind_quiet; [apply runs_uniform_within; lra|].
  intros rm w4 _ _.
  eapply runs_bind_quiet; [apply runs_uniform_within; lra|].
  intros fc w5 _ _.
  apply runs_ret; [do 5 eexists; split; [reflexivity | exact Hds]|].
  intros Hfc Hrm Hbds Hint (Hr1 & Hr2) f int' rm' fc' ds' E.
  cbn [snd] in E.
  pose proof (f_equal (entry "frequency") E) as Ef.
  pose proof (f_equal (entry "intensity") E) as Ei.
  pose proof (f_equal (entry "reduced_mass") E) as Em.
  pose proof (f_equal (entry "force_constant") E) as Ec.
  pose proof (f_equal (entry "displacements") E) as Ed.
  cbn in Ef, Ei, Em, Ec, Ed.
  assert (f = inject_Z ((i + 1) * 100) + r) by congruence.
  assert (int' = int) by congruence.
  assert (rm' = rm) by congruence.
  assert (fc' = fc) by congruence.
  assert (ds' = ds) by congruence. subst.
  split; [|exact Hbds].
  unfold mode_bounds. split; [unfold within; split; lra | auto].
Qed.

Lemma Forall2_map_snd :
  forall A C D (P : A -> D -> Prop) xs (ys : list (C * D)),
    Forall2 (fun x y => P x (snd y)) xs ys -> Forall2 P xs (map snd ys).
Proof.
  intros A C D P xs ys H. induction H; cbn; constructor; auto.
Qed.

Lemma vibrational_details :
  forall w,
    runs (run_vibrational_analysis molecule_data basis_set kwargs) w
      [sim_time molecule_data basis_set 2.0;
       sim_time molecule_data basis_set 2.5]
      (fun r => exists opt_result w1 e ref it rt geometry modes ts,
         run_geometry_optimization molecule_data basis_set kwargs w
         = (Ok opt_result, w1) /\
         get "energy" opt_result = Some (VNum e) /\
         get "reference_energy" opt_result = Some (VNum ref) /\
         get "optimized_geometry" opt_result = Some geometry /\
         r = vibrational_record basis_set (VNum e) (VNum ref) it rt geometry
               (map snd modes)
               (sum_nonnegative (map fst modes) * 0.5 / 4.184 / 1000) ts /\
         Forall2 (fun i mode => exists f int rm fc ds,
                    mode = (f, mode_record i f int rm fc ds) /\
                    Forall2 (fun j v => exists dx dy dz,
                               v = displacement_record j dx dy dz)
                            (range (atom_count molecule_data)) ds)
                 (range (3 * atom_count molecule_data - 6)) modes)
      (fun r => forall e ref it rt geometry vibrations zpe ts,
         r = vibrational_record basis_set e ref it rt geometry vibrations
               zpe ts ->
         (30 <= it <= 70)%Z /\
         within (0.8 * runtime_base molecule_data basis_set 2.5)
                (1.2 * runtime_base molecule_data basis_set 2.5) rt /\
         Forall2 (fun i v => forall f int rm fc ds,
                    v = mode_record i f int rm fc ds ->
                    mode_bounds i f int rm fc /\
                    Forall2 (fun j v => forall dx dy dz,
                               v = displacement_record j dx dy dz ->
                               displacement_bounds dx dy dz)
                            (range (atom_count molecule_data)) ds)
                 (range (3 * atom_count molecule_data - 6)) vibrations).
Proof.
  intro w. unfold run_vibrational_analysis. fold (atom_count molecule_data).
  change [sim_time molecule_data basis_set 2.0;
          sim_time molecule_data basis_set 2.5]
    with ([sim_time molecule_data basis_set 2.0]
          ++ [sim_time molecule_data basis_set 2.5] ++ [])%list.
  eapply runs_bind_sleep; [apply geometry_optimization_runs|].
  intros opt w1 Eopt Hshape.
  destruct Hshape as (e & ref & it0 & rt0 & geometry & steps & ts0 & Eo).
  assert (He : get "energy" opt = Some (VNum e)) by (now subst opt).
  assert (Hr : get "reference_energy" opt = Some (VNum ref))
    by (now subst opt).
  assert (Hg : get "optimized_geometry" opt = Some geometry)
    by (now subst opt).
  eapply runs_bind_sleep;
    [apply runs_simulate_calculation_time; lra|]. intros [] w2 _ _.
  eapply runs_bind_quiet;
    [apply runs_mapM; intros; apply runs_mode_record|].
  intros modes w3 _ Hmodes.
  eapply runs_bind_quiet; [apply runs_calculate_runtime_within; lra|].
  intros rt w4 _ _.
  eapply runs_bind_quiet; [apply runs_getitem, He|]. intros ve w5 _ <-.
  eapply runs_bind_quiet; [apply runs_getitem, Hr|]. intros vr w6 _ <-.
  eapply runs_bind_quiet; [apply runs_randint_within; lia|].
  intros it w7 _ _.
  eapply runs_bind_quiet; [apply runs_getitem, Hg|]. intros vg w8 _ <-.
  eapply runs_bind_quiet; [apply runs_now_isoformat|]. intros ts w9 _ _.
  apply runs_ret.
  - exists opt, w1, e, ref, it, rt, geometry, modes, ts. auto 10.
  - intros _ _ Hit _ _ Hrt Hbmodes _ _
      e' ref' it' rt' geometry' vibrations' zpe' ts' E.
    pose proof (f_equal (get "iterations") E) as Ei.
    pose proof (f_equal (get "runtime") E) as Et.
    pose proof (f_equal (get "vibrations") E) as Ev.
    cbn in Ei, Et, Ev.
    assert (it' = it) by congruence.
    assert (rt' = rt) by congruence.
    assert (vibrations' = map snd modes) by congruence. subst.
    split; [exact Hit|]. split; [exact Hrt|].
    now apply Forall2_map_snd.
Qed.

End VibrationalDetails.

(** *** Dipole moment *)

Section DipoleDetails.

Import MockQuantumAdapter.

Variable molecule_data : Molecule.
Variable basis_set : string.
Variable kwargs : dict.

Lemma dipole_details :
  forall w,
    runs (run_dipole_moment molecule_data basis_set kwargs) w
      [sim_time molecule_data basis_set 1.0;
       sim_time molecule_data basis_set 0.5]
      (fun r => exists ground_state w1 e ref it rt dx dy dz ts,
         run_ground_state_calculation molecule_data basis_set kwargs w
         = (Ok ground_state, w1) /\
         get "energy" ground_state = Some (VNum e) /\
         get "reference_energy" ground_state = Some (VNum ref) /\
         get "iterations" ground_state = Some (VInt it) /\
         r = dipole_record basis_set (VNum e) (VNum ref) (VInt it) rt
               dx dy dz ts)
      (fun r => forall e ref it rt dx dy dz ts,
         r = dipole_record basis_set e ref it rt dx dy dz ts ->
         within (0.8 * runtime_base molecule_data basis_set 0.5)
                (1.2 * runtime_base molecule_data basis_set 0.5) rt /\
         within (-2.0) 2.0 dx /\ within (-2.0) 2.0 dy /\
         within (-2.0) 2.0 dz).
Proof.
  intro w. unfold run_dipole_moment.
  change [sim_time molecule_data basis_set 1.0;
          sim_time molecule_data basis_set 0.5]
    with ([sim_time molecule_data basis_set 1.0]
          ++ [sim_time molecule_data basis_set 0.5] ++ [])%list.
  eapply runs_bind_sleep; [apply ground_state_runs|].
  intros gs w1 Eground Hshape.
  destruct Hshape as (e & ref & it & rt0 & orbs & dm & ts0 & Egs & _ & _).
  assert (He : get "energy" gs = Some (VNum e)) by (now subst gs).
  assert (Hr : get "reference_energy" gs = Some (VNum ref)) by (now subst gs).
  assert (Hi : get "iterations" gs = Some (VInt it)) by (now subst gs).
  eapply runs_bind_sleep;
    [apply runs_simulate_calculation_time; lra|]. intros [] w2 _ _.
  eapply runs_bind_quiet; [apply runs_uniform_within; lra|].
  intros dx w3 _ _.
  eapply runs_bind_quiet; [apply runs_uniform_within; lra|].
  intros dy w4 _ _.
  eapply runs_bind_quiet; [apply runs_uniform_within; lra|].
  intros dz w5 _ _.
  eapply runs_bind_quiet; [apply runs_calculate_runtime_within; lra|].
  intros rt w6 _ _.
  eapply runs_bind_quiet; [apply runs_getitem, He|]. intros ve w7 _ <-.
  eapply runs_bind_quiet; [apply runs_getitem, Hr|]. intros vr w8 _ <-.
  eapply runs_bind_quiet; [apply runs_getitem, Hi|]. intros vi w9 _ <-.
  eapply runs_bind_quiet; [apply runs_now_isoformat|]. intros ts w10 _ _.
  apply runs_ret.
  - exists gs, w1, e, ref, it, rt, dx, dy, dz, ts. auto 10.
  - intros _ _ _ _ Hrt Hz Hy Hx _ _ e' ref' it' rt' dx' dy' dz' ts' E.
    pose proof (f_equal (get "runtime") E) as Et.
    pose proof (f_equal (fun d => match get "dipole_moment" d with
                                  | Some v => entry "x" v
                                  | None => None
                                  end) E) as Ex.
    pose proof (f_equal (fun d => match get "dipole_moment" d with
                                  | Some v => entry "y" v
                                  | None => None
                                  end) E) as Ey.
    pose proof (f_equal (fun d => match get "dipole_moment" d with
                                  | Some v => entry "z" v
                                  | None => None
                                  end) E) as Ez.
    cbn in Et, Ex, Ey, Ez.
    assert (rt' = rt) by congruence.
    assert (dx' = dx) by congruence.
    assert (dy' = dy) by congruence.
    assert (dz' = dz) by congruence. subst.
    auto.
Qed.

End DipoleDetails.

(** ** What the kinds report *)

(** X11. On unit variates, the runtime a mock run reports lies between 0.8
    and 1.2 times atoms^2 * basis factor * kind factor (basis factors
    sto-3g 1, 3-21g 2, 6-31g 3, cc-pvdz 5, cc-pvtz 10, otherwise 1; kind
    factors ground_state 1.0, excited_state 1.5, geometry_optimization 2.0,
    vibrational_analysis 2.5, dipole_moment 0.5), so it is never negative;
    the runtime of the run a kind starts with is not part of it. *)
Theorem reported_runtime :
  forall kind factor molecule_data basis_set kwargs n w,
    In (kind, factor) runtime_factors ->
    get_default "num_states" (VInt 3) kwargs = VInt n ->
    unit_draws w ->
    exists result w' rt,
      MockQuantumAdapter.run_experiment kind molecule_data basis_set kwargs w
      = (Ok result, w') /\
      get "runtime" result = Some (VNum rt) /\
      0.8 * runtime_base molecule_data basis_set factor <= rt /\
      rt <= 1.2 * runtime_base molecule_data basis_set factor /\
      0 <= rt.
Proof.
  intros kind factor m b kw n w Hkind Hn Hu.
  assert (H : exists result w' rt,
             MockQuantumAdapter.run_experiment kind m b kw w = (Ok result, w')
             /\ get "runtime" result = Some (VNum rt)
             /\ within (0.8 * runtime_base m b factor)
                       (1.2 * runtime_base m b factor) rt
             /\ 0 <= factor).
  { cbn [runtime_factors In] in Hkind.
    destruct Hkind as [H|[H|[H|[H|[H|[]]]]]]; injection H as <- <-.
    - destruct (runs_unit _ _ _ _ _ _ (ground_state_details m b kw w) Hu)
        as (r & w' & E & _ & HS & HB).
      destruct HS as (e & ref & it & rt & orbs & d1 & d2 & d3 & ts & -> & _).
      destruct (HB _ _ _ _ _ _ _ _ _ eq_refl) as (Hrt & _).
      eexists; exists w', rt.
      split; [exact E|]. split; [reflexivity|]. split; [exact Hrt | lra].
    - destruct (runs_unit _ _ _ _ _ _ (excited_state_details m b kw n w Hn) Hu)
        as (r & w' & E & _ & HS & HB).
      destruct HS as (gs & w1 & e & ref & it & rt & states & ts & _ & _ & _
                      & -> & _).
      destruct (HB _ _ _ _ _ _ _ eq_refl) as (_ & Hrt & _).
      eexists; exists w', rt.
      split; [exact E|]. split; [reflexivity|]. split; [exact Hrt | lra].
    - destruct (runs_unit _ _ _ _ _ _ (geometry_details m b kw w) Hu)
        as (r & w' & E & _ & HS & HB).
      destruct HS as (e & ref & it & rt & opt & steps & ts & k & -> & _).
      destruct (HB _ _ _ _ _ _ _ eq_refl) as (_ & _ & Hrt & _).
      eexists; exists w', rt.
      split; [exact E|]. split; [reflexivity|]. split; [exact Hrt | lra].
    - destruct (runs_unit _ _ _ _ _ _ (vibrational_details m b kw w) Hu)
        as (r & w' & E & _ & HS & HB).
      destruct HS as (opt & w1 & e & ref & it & rt & geo & modes & ts & _ & _
                      & _ & _ & -> & _).
      destruct (HB _ _ _ _ _ _ _ _ eq_refl) as (_ & Hrt & _).
      eexists; exists w', rt.
      split; [exact E|]. split; [reflexivity|]. split; [exact Hrt | lra].
    - destruct (runs_unit _ _ _ _ _ _ (dipole_details m b kw w) Hu)
        as (r & w' & E & _ & HS & HB).
      destruct HS as (gs & w1 & e & ref & it & rt & dx & dy & dz & ts & _ & _
                      & _ & _ & ->).
      destruct (HB _ _ _ _ _ _ _ _ eq_refl) as (Hrt & _).
      eexists; exists w', rt.
      split; [exact E|]. split; [reflexivity|]. split; [exact Hrt | lra]. }
  destruct H as (result & w' & rt & E & Hget & (Hlo & Hhi) & Hf).
  exists result, w', rt.
  pose proof (runtime_base_nonneg m b factor Hf).
  repeat split; try assumption. lra.
Qed.

Lemma reported_runtime_witness :
  exists result w' rt,
    MockQuantumAdapter.run_experiment "dipole_moment" MockQuantumAdapter.ch4
      "cc-pvdz" [] midpoint_world = (Ok result, w') /\
    get "runtime" result = Some (VNum rt) /\
    0.8 * runtime_base MockQuantumAdapter.ch4 "cc-pvdz" 0.5 <= rt /\
    rt <= 1.2 * runtime_base MockQuantumAdapter.ch4 "cc-pvdz" 0.5 /\
    0 <= rt.
Proof.
  apply (reported_runtime "dipole_moment" 0.5 MockQuantumAdapter.ch4
           "cc-pvdz" [] 3 midpoint_world).
  - cbn. tauto.
  - reflexivity.
  - exact midpoint_world_unit_draws.
Defined.

(** X12. A ground-state run on a molecule of N atoms reports 2N orbitals,
    numbered from 0 in order; the first N are doubly occupied and the rest
    empty; on unit variates the energy of orbital i is within 0.01 of
    -10 + 0.5 i and its symmetry is one of A1, A2, B1, B2. *)
Theorem ground_state_orbitals :
  forall molecule_data basis_set kwargs w,
    unit_draws w ->
    let N := Z.of_nat (length (MockQuantumAdapter.atoms molecule_data)) in
    exists result w' orbitals,
      MockQuantumAdapter.run_ground_state_calculation molecule_data
        basis_set kwargs w = (Ok result, w') /\
      get "orbitals" result = Some (VList orbitals) /\
      Z.of_nat (length orbitals) = (2 * N)%Z /\
      Forall2
        (fun i orbital =>
           exists energy symmetry,
             orbital
             = VDict [ ("index", VInt i);
                       ("energy", VNum energy);
                       ("occupation",
                        VNum (if (i <? N)%Z then 2.0 else 0.0));
                       ("symmetry", VStr symmetry) ] /\
             -10.0 + inject_Z i * 0.5 - 0.01 <= energy /\
             energy <= -10.0 + inject_Z i * 0.5 + 0.01 /\
             In symmetry symmetry_labels)
        (range (2 * N)) orbitals.
Proof.
  intros m b kw w Hu N.
  destruct (runs_unit _ _ _ _ _ _ (ground_state_details m b kw w) Hu)
    as (r & w' & E & _ & HS & HB).
  destruct HS as (e & ref & it & rt & orbs & d1 & d2 & d3 & ts & -> & Horbs).
  destruct (HB _ _ _ _ _ _ _ _ _ eq_refl) as (_ & _ & _ & _ & Hbounds).
  fold N in Horbs, Hbounds.
  replace (N * 2)%Z with (2 * N)%Z in * by lia.
  eexists; exists w', orbs. split; [exact E|]. split; [reflexivity|].
  split.
  { apply Forall2_length in Horbs. rewrite <- Horbs, length_range. lia. }
  pose proof (Forall2_conj _ _ _ _ _ _ Horbs Hbounds) as H.
  eapply Forall2_impl; [|exact H].
  intros i v ((en & sym & ->) & Hb).
  destruct (Hb en sym eq_refl) as ((Hlo & Hhi) & Hsym).
  exists en, sym. unfold orbital_record.
  replace (2 * N / 2)%Z with N by (rewrite Z.mul_comm, Z.div_mul; lia).
  auto.
Qed.

Lemma ground_state_orbitals_witness :
  exists result w' orbitals,
    MockQuantumAdapter.run_ground_state_calculation MockQuantumAdapter.co2
      "sto-3g" [] midpoint_world = (Ok result, w') /\
    get "orbitals" result = Some (VList orbitals) /\
    Z.of_nat (length orbitals) = 6%Z.
Proof.
  destruct (ground_state_orbitals MockQuantumAdapter.co2 "sto-3g" []
              midpoint_world midpoint_world_unit_draws)
    as (r & w' & orbs & E & Hget & Hlen & _).
  exists r, w', orbs. auto.
Defined.

(** ** Lists indexed by [range] *)

Lemma Forall2_map_r :
  forall A C D (f : C -> D) (P : A -> D -> Prop) xs ys,
    Forall2 (fun x y => P x (f y)) xs ys -> Forall2 P xs (map f ys).
Proof.
  intros A C D f P xs ys H. induction H; cbn; constructor; auto.
Qed.

Lemma Forall2_seq_Forall :
  forall A (P : Z -> A -> Prop) (R : A -> Prop) k a ys,
    Forall2 P (map Z.of_nat (seq a k)) ys ->
    (forall i y, (Z.of_nat a <= i)%Z -> P i y -> R y) ->
    Forall R ys.
Proof.
  intros A P R k. induction k as [|k IH]; intros a ys H HR;
    cbn [seq map] in H; inversion H; subst; constructor.
  - eapply HR; [|eassumption]. lia.
  - eapply IH; [eassumption|]. intros i0 y0 Hi. apply HR. lia.
Qed.

Lemma banded_sorted :
  forall A (band : Z -> A -> Prop) (R : A -> A -> Prop),
    (forall i j a b, (i < j)%Z -> band i a -> band j b -> R a b) ->
    forall k a qs,
      Forall2 band (map Z.of_nat (seq a k)) qs -> StronglySorted R qs.
Proof.
  intros A band R HR k. induction k as [|k IH]; intros a qs H;
    cbn [seq map] in H; inversion H; subst; constructor.
  - eapply IH; eassumption.
  - eapply Forall2_seq_Forall; [eassumption|].
    intros i q Hi Hq. eapply HR; [|eassumption|eassumption]. lia.
Qed.

Lemma range_of_length :
  forall A (P : Z -> A -> Prop) n ys,
    Forall2 P (range n) ys -> range n = range (Z.of_nat (length ys)).
Proof.
  intros A P n ys H. apply Forall2_length in H.
  rewrite length_range in H. unfold range. now rewrite <- H, Nat2Z.id.
Qed.

Lemma Forall2_range_below :
  forall A (P : Z -> A -> Prop) n ys,
    Forall2 P (range n) ys ->
    Forall2 (fun i y => P i y /\ (0 <= i < n)%Z) (range n) ys.
Proof.
  intros A P n ys H.
  assert (Hin : forall i, In i (range n) -> (0 <= i < n)%Z).
  { intros i Hi. unfold range in Hi. apply in_map_iff in Hi.
    destruct Hi as (k & <- & Hk). apply in_seq in Hk. lia. }
  induction H; constructor.
  - split; [assumption|]. apply Hin. now left.
  - apply IHForall2. intros i Hi. apply Hin. now right.
Qed.

Lemma total_of_nonnegative :
  forall fs,
    Forall (fun f => 0 <= f) fs ->
    MockQuantumAdapter.sum_nonnegative fs == total fs.
Proof.
  unfold MockQuantumAdapter.sum_nonnegative, total.
  assert (H : forall fs acc acc',
             acc == acc' -> Forall (fun f => 0 <= f) fs ->
             fold_left (fun acc f => acc + Qmax 0 f) fs acc
             == fold_left Qplus fs acc').
  { induction fs as [|f fs IH]; intros acc acc' Hacc Hfs; cbn [fold_left].
    - exact Hacc.
    - inversion Hfs; subst. apply IH; [|assumption].
      rewrite Q.max_r by assumption. now rewrite Hacc. }
  intros fs Hfs. now apply H.
Qed.

(** X13. An excited-state run asked for n states reports n of them, numbered
    from 1, over the energy of its ground state; on unit variates the
    excitation energy of state i + 1 is within 0.02 of 0.1 (i + 1) and the
    oscillator strength within [0.01, 1], so every excitation energy is at
    least 0.08 and they strictly increase with the state number; the run
    reports between 15 and 45 iterations. *)
Theorem excited_state_levels :
  forall molecule_data basis_set kwargs n w,
    get_default "num_states" (VInt 3) kwargs = VInt n ->
    unit_draws w ->
    exists result w' e it states,
      MockQuantumAdapter.run_excited_state_calculation molecule_data
        basis_set kwargs w = (Ok result, w') /\
      get "energy" result = Some (VNum e) /\
      get "iterations" result = Some (VInt it) /\
      (15 <= it <= 45)%Z /\
      get "excited_states" result = Some (VList states) /\
      length states = Z.to_nat n /\
      Forall2 (fun i s => exists x o c,
                 s = excited_record e i x o c /\ excited_bounds i x o)
              (range n) states /\
      Forall (fun s => 0.08 <= number_at "excitation_energy" s) states /\
      StronglySorted Qlt (map (number_at "excitation_energy") states).
Proof.
  intros m b kw n w Hn Hu.
  destruct (runs_unit _ _ _ _ _ _ (excited_state_details m b kw n w Hn) Hu)
    as (r & w' & E & _ & HS & HB).
  destruct HS as (gs & w1 & e & ref & it & rt & states & ts & _ & _ & _
                  & -> & Hstates).
  destruct (HB _ _ _ _ _ _ _ eq_refl) as (Hit & _ & Hbounds).
  pose proof (Forall2_conj _ _ _ _ _ _ Hstates Hbounds) as H.
  assert (Hall : Forall2 (fun i s => exists x o c,
                            s = excited_record e i x o c /\
                            excited_bounds i x o) (range n) states).
  { eapply Forall2_impl; [|exact H].
    intros i s ((x & o & c & ->) & Hb). exists x, o, c.
    split; [reflexivity | exact (Hb _ _ _ eq_refl)]. }
  assert (Hband : Forall2
                    (fun i q =>
                       within (inject_Z (i + 1) * 0.1 - 0.02)
                              (inject_Z (i + 1) * 0.1 + 0.02) q)
                    (range n) (map (number_at "excitation_energy") states)).
  { apply Forall2_map_r. eapply Forall2_impl; [|exact Hall].
    intros i s (x & o & c & -> & Hx & _). exact Hx. }
  eexists; exists w', e, it, states.
  split; [exact E|]. split; [reflexivity|]. split; [reflexivity|].
  split; [exact Hit|]. split; [reflexivity|].
  split.
  { apply Forall2_length in Hstates. now rewrite <- Hstates, length_range. }
  split; [exact Hall|]. split.
  - unfold range in Hall. eapply Forall2_seq_Forall; [exact Hall|].
    intros i s Hi (x & o & c & -> & (Hlo & _) & _).
    change (number_at "excitation_energy" (excited_record e i x o c)) with x.
    assert (1 <= inject_Z (i + 1))
      by (change 1 with (inject_Z 1); rewrite <- Zle_Qle; cbn in Hi; lia).
    lra.
  - unfold range in Hband. eapply banded_sorted; [|exact Hband].
    intros i j a c Hij (_ & Ha) (Hc & _).
    assert (inject_Z (i + 1) + 1 <= inject_Z (j + 1)).
    { assert (Hz : inject_Z (i + 1 + 1) <= inject_Z (j + 1))
        by (rewrite <- Zle_Qle; lia).
      rewrite inject_Z_plus in Hz. exact Hz. }
    lra.
Qed.

Lemma excited_state_levels_witness :
  exists result w' states,
    MockQuantumAdapter.run_excited_state_calculation MockQuantumAdapter.nh3
      "6-31g" [("num_states", VInt 4)] midpoint_world = (Ok result, w') /\
    get "excited_states" result = Some (VList states) /\
    length states = 4%nat /\
    StronglySorted Qlt (map (number_at "excitation_energy") states).
Proof.
  destruct (excited_state_levels MockQuantumAdapter.nh3 "6-31g"
              [("num_states", VInt 4)] 4 midpoint_world eq_refl
              midpoint_world_unit_draws)
    as (r & w' & e & it & states & E & _ & _ & _ & Hget & Hlen & _ & _ & Hs).
  exists r, w', states. auto.
Defined.

(** X14. On unit variates a geometry optimization reports an energy within
    0.001 of its reference energy and between 20 and 50 iterations; the
    optimized geometry keeps the atoms of the molecule in order, each symbol
    unchanged and each coordinate moved by at most 0.02, and keeps charge and
    multiplicity; there are between 5 and 15 steps, numbered from 1 in
    order, every reported gradient is positive, and the last step lands
    within 0.001 of the reported energy. *)
Theorem geometry_optimization_report :
  forall molecule_data basis_set kwargs w,
    unit_draws w ->
    exists result w' e ref it optimized steps,
      MockQuantumAdapter.run_geometry_optimization molecule_data basis_set
        kwargs w = (Ok result, w') /\
      get "energy" result = Some (VNum e) /\
      get "reference_energy" result = Some (VNum ref) /\
      within (ref - 0.001) (ref + 0.001) e /\
      get "iterations" result = Some (VInt it) /\
      (20 <= it <= 50)%Z /\
      get "optimized_geometry" result
      = Some (VDict
                [ ("atoms", VList optimized);
                  ("charge",
                   VInt (MockQuantumAdapter.charge molecule_data));
                  ("multiplicity",
                   VInt (MockQuantumAdapter.multiplicity molecule_data)) ]) /\
      Forall2 (fun atom v => exists cx cy cz,
                 v = atom_record (MockQuantumAdapter.symbol atom) cx cy cz /\
                 atom_bounds atom cx cy cz)
              (MockQuantumAdapter.atoms molecule_data) optimized /\
      get "optimization_steps" result = Some (VList steps) /\
      (5 <= Z.of_nat (length steps) <= 15)%Z /\
      Forall2 (fun i v => exists se g f,
                 v = step_record i se g f /\
                 step_bounds e (Z.of_nat (length steps)) i se g f /\
                 0 < g)
              (range (Z.of_nat (length steps))) steps.
Proof.
  intros m b kw w Hu.
  destruct (runs_unit _ _ _ _ _ _ (geometry_details m b kw w) Hu)
    as (r & w' & E & _ & HS & HB).
  destruct HS as (e & ref & it & rt & opt & steps & ts & k & -> & Hatoms
                  & Hsteps & _).
  destruct (HB _ _ _ _ _ _ _ eq_refl)
    as (He & Hit & _ & Hab & Hlen & Hsb).
  rewrite (range_of_length _ _ _ _ Hsteps) in Hsteps.
  eexists; exists w', e, ref, it, opt, steps.
  split; [exact E|]. split; [reflexivity|]. split; [reflexivity|].
  split; [exact He|]. split; [reflexivity|]. split; [exact Hit|].
  split; [reflexivity|]. split.
  { pose proof (Forall2_conj _ _ _ _ _ _ Hatoms Hab) as H.
    eapply Forall2_impl; [|exact H].
    intros atom v ((cx & cy & cz & ->) & Hb). exists cx, cy, cz.
    split; [reflexivity | exact (Hb _ _ _ eq_refl)]. }
  split; [reflexivity|]. split; [exact Hlen|].
  pose proof (Forall2_range_below _ _ _ _
                (Forall2_conj _ _ _ _ _ _ Hsteps Hsb)) as H.
  eapply Forall2_impl; [|exact H].
  intros i v (((se & g & f & ->) & Hb) & Hi). exists se, g, f.
  pose proof (Hb _ _ _ eq_refl) as Hstep.
  split; [reflexivity|]. split; [exact Hstep|].
  destruct Hstep as (_ & (Hg & _) & _).
  set (n := Z.of_nat (length steps)) in *.
  assert (Hn : 0 < inject_Z n)
    by (change 0 with (inject_Z 0); rewrite <- Zlt_Qlt; lia).
  assert (Hn15 : inject_Z n <= 15)
    by (change 15 with (inject_Z 15); rewrite <- Zle_Qle; lia).
  assert (Hin : inject_Z i + 1 <= inject_Z n).
  { change 1 with (inject_Z 1). rewrite <- inject_Z_plus, <- Zle_Qle. lia. }
  assert (Hq : inject_Z i / inject_Z n <= 14 # 15).
  { apply Qle_shift_div_r; [exact Hn|]. lra. }
  revert Hg Hq. generalize (inject_Z i / inject_Z n). intros q Hg Hq. lra.
Qed.

Lemma geometry_optimization_report_witness :
  exists result w' e ref,
    MockQuantumAdapter.run_geometry_optimization MockQuantumAdapter.h2o
      "sto-3g" [] midpoint_world = (Ok result, w') /\
    get "energy" result = Some (VNum e) /\
    get "reference_energy" result = Some (VNum ref) /\
    within (ref - 0.001) (ref + 0.001) e.
Proof.
  destruct (geometry_optimization_report MockQuantumAdapter.h2o "sto-3g" []
              midpoint_world midpoint_world_unit_draws)
    as (r & w' & e & ref & it & opt & steps & E & He & Hr & Hw & _).
  exists r, w', e, ref. auto.
Defined.

(** X15. A vibrational analysis of a molecule of N atoms reports 3N - 6
    modes (none when that is not positive), numbered from 1 in order, each
    with one displacement per atom; on unit variates the frequency of mode
    i + 1 is within 50 of 100 (i + 1), so every frequency is at least 50,
    frequencies never decrease with the mode number, the clipping at zero in
    the zero-point energy never applies, and the zero-point energy is the
    plain sum of the frequencies times 0.5 / 4.184 / 1000. *)
Theorem vibrational_frequencies :
  forall molecule_data basis_set kwargs w,
    unit_draws w ->
    let N := Z.of_nat (length (MockQuantumAdapter.atoms molecule_data)) in
    exists result w' it vibrations zpe,
      MockQuantumAdapter.run_vibrational_analysis molecule_data basis_set
        kwargs w = (Ok result, w') /\
      get "iterations" result = Some (VInt it) /\
      (30 <= it <= 70)%Z /\
      get "vibrations" result = Some (VList vibrations) /\
      length vibrations = Z.to_nat (3 * N - 6) /\
      Forall2 (fun i v => exists f int rm fc ds,
                 v = mode_record i f int rm fc ds /\
                 mode_bounds i f int rm fc /\
                 length ds = Z.to_nat N)
              (range (3 * N - 6)) vibrations /\
      Forall (fun v => 50 <= number_at "frequency" v) vibrations /\
      StronglySorted Qle (map (number_at "frequency") vibrations) /\
      get "zero_point_energy" result = Some (VNum zpe) /\
      zpe == total (map (number_at "frequency") vibrations)
             * 0.5 / 4.184 / 1000.
Proof.
  intros m b kw w Hu N.
  destruct (runs_unit _ _ _ _ _ _ (vibrational_details m b kw w) Hu)
    as (r & w' & E & _ & HS & HB).
  destruct HS as (opt & w1 & e & ref & it & rt & geo & modes & ts & _ & _
                  & _ & _ & -> & Hmodes).
  destruct (HB _ _ _ _ _ _ _ _ eq_refl) as (Hit & _ & Hmb).
  unfold atom_count in Hmodes, Hmb. fold N in Hmodes, Hmb.
  assert (Hall : Forall2 (fun i v => exists f int rm fc ds,
                            v = mode_record i f int rm fc ds /\
                            mode_bounds i f int rm fc /\
                            length ds = Z.to_nat N)
                         (range (3 * N - 6)) (map snd modes)).
  { assert (Hs : Forall2 (fun i v => exists f int rm fc ds,
                            v = mode_record i f int rm fc ds /\
                            length ds = Z.to_nat N)
                         (range (3 * N - 6)) (map snd modes)).
    { apply Forall2_map_r. eapply Forall2_impl; [|exact Hmodes].
      intros i mode (f & int & rm & fc & ds & -> & Hds).
      exists f, int, rm, fc, ds. split; [reflexivity|].
      apply Forall2_length in Hds. now rewrite <- Hds, length_range. }
    pose proof (Forall2_conj _ _ _ _ _ _ Hs Hmb) as H.
    eapply Forall2_impl; [|exact H].
    intros i v ((f & int & rm & fc & ds & -> & Hlen) & Hb).
    exists f, int, rm, fc, ds.
    split; [reflexivity|]. split; [exact (proj1 (Hb _ _ _ _ _ eq_refl))|].
    exact Hlen. }
  assert (Hfst : map fst modes = map (number_at "frequency") (map snd modes)).
  { clear - Hmodes. induction Hmodes as [|i mode idx ms Hm _ IH]; cbn.
    - reflexivity.
    - destruct Hm as (f & int & rm & fc & ds & -> & _). cbn [fst snd].
      now rewrite IH. }
  assert (Hband : Forall2
                    (fun i q =>
                       within (inject_Z ((i + 1) * 100) - 50)
                              (inject_Z ((i + 1) * 100) + 50) q)
                    (range (3 * N - 6))
                    (map (number_at "frequency") (map snd modes))).
  { apply Forall2_map_r. eapply Forall2_impl; [|exact Hall].
    intros i v (f & int & rm & fc & ds & -> & (Hf & _) & _). exact Hf. }
  assert (Hpos : Forall (fun v => 50 <= number_at "frequency" v)
                        (map snd modes)).
  { unfold range in Hall. eapply Forall2_seq_Forall; [exact Hall|].
    intros i v Hi (f & int & rm & fc & ds & -> & ((Hlo & _) & _) & _).
    change (number_at "frequency" (mode_record i f int rm fc ds)) with f.
    assert (100 <= inject_Z ((i + 1) * 100))
      by (change 100 with (inject_Z 100); rewrite <- Zle_Qle; cbn in Hi; lia).
    lra. }
  eexists; exists w', it, (map snd modes); eexists.
  split; [exact E|]. split; [reflexivity|]. split; [exact Hit|].
  split; [reflexivity|]. split.
  { apply Forall2_length in Hall. now rewrite <- Hall, length_range. }
  split; [exact Hall|]. split; [exact Hpos|]. split.
  { unfold range in Hband. eapply banded_sorted; [|exact Hband].
    intros i j a c Hij (_ & Ha) (Hc & _).
    assert (Hz : inject_Z ((i + 1) * 100 + 100) <= inject_Z ((j + 1) * 100))
      by (rewrite <- Zle_Qle; lia).
    rewrite inject_Z_plus in Hz. change (inject_Z 100) with 100 in Hz. lra. }
  split; [reflexivity|].
  rewrite Hfst, total_of_nonnegative; [reflexivity|].
  rewrite Forall_map. eapply Forall_impl; [|exact Hpos].
  cbn beta. intros v Hv. lra.
Qed.

Lemma vibrational_frequencies_witness :
  exists result w' vibrations,
    MockQuantumAdapter.run_vibrational_analysis MockQuantumAdapter.ch4
      "sto-3g" [] midpoint_world = (Ok result, w') /\
    get "vibrations" result = Some (VList vibrations) /\
    length vibrations = 9%nat /\
    StronglySorted Qle (map (number_at "frequency") vibrations).
Proof.
  destruct (vibrational_frequencies MockQuantumAdapter.ch4 "sto-3g" []
              midpoint_world midpoint_world_unit_draws)
    as (r & w' & it & vibs & zpe & E & _ & _ & Hget & Hlen & _ & _ & Hs & _).
  exists r, w', vibs. auto.
Defined.

(** X16. A dipole-moment run reports the energy, reference energy and
    iteration count of the ground-state run it starts with; its dipole
    moment is a record of x, y, z and the root of the sum of their squares;
    on unit variates each component lies in [-2, 2], so the sum of squares
    is at most 12. *)
Theorem dipole_moment_report :
  forall molecule_data basis_set kwargs w,
    unit_draws w ->
    exists ground_state w1 result w' dx dy dz,
      MockQuantumAdapter.run_ground_state_calculation molecule_data
        basis_set kwargs w = (Ok ground_state, w1) /\
      MockQuantumAdapter.run_dipole_moment molecule_data basis_set kwargs w
      = (Ok result, w') /\
      get "energy" result = get "energy" ground_state /\
      get "reference_energy" result
      = get "reference_energy" ground_state /\
      get "iterations" result = get "iterations" ground_state /\
      get "dipole_moment" result
      = Some (VDict [ ("x", VNum dx); ("y", VNum dy); ("z", VNum dz);
                      ("total", VRoot (dx * dx + dy * dy + dz * dz)) ]) /\
      within (-2.0) 2.0 dx /\ within (-2.0) 2.0 dy /\
      within (-2.0) 2.0 dz /\
      within 0 12 (dx * dx + dy * dy + dz * dz).
Proof.
  intros m b kw w Hu.
  destruct (runs_unit _ _ _ _ _ _ (dipole_details m b kw w) Hu)
    as (r & w' & E & _ & HS & HB).
  destruct HS as (gs & w1 & e & ref & it & rt & dx & dy & dz & ts & Eg & He
                  & Hr & Hi & ->).
  destruct (HB _ _ _ _ _ _ _ _ eq_refl) as (_ & Hx & Hy & Hz).
  exists gs, w1; eexists; exists w', dx, dy, dz.
  split; [exact Eg|]. split; [exact E|].
  split; [now rewrite He|]. split; [now rewrite Hr|].
  split; [now rewrite Hi|]. split; [reflexivity|].
  split; [exact Hx|]. split; [exact Hy|]. split; [exact Hz|].
  unfold within in *. split; nra.
Qed.

Lemma dipole_moment_report_witness :
  exists ground_state w1 result w',
    MockQuantumAdapter.run_ground_state_calculation MockQuantumAdapter.h2o
      "sto-3g" [] midpoint_world = (Ok ground_state, w1) /\
    MockQuantumAdapter.run_dipole_moment MockQuantumAdapter.h2o "sto-3g" []
      midpoint_world = (Ok result, w') /\
    get "energy" result = get "energy" ground_state.
Proof.
  destruct (dipole_moment_report MockQuantumAdapter.h2o "sto-3g" []
              midpoint_world midpoint_world_unit_draws)
    as (gs & w1 & r & w' & dx & dy & dz & Eg & E & He & _).
  exists gs, w1, r, w'. auto.
Defined.

(** ** Through the manager and the route *)

Lemma stamped_gets :
  forall system_id basis_set experiment_type result,
    get "data" result = None ->
    let stamped_result :=
      stamped system_id basis_set experiment_type result in
    get "data" stamped_result = Some (VDict []) /\
    get "system_id" stamped_result = Some (VStr system_id) /\
    get "basis_set" stamped_result = Some (VStr basis_set) /\
    get "experiment_type" stamped_result = Some (VStr experiment_type) /\
    forall k,
      k <> "data" -> k <> "system_id" -> k <> "basis_set" ->
      k <> "experiment_type" ->
      get k stamped_result = get k result.
Proof.
  intros sid bs et r Hdata. cbv zeta. unfold stamped, contains.
  rewrite Hdata.
  split; [|split; [|split; [|split]]].
  - repeat (rewrite get_set_other by discriminate). apply get_set_same.
  - repeat (rewrite get_set_other by discriminate). apply get_set_same.
  - repeat (rewrite get_set_other by discriminate). apply get_set_same.
  - apply get_set_same.
  - intros k H1 H2 H3 H4.
    repeat (rewrite get_set_other by congruence). reflexivity.
Qed.

Lemma ground_reference :
  forall m basis_set kwargs w ground_state w1 ref,
    MockQuantumAdapter.run_ground_state_calculation m basis_set kwargs w
    = (Ok ground_state, w1) ->
    get "reference_energy" ground_state = Some (VNum ref) ->
    forall ref0,
      MockQuantumAdapter.reference_energy_of (MockQuantumAdapter.id m)
        basis_set = Some ref0 ->
      ref = ref0.
Proof.
  intros m b kw w gs w1 ref E Hr.
  destruct (ground_state_runs m b kw w)
    as (gs' & w1' & E' & _ & (e & ref' & it & rt & orbs & dm & ts & Egs & _
                             & Href) & _).
  rewrite E in E'. assert (gs = gs') by congruence. subst gs'. subst gs.
  cbn in Hr. assert (ref' = ref) by congruence. subst ref'. exact Href.
Qed.

Lemma geometry_reference :
  forall m basis_set kwargs w opt_result w1 ref,
    MockQuantumAdapter.run_geometry_optimization m basis_set kwargs w
    = (Ok opt_result, w1) ->
    get "reference_energy" opt_result = Some (VNum ref) ->
    forall ref0,
      MockQuantumAdapter.reference_energy_of (MockQuantumAdapter.id m)
        basis_set = Some ref0 ->
      ref = ref0.
Proof.
  intros m b kw w opt w1 ref E Hr.
  destruct (geometry_details m b kw w)
    as (opt' & w1' & E' & _ & (e & ref' & it & rt & atoms & steps & ts & k
                              & Eopt & _ & _ & Href) & _).
  rewrite E in E'. assert (opt = opt') by congruence. subst opt'. subst opt.
  cbn in Hr. assert (ref' = ref) by congruence. subst ref'. exact Href.
Qed.

Ltac summarize e ref it rt :=
  unfold engine_summary; repeat (split; [reflexivity|]);
  exists e, ref, it, rt; repeat (split; [reflexivity|]).

Lemma mock_engine_summary :
  forall kind m basis_set kwargs n w,
    In kind internal_types ->
    get_default "num_states" (VInt 3) kwargs = VInt n ->
    exists result w',
      MockQuantumAdapter.run_experiment kind m basis_set kwargs w
      = (Ok result, w') /\
      engine_summary m basis_set result.
Proof.
  intros kind m b kw n w Hkind Hn. cbn [internal_types In] in Hkind.
  destruct Hkind as [<-|[<-|[<-|[<-|[<-|[]]]]]].
  - destruct (ground_state_details m b kw w)
      as (r & w' & E & _ & HS & _).
    destruct HS as (e & ref & it & rt & orbs & d1 & d2 & d3 & ts & Er & _).
    exists r, w'. split; [exact E|].
    pose proof (ground_reference m b kw w r w' ref E) as Href. subst r.
    summarize e ref it rt. exact (Href eq_refl).
  - destruct (excited_state_details m b kw n w Hn)
      as (r & w' & E & _ & HS & _).
    destruct HS as (gs & w1 & e & ref & it & rt & states & ts & Eg & _ & Hr
                    & -> & _).
    eexists; exists w'. split; [exact E|].
    summarize e ref it rt. exact (ground_reference m b kw w gs w1 ref Eg Hr).
  - destruct (geometry_details m b kw w)
      as (r & w' & E & _ & HS & _).
    destruct HS as (e & ref & it & rt & opt & steps & ts & k & -> & _ & _
                    & Href).
    eexists; exists w'. split; [exact E|].
    summarize e ref it rt. exact Href.
  - destruct (vibrational_details m b kw w)
      as (r & w' & E & _ & HS & _).
    destruct HS as (opt & w1 & e & ref & it & rt & geo & modes & ts & Eo & _
                    & Hr & _ & -> & _).
    eexists; exists w'. split; [exact E|].
    summarize e ref it rt.
    exact (geometry_reference m b kw w opt w1 ref Eo Hr).
  - destruct (dipole_details m b kw w)
      as (r & w' & E & _ & HS & _).
    destruct HS as (gs & w1 & e & ref & it & rt & dx & dy & dz & ts & Eg & _
                    & Hr & _ & ->).
    eexists; exists w'. split; [exact E|].
    summarize e ref it rt. exact (ground_reference m b kw w gs w1 ref Eg Hr).
Qed.

Lemma translated_kind :
  forall experiment_type,
    In experiment_type (public_types ++ internal_types)%list ->
    In (MockQuantumAdapter.lookup_default experiment_type experiment_type
          QuantumModuleManager.experiment_map) internal_types.
Proof.
  intros t Ht. cbn in Ht.
  repeat (destruct Ht as [<-|Ht]; [cbn; tauto|]). destruct Ht.
Qed.

Lemma mock_manager_summary :
  forall adapter system_id basis_set experiment_type configuration m n w,
    startswith "anti_" system_id = false ->
    QuantumModuleManager.find_system system_id = Some m ->
    keyword_safe configuration = true ->
    In experiment_type (public_types ++ internal_types)%list ->
    get_default "num_states" (VInt 3) configuration = VInt n ->
    exists result w' e ref it rt,
      QuantumModuleManager.run_experiment true adapter system_id basis_set
        experiment_type configuration w = (result, w') /\
      get "error" result = None /\
      get "energy" result = Some (VNum e) /\
      get "reference_energy" result = Some (VNum ref) /\
      get "iterations" result = Some (VInt it) /\
      get "runtime" result = Some (VNum rt) /\
      get "convergence" result = None /\
      get "data" result = Some (VDict []) /\
      get "system_id" result = Some (VStr system_id) /\
      get "basis_set" result = Some (VStr basis_set) /\
      get "experiment_type" result = Some (VStr experiment_type) /\
      (forall ref0,
         MockQuantumAdapter.reference_energy_of (MockQuantumAdapter.id m)
           basis_set = Some ref0 ->
         ref = ref0).
Proof.
  intros adapter sid bs et cfg m n w Hanti Hfind Hsafe Het Hn.
  rewrite (mock_run_experiment adapter sid bs et cfg m w Hanti Hfind Hsafe).
  destruct (mock_engine_summary _ m bs cfg n w (translated_kind et Het) Hn)
    as (r & w' & E & Hdata & Herr & Hconv & _ & _ & _
        & e & ref & it & rt & He & Hr & Hi & Ht & Href).
  unfold through_manager. rewrite E.
  destruct (stamped_gets sid bs et r Hdata)
    as (Sdata & Ssid & Sbs & Set' & Sother).
  exists (stamped sid bs et r), w', e, ref, it, rt.
  split; [reflexivity|].
  rewrite !Sother by discriminate.
  repeat (split; [assumption|]). exact Href.
Qed.

(** X17. In mock mode every public or internal experiment type succeeds on
    a catalog system, for any basis set and any configuration whose keys
    are no positional parameter of the engine and whose [num_states] is an
    integer (or absent): the result has energy, reference energy,
    iterations and runtime, is stamped with the system id, basis set and
    experiment type as the caller gave them, has no [convergence], and its
    [data] is the empty dict the manager fills in; the reference energy is
    the tabulated one whenever the table has the pair. *)
Theorem mock_run_succeeds :
  forall adapter system_id basis_set experiment_type configuration m n w,
    startswith "anti_" system_id = false ->
    QuantumModuleManager.find_system system_id = Some m ->
    keyword_safe configuration = true ->
    In experiment_type (public_types ++ internal_types)%list ->
    get_default "num_states" (VInt 3) configuration = VInt n ->
    exists result w' e ref it rt,
      QuantumModuleManager.run_experiment true adapter system_id basis_set
        experiment_type configuration w = (result, w') /\
      is_success result = true /\
      get "energy" result = Some (VNum e) /\
      get "reference_energy" result = Some (VNum ref) /\
      get "iterations" result = Some (VInt it) /\
      get "runtime" result = Some (VNum rt) /\
      get "convergence" result = None /\
      get "data" result = Some (VDict []) /\
      get "system_id" result = Some (VStr system_id) /\
      get "basis_set" result = Some (VStr basis_set) /\
      get "experiment_type" result = Some (VStr experiment_type) /\
      (forall ref0,
         MockQuantumAdapter.reference_energy_of (MockQuantumAdapter.id m)
           basis_set = Some ref0 ->
         ref = ref0).
Proof.
  intros adapter sid bs et cfg m n w Hanti Hfind Hsafe Het Hn.
  destruct (mock_manager_summary adapter sid bs et cfg m n w Hanti Hfind
              Hsafe Het Hn)
    as (r & w' & e & ref & it & rt & E & Herr & H).
  exists r, w', e, ref, it, rt. split; [exact E|]. split; [|exact H].
  unfold is_success, contains. now rewrite Herr.
Qed.

Lemma mock_run_succeeds_witness :
  exists result w',
    QuantumModuleManager.run_experiment true absent_adapter "CO2" "6-31g"
      "vibrational" [("num_states", VInt 2)] midpoint_world = (result, w') /\
    is_success result = true /\
    get "reference_energy" result = Some (VNum (-187.675)) /\
    get "data" result = Some (VDict []).
Proof.
  destruct (mock_run_succeeds absent_adapter "CO2" "6-31g" "vibrational"
              [("num_states", VInt 2)] MockQuantumAdapter.co2 2%Z
              midpoint_world eq_refl eq_refl eq_refl)
    as (r & w' & e & ref & it & rt & E & Hs & _ & Hr & _ & _ & _ & Hd & _ & _
        & _ & Href).
  - cbn. tauto.
  - reflexivity.
  - exists r, w'. rewrite <- (Href (-187.675) eq_refl). auto.
Defined.

(** X18. What the configuration advertises runs: for every advertised
    system, basis set and experiment type the mock run succeeds, the
    reference-energy table has the pair, and the result reports that
    tabulated energy; the advertised system ids are the catalog's ids and the
    advertised experiment types are the public ones, in the same order. *)
Theorem advertised_runs_succeed :
  forall adapter s b t configuration n w,
    In s Config.AVAILABLE_SYSTEMS ->
    In b Config.AVAILABLE_BASIS_SETS ->
    In t Config.AVAILABLE_EXPERIMENT_TYPES ->
    keyword_safe configuration = true ->
    get_default "num_states" (VInt 3) configuration = VInt n ->
    map Config.entry_id Config.AVAILABLE_SYSTEMS
    = map MockQuantumAdapter.id MockQuantumAdapter.SYSTEMS /\
    map Config.entry_id Config.AVAILABLE_EXPERIMENT_TYPES = public_types /\
    exists result w' ref0,
      QuantumModuleManager.run_experiment true adapter (Config.entry_id s)
        (Config.entry_id b) (Config.entry_id t) configuration w
      = (result, w') /\
      is_success result = true /\
      MockQuantumAdapter.reference_energy_of (Config.entry_id s)
        (Config.entry_id b) = Some ref0 /\
      get "reference_energy" result = Some (VNum ref0) /\
      get "data" result = Some (VDict []).
Proof.
  intros adapter s b t cfg n w Hs Hb Ht Hsafe Hn.
  split; [reflexivity|]. split; [reflexivity|].
  assert (Htype : In (Config.entry_id t) (public_types ++ internal_types)%list).
  { apply in_or_app. left.
    change public_types
      with (map Config.entry_id Config.AVAILABLE_EXPERIMENT_TYPES).
    now apply in_map. }
  assert (Hsys : exists m,
             startswith "anti_" (Config.entry_id s) = false /\
             QuantumModuleManager.find_system (Config.entry_id s) = Some m /\
             MockQuantumAdapter.id m = Config.entry_id s).
  { cbn in Hs. destruct Hs as [<-|[<-|[<-|[<-|[]]]]];
      eexists; repeat split; reflexivity. }
  assert (Href : exists ref0,
             MockQuantumAdapter.reference_energy_of (Config.entry_id s)
               (Config.entry_id b) = Some ref0).
  { cbn in Hs, Hb.
    destruct Hs as [<-|[<-|[<-|[<-|[]]]]];
      destruct Hb as [<-|[<-|[<-|[<-|[<-|[]]]]]];
      eexists; reflexivity. }
  destruct Hsys as (m & Hanti & Hfind & Hid).
  destruct Href as (ref0 & Href).
  destruct (mock_manager_summary adapter _ (Config.entry_id b) _ cfg m n w
              Hanti Hfind Hsafe Htype Hn)
    as (r & w' & e & ref & it & rt & E & Herr & _ & Hr & _ & _ & _ & Hd & _
        & _ & _ & Htable).
  exists r, w', ref0. split; [exact E|].
  split; [unfold is_success, contains; now rewrite Herr|].
  split; [exact Href|].
  rewrite Hid in Htable. rewrite <- (Htable ref0 Href). auto.
Qed.

Lemma advertised_runs_succeed_witness :
  exists result w' ref0,
    QuantumModuleManager.run_experiment true absent_adapter "nh3" "cc-pvtz"
      "dipole" [] midpoint_world = (result, w') /\
    is_success result = true /\
    MockQuantumAdapter.reference_energy_of "nh3" "cc-pvtz" = Some ref0 /\
    get "reference_energy" result = Some (VNum ref0) /\
    get "data" result = Some (VDict []).
Proof.
  apply (advertised_runs_succeed absent_adapter
           (Config.mkEntry "nh3" "Ammonia" "Ammonia molecule (NH3)")
           (Config.mkEntry "cc-pvtz" "cc-pVTZ"
              "Correlation consistent polarized valence triple zeta basis set")
           (Config.mkEntry "dipole" "Dipole Moment"
              "Calculate molecular dipole moment")
           [] 3%Z midpoint_world).
  - cbn. tauto.
  - cbn. tauto.
  - cbn. tauto.
  - reflexivity.
  - reflexivity.
Defined.

Lemma route_mock_row :
  forall adapter experiment_id experiment m n w,
    startswith "anti_" (Routes.system_id experiment) = false ->
    QuantumModuleManager.find_system (Routes.system_id experiment)
    = Some m ->
    keyword_safe (Routes.configuration experiment) = true ->
    In (Routes.experiment_type experiment)
       (public_types ++ internal_types)%list ->
    get_default "num_states" (VInt 3) (Routes.configuration experiment)
    = VInt n ->
    exists w' e ref it rt,
      Routes.run_experiment true adapter experiment_id (Some experiment) w
      = (Routes.Returned
           (Routes.mkExperimentResult (Routes.id experiment)
              (VNum e) (Some (VNum ref)) (VInt it) (VNum rt) None
              (VDict [])), w') /\
      forall ref0,
        MockQuantumAdapter.reference_energy_of (MockQuantumAdapter.id m)
          (Routes.basis_set experiment) = Some ref0 ->
        ref = ref0.
Proof.
  intros adapter experiment_id experiment m n w Hanti Hfind Hsafe Htype Hn.
  destruct (mock_manager_summary adapter _ (Routes.basis_set experiment)
              _ _ m n w Hanti Hfind Hsafe Htype Hn)
    as (r & w' & e & ref & it & rt & E & Herr & He & Hr & Hi & Ht & Hc & Hd
        & _ & _ & _ & Href).
  exists w', e, ref, it, rt. split; [|exact Href].
  unfold Routes.run_experiment. rewrite E.
  unfold Routes.result_row, contains.
  now rewrite Herr, He, Hi, Ht, Hd, Hr, Hc.
Qed.



Lemma bind_kwargs_collision :
  forall configuration,
    keyword_safe configuration = false ->
    exists k,
      In k (keys configuration) /\
      In k QuantumModuleManager.positional_names /\
      QuantumModuleManager.bind_kwargs configuration
      = Raise (TypeError
          ("MockQuantumAdapter.run_experiment() got multiple values for argument '"
           ++ k ++ "'")).
Proof.
  unfold keyword_safe, keys.
  induction configuration as [|[k v] rest IH];
    cbn [map forallb fst QuantumModuleManager.bind_kwargs]; [discriminate|].
  intro H.
  destruct (str_in k QuantumModuleManager.positional_names) eqn:Hk.
  - exists k. split; [now left|]. split; [|reflexivity].
    unfold str_in in Hk. apply existsb_exists in Hk.
    destruct Hk as (p & Hp & Heq). apply String.eqb_eq in Heq. now subst p.
  - cbn [negb andb] in H. destruct (IH H) as (k' & Hin & Hpos & ->).
    exists k'. split; [now right|]. split; [exact Hpos | reflexivity].
Qed.

(** X20. In mock mode, on a catalog system, a configuration with a key that
    names a positional parameter of the engine's [run_experiment] (self,
    experiment_type, molecule_data, basis_set) gives a Failure for one such
    key, whatever the experiment type, before the engine is entered: no
    variate is drawn, nothing sleeps, and the reported runtime is the
    difference of the clock with itself. *)
Theorem keyword_collision :
  forall adapter system_id basis_set experiment_type configuration m w,
    startswith "anti_" system_id = false ->
    QuantumModuleManager.find_system system_id = Some m ->
    keyword_safe configuration = false ->
    exists k,
      In k (keys configuration) /\
      In k QuantumModuleManager.positional_names /\
      QuantumModuleManager.run_experiment true adapter system_id basis_set
        experiment_type configuration w
      = (QuantumModuleManager.failure
           (TypeError
              ("MockQuantumAdapter.run_experiment() got multiple values for argument '"
               ++ k ++ "'"))
           system_id basis_set experiment_type (now w - now w), w).
Proof.
  intros adapter sid bs et cfg m w Hanti Hfind Hsafe.
  destruct (bind_kwargs_collision cfg Hsafe) as (k & Hin & Hpos & Hbind).
  exists k. split; [exact Hin|]. split; [exact Hpos|].
  unfold QuantumModuleManager.run_experiment,
    QuantumModuleManager.run_experiment_try.
  rewrite Hanti, Hfind, Hbind. reflexivity.
Qed.

Lemma keyword_collision_witness :
  exists k,
    In k (keys [("algorithm", VStr "VQE"); ("basis_set", VStr "6-31g")]) /\
    In k QuantumModuleManager.positional_names /\
    QuantumModuleManager.run_experiment true absent_adapter "h2o" "sto-3g"
      "ground" [("algorithm", VStr "VQE"); ("basis_set", VStr "6-31g")]
      midpoint_world
    = (QuantumModuleManager.failure
         (TypeError
            ("MockQuantumAdapter.run_experiment() got multiple values for argument '"
             ++ k ++ "'"))
         "h2o" "sto-3g" "ground" (now midpoint_world - now midpoint_world),
       midpoint_world).
Proof.
  apply (keyword_collision absent_adapter "h2o" "sto-3g" "ground"
           [("algorithm", VStr "VQE"); ("basis_set", VStr "6-31g")]
           MockQuantumAdapter.h2o midpoint_world);
    reflexivity.
Defined.

Lemma bind_ok :
  forall A C (c : M A) (k : A -> M C) w a w1,
    c w = (Ok a, w1) -> bind c k w = k a w1.
Proof. intros A C c k w a w1 E. unfold bind. now rewrite E. Qed.

(** X21. The [num_states] of an excited-state run: a count that is zero or
    negative gives a successful run with no excited state; a value that is
    neither an integer nor a boolean makes the run raise a TypeError naming
    the value's type, and only after the ground-state run and both delays
    have been spent. *)
Theorem excited_state_count :
  forall molecule_data basis_set kwargs w,
    (forall n,
       get_default "num_states" (VInt 3) kwargs = VInt n -> (n <= 0)%Z ->
       exists result w',
         MockQuantumAdapter.run_excited_state_calculation molecule_data
           basis_set kwargs w = (Ok result, w') /\
         get "excited_states" result = Some (VList [])) /\
    ((forall n, get_default "num_states" (VInt 3) kwargs <> VInt n) ->
     (forall b, get_default "num_states" (VInt 3) kwargs <> VBool b) ->
     exists w',
       MockQuantumAdapter.run_excited_state_calculation molecule_data
         basis_set kwargs w
       = (Raise (TypeError
            ("'" ++ QuantumModuleManager.type_name
                      (get_default "num_states" (VInt 3) kwargs)
             ++ "' object cannot be interpreted as an integer")), w') /\
       trace w'
       = (trace w
          ++ [ThreadSleep (sim_time molecule_data basis_set 1.0);
              ThreadSleep (sim_time molecule_data basis_set 1.5)])%list).
Proof.
  intros m b kw w. split.
  - intros n Hn Hle.
    destruct (excited_state_details m b kw n w Hn)
      as (r & w' & E & _ & HS & _).
    destruct HS as (gs & w1 & e & ref & it & rt & states & ts & _ & _ & _
                    & -> & Hstates).
    assert (Hnil : range n = []).
    { unfold range. replace (Z.to_nat n) with 0%nat by lia. reflexivity. }
    rewrite Hnil in Hstates. inversion Hstates; subst.
    eexists; exists w'. split; [exact E | reflexivity].
  - intros Hint Hbool.
    destruct (ground_state_runs m b kw w)
      as (gs & w1 & E1 & (_ & _ & Ht1) & _ & _).
    assert (H15 : 0 <= 1.5) by lra.
    destruct (runs_simulate_calculation_time m b 1.5 w1 H15)
      as ([] & w2 & E2 & (_ & _ & Ht2) & _ & _).
    exists w2. split.
    + unfold MockQuantumAdapter.run_excited_state_calculation.
      rewrite (bind_ok _ _ _ _ _ _ _ E1), (bind_ok _ _ _ _ _ _ _ E2).
      destruct (get_default "num_states" (VInt 3) kw) as [| |n| | | | |];
        try reflexivity.
      * now destruct (Hbool b0).
      * now destruct (Hint n).
    + rewrite Ht2, Ht1, <- app_assoc. reflexivity.
Qed.

Lemma excited_state_count_witness :
  exists w',
    MockQuantumAdapter.run_excited_state_calculation MockQuantumAdapter.h2o
      "sto-3g" [("num_states", VStr "3")] midpoint_world
    = (Raise (TypeError "'str' object cannot be interpreted as an integer"),
       w') /\
    trace w'
    = (trace midpoint_world
       ++ [ThreadSleep (sim_time MockQuantumAdapter.h2o "sto-3g" 1.0);
           ThreadSleep (sim_time MockQuantumAdapter.h2o "sto-3g" 1.5)])%list.
Proof.
  apply (proj2 (excited_state_count MockQuantumAdapter.h2o "sto-3g"
                  [("num_states", VStr "3")] midpoint_world)).
  - intros n H. discriminate H.
  - intros b H. discriminate H.
Defined.

(** ** Systems and experiments of the API *)

(** X23. The systems route serves an id exactly when it is advertised, and
    then the advertised entry is the catalog's molecule of that id, with the
    same name and description, so the mock manager finds it; any other id is
    a 404.  The route compares ids as they are while the manager lowers
    them: an id that is advertised only after lowering is a 404 on the route
    and still a system the manager runs. *)
Theorem system_route_lookup :
  forall system_id,
    (In system_id (map Config.entry_id Config.AVAILABLE_SYSTEMS) ->
     exists s m,
       Routes.get_quantum_system system_id = Routes.Returned s /\
       In s Config.AVAILABLE_SYSTEMS /\
       Config.entry_id s = system_id /\
       QuantumModuleManager.find_system system_id = Some m /\
       MockQuantumAdapter.id m = system_id /\
       MockQuantumAdapter.name m = Config.entry_name s /\
       MockQuantumAdapter.description m = Config.entry_description s) /\
    (~ In system_id (map Config.entry_id Config.AVAILABLE_SYSTEMS) ->
     Routes.get_quantum_system system_id
     = Routes.HTTPException 404
         (VStr ("System " ++ system_id ++ " not found"))) /\
    (In (lower system_id) (map Config.entry_id Config.AVAILABLE_SYSTEMS) ->
     system_id <> lower system_id ->
     Routes.get_quantum_system system_id
     = Routes.HTTPException 404
         (VStr ("System " ++ system_id ++ " not found")) /\
     exists m,
       QuantumModuleManager.find_system system_id = Some m /\
       MockQuantumAdapter.id m = lower system_id).
Proof.
  intro sid.
  assert (Hmiss : ~ In sid (map Config.entry_id Config.AVAILABLE_SYSTEMS) ->
                  Routes.get_quantum_system sid
                  = Routes.HTTPException 404
                      (VStr ("System " ++ sid ++ " not found"))).
  { intro Hnot. cbn [map Config.AVAILABLE_SYSTEMS Config.entry_id In] in Hnot.
    unfold Routes.get_quantum_system, Config.AVAILABLE_SYSTEMS.
    cbn [find Config.entry_id].
    destruct (String.eqb_spec "h2o" sid); [tauto|].
    destruct (String.eqb_spec "ch4" sid); [tauto|].
    destruct (String.eqb_spec "nh3" sid); [tauto|].
    destruct (String.eqb_spec "co2" sid); [tauto|]. reflexivity. }
  split; [|split].
  - intro Hin. cbn in Hin.
    destruct Hin as [<-|[<-|[<-|[<-|[]]]]];
      eexists; eexists; (split; [reflexivity|]);
      (split; [cbn; tauto|]); repeat split; reflexivity.
  - exact Hmiss.
  - intros Hin Hneq. split.
    + apply Hmiss. intro Hsid. apply Hneq.
      cbn in Hsid. destruct Hsid as [<-|[<-|[<-|[<-|[]]]]]; reflexivity.
    + unfold QuantumModuleManager.find_system. cbn in Hin.
      destruct Hin as [H|[H|[H|[H|[]]]]]; rewrite <- H;
        eexists; split; reflexivity.
Qed.

Lemma system_route_lookup_witness :
  Routes.get_quantum_system "H2O"
  = Routes.HTTPException 404 (VStr ("System " ++ "H2O" ++ " not found")) /\
  exists m,
    QuantumModuleManager.find_system "H2O" = Some m /\
    MockQuantumAdapter.id m = lower "H2O".
Proof.
  apply (proj2 (proj2 (system_route_lookup "H2O"))).
  - cbn. tauto.
  - discriminate.
Defined.

(** X24. An experiment created through the API for an advertised system,
    basis set and experiment type: its stored configuration has exactly the
    keys ansatz, mapper, hamiltonian, algorithm and advanced_options, none
    of which collides with a parameter of the engine, and no [num_states];
    its name is the given one, or "Experiment " and the system id when the
    name is missing or empty; and running it in mock mode returns a row for
    its id with the tabulated reference energy, no convergence and empty
    data. *)
Theorem created_experiment_runs :
  forall adapter request new_id w,
    In (Schemas.system_id request)
       (map Config.entry_id Config.AVAILABLE_SYSTEMS) ->
    In (Schemas.basis_set request)
       (map Config.entry_id Config.AVAILABLE_BASIS_SETS) ->
    In (Schemas.experiment_type request)
       (map Config.entry_id Config.AVAILABLE_EXPERIMENT_TYPES) ->
    let row := Routes.create_experiment request new_id in
    keys (Routes.configuration row)
    = ["ansatz"; "mapper"; "hamiltonian"; "algorithm"; "advanced_options"] /\
    keyword_safe (Routes.configuration row) = true /\
    get "num_states" (Routes.configuration row) = None /\
    (Routes.name row
     = match Schemas.name request with
       | Some given =>
           if String.eqb given "" then
             "Experiment " ++ Schemas.system_id request
           else given
       | None => "Experiment " ++ Schemas.system_id request
       end) /\
    exists w' e ref0 it rt,
      MockQuantumAdapter.reference_energy_of (Schemas.system_id request)
        (Schemas.basis_set request) = Some ref0 /\
      Routes.run_experiment true adapter new_id (Some row) w
      = (Routes.Returned
           (Routes.mkExperimentResult new_id (VNum e) (Some (VNum ref0))
              (VInt it) (VNum rt) None (VDict [])), w').
Proof.
  intros adapter request new_id w Hs Hb Ht row.
  split; [reflexivity|]. split; [reflexivity|]. split; [reflexivity|].
  split; [reflexivity|].
  assert (Hsys : exists m,
             startswith "anti_" (Schemas.system_id request) = false /\
             QuantumModuleManager.find_system (Schemas.system_id request)
             = Some m /\
             MockQuantumAdapter.id m = Schemas.system_id request).
  { cbn in Hs. destruct Hs as [<-|[<-|[<-|[<-|[]]]]];
      eexists; repeat split; reflexivity. }
  assert (Href : exists ref0,
             MockQuantumAdapter.reference_energy_of
               (Schemas.system_id request) (Schemas.basis_set request)
             = Some ref0).
  { cbn in Hs, Hb.
    destruct Hs as [<-|[<-|[<-|[<-|[]]]]];
      destruct Hb as [<-|[<-|[<-|[<-|[<-|[]]]]]];
      eexists; reflexivity. }
  destruct Hsys as (m & Hanti & Hfind & Hid).
  destruct Href as (ref0 & Href).
  destruct (route_mock_row adapter new_id row m 3%Z w Hanti Hfind eq_refl)
    as (w' & e & ref & it & rt & E & Htable).
  - apply in_or_app. left. exact Ht.
  - reflexivity.
  - exists w', e, ref0, it, rt. split; [exact Href|].
    rewrite E. cbn [row Routes.create_experiment Routes.id Routes.basis_set]
      in Htable |- *.
    rewrite Hid in Htable. now rewrite (Htable ref0 Href).
Qed.

Lemma created_experiment_runs_witness :
  exists w' e ref0 it rt,
    MockQuantumAdapter.reference_energy_of "ch4" "3-21g" = Some ref0 /\
    Routes.run_experiment true absent_adapter 12
      (Some (Routes.create_experiment
               (Schemas.mkExperimentCreate None "ch4" "3-21g" "excited"
                  (Schemas.mkExperimentConfig "TwoLocal" "JW" "electronic"
                     "VQE" None)) 12))
      midpoint_world
    = (Routes.Returned
         (Routes.mkExperimentResult 12 (VNum e) (Some (VNum ref0))
            (VInt it) (VNum rt) None (VDict [])), w').
Proof.
  apply (created_experiment_runs absent_adapter
           (Schemas.mkExperimentCreate None "ch4" "3-21g" "excited"
              (Schemas.mkExperimentConfig "TwoLocal" "JW" "electronic"
                 "VQE" None)) 12%Z midpoint_world).
  - cbn. tauto.
  - cbn. tauto.
  - cbn. tauto.
Defined.

(** ** Estimates for string entries *)

(** X25. For a configuration whose [algorithm] and [ansatz] entries, when
    present, are strings, [estimate_resources] returns an estimate for every
    system id, with or without the mock adapter; and when the mock-catalog
    path raises, the exception does not reach the caller: the result is the
    generic estimate. *)
Theorem estimate_resources_total_on_string_entries :
  forall mock system_id configuration algorithm ansatz,
    get_default "algorithm" (VStr "") configuration = VStr algorithm ->
    get_default "ansatz" (VStr "") configuration = VStr ansatz ->
    (exists estimate,
       QuantumModuleManager.estimate_resources mock system_id configuration
       = Ok estimate) /\
    (forall molecule_data e,
       mock = true ->
       QuantumModuleManager.find_system system_id = Some molecule_data ->
       MockQuantumAdapter.estimate_resources molecule_data
         (get_default "basis_set" (VStr "sto-3g") configuration)
         (get_default "experiment_type" (VStr "ground_state") configuration)
       = Raise e ->
       QuantumModuleManager.estimate_resources mock system_id configuration
       = Ok (Heuristic.generic system_id algorithm ansatz)).
Proof.
  intros mock system_id configuration algorithm ansatz Halg Hans.
  split.
  - unfold QuantumModuleManager.estimate_resources.
    destruct (QuantumModuleManager.mock_estimate mock system_id configuration)
      as [estimate|].
    + now exists estimate.
    + rewrite (generic_estimate_spec _ _ _ _ Halg Hans). eauto.
  - intros molecule_data e Hmock Hfind Hraise.
    unfold QuantumModuleManager.estimate_resources,
      QuantumModuleManager.mock_estimate.
    rewrite Hmock, Hfind, Hraise.
    now apply generic_estimate_spec.
Qed.

Lemma estimate_resources_total_on_string_entries_witness :
  QuantumModuleManager.estimate_resources true "h2o"
    [("basis_set", VList [])]
  = Ok [ ("qubits", VInt 8); ("depth", VInt 40);
         ("runtime", VStr "10-30 seconds") ].
Proof.
  apply (proj2 (estimate_resources_total_on_string_entries true "h2o"
                  [("basis_set", VList [])] "" "" eq_refl eq_refl)
           MockQuantumAdapter.h2o (TypeError "unhashable type: 'list'"));
    reflexivity.
Defined.
